(** * Verification of the document-insight pipeline

    Shallow embedding of the Python sources under
    [backend/python_model]:

    - [src/document_analyzer/pdf_processor.py]     (module [Segmenter])
    - [src/document_analyzer/section_extractor.py] (module [Ranker])
    - [src/document_analyzer/subsection_analyzer.py] (module [Refiner])
    - [main.py]                                    (module [Pipeline])
    - [ml_model.py]                                (module [ModelStore])
    - [src/document_analyzer/section_extractor.py], the page splitter
      of lines 27-127                              (module [Splitter])

    Conventions of the embedding.

    - Python [float] scores are modelled by exact rationals [Q]; every
      comparison the code makes ([>], [sorted], [argmax]) is made on [Q].
    - Python [str] is [string] (one [ascii] per character).
    - The sentence-embedding model, the key-phrase extractor, the
      sentence tokenizer, the PDF reader and the clock are external to
      the repository: they are parameters of the definitions below
      (section variables, or the fields of [Pipeline.env]).  A call
      that can raise returns a [result].
    - A Python [dict] used as a counter is a [gmap], a [set] is a [gset],
      a [dict] whose iteration order matters is an association list with
      unique keys. *)

From Stdlib Require Import QArith Lqa ZArith Ascii String Bool DecimalString.
From stdpp Require Import gmap strings list.
From Stdlib Require Import Sorted.

(* ===================================================================== *)
(** * Python string primitives *)
(* ===================================================================== *)

Module PyStr.

(** [str.isspace] on the ASCII range: TAB, LF, VT, FF, CR, the four
    separators 0x1c..0x1f and SPACE. *)
Definition isspace (c : ascii) : bool :=
  let n := nat_of_ascii c in
  ((9 <=? n)%nat && (n <=? 13)%nat) || ((28 <=? n)%nat && (n <=? 32)%nat).

(** [s + t] *)
Definition cat (s t : string) : string := String.append s t.

(** [len(s)] *)
Definition len (s : string) : nat := String.length s.

(** [s.split()]: maximal runs of non-whitespace characters.  [cur] is
    the word being read. *)
Fixpoint split_go (cur : string) (s : string) : list string :=
  match s with
  | EmptyString => match cur with EmptyString => [] | _ => [cur] end
  | String c s' =>
      if isspace c
      then match cur with
           | EmptyString => split_go EmptyString s'
           | _ => cur :: split_go EmptyString s'
           end
      else split_go (cat cur (String c EmptyString)) s'
  end.

Definition split (s : string) : list string := split_go EmptyString s.

(** [s.lstrip()], [s.rstrip()], [s.strip()] *)
Fixpoint lstrip (s : string) : string :=
  match s with
  | EmptyString => EmptyString
  | String c s' => if isspace c then lstrip s' else s
  end.

Fixpoint rstrip (s : string) : string :=
  match s with
  | EmptyString => EmptyString
  | String c s' =>
      match rstrip s' with
      | EmptyString => if isspace c then EmptyString else String c EmptyString
      | r => String c r
      end
  end.

Definition strip (s : string) : string := rstrip (lstrip s).

(** [s.startswith(p)] *)
Fixpoint startswith (p s : string) : bool :=
  match p, s with
  | EmptyString, _ => true
  | String a p', String b s' => bool_decide (a = b) && startswith p' s'
  | String _ _, EmptyString => false
  end.

(** [sub in s] *)
Fixpoint contains (sub s : string) : bool :=
  match s with
  | EmptyString => startswith sub EmptyString
  | String _ s' => startswith sub s || contains sub s'
  end.

(** [s.endswith(suf)] *)
Fixpoint endswith (suf s : string) : bool :=
  bool_decide (s = suf) ||
  match s with
  | EmptyString => false
  | String _ s' => endswith suf s'
  end.

(** [s[:n]] *)
Fixpoint take (n : nat) (s : string) : string :=
  match n, s with
  | O, _ => EmptyString
  | _, EmptyString => EmptyString
  | S n', String c s' => String c (take n' s')
  end.

(** [s.lower()] on the ASCII range. *)
Definition lower_char (c : ascii) : ascii :=
  let n := nat_of_ascii c in
  if ((65 <=? n)%nat && (n <=? 90)%nat) then ascii_of_nat (n + 32) else c.

Fixpoint lower (s : string) : string :=
  match s with
  | EmptyString => EmptyString
  | String c s' => String (lower_char c) (lower s')
  end.

(** [sep.join(l)] *)
Fixpoint join (sep : string) (l : list string) : string :=
  match l with
  | [] => EmptyString
  | [x] => x
  | x :: l' => cat x (cat sep (join sep l'))
  end.

(** Truthiness of a string: [bool(s)]. *)
Definition truthy (s : string) : bool :=
  match s with EmptyString => false | _ => true end.

End PyStr.

(* ===================================================================== *)
(** * Rational helpers *)
(* ===================================================================== *)

(** [x < y] on scores, as a boolean. *)
Definition Qltb (x y : Q) : bool := negb (Qle_bool y x).

(** [sum(l)] and [np.mean(l)]. *)
Definition Qsum (l : list Q) : Q := foldr Qplus 0%Q l.

Definition Qmean (l : list Q) : Q :=
  (Qsum l / inject_Z (Z.of_nat (length l)))%Q.

(** A call into an external library either returns or raises
    [Exception(msg)]. *)
Inductive result (A : Type) : Type :=
| Ok (a : A)
| Raise (msg : string).
Arguments Ok {A}.
Arguments Raise {A}.

(** Python truthiness of a number: [bool(x)]. *)
Definition Qtruthy (x : Q) : bool := negb (Qeq_bool x 0).

(** [sorted(l)] on numbers, ascending. *)
Fixpoint Qinsert (x : Q) (l : list Q) : list Q :=
  match l with
  | [] => [x]
  | y :: l' => if Qle_bool x y then x :: y :: l' else y :: Qinsert x l'
  end.

Definition Qsort (l : list Q) : list Q := foldr Qinsert [] l.

(** [np.median(l)] for a non-empty [l]: the middle element of the sorted
    list, or the mean of the two middle ones. *)
Definition Qmedian (l : list Q) : Q :=
  let s := Qsort l in
  let n := length s in
  if Nat.even n
  then ((nth (n / 2 - 1) s 0 + nth (n / 2) s 0) / 2)%Q
  else nth (n / 2) s 0%Q.

(* ===================================================================== *)
(** * Structural segmenter: [pdf_processor.py] *)
(* ===================================================================== *)

Module Segmenter.

(** A character dictionary of pdfplumber; both keys are read with
    [.get(key, default)]. *)
Record char := Char {
  fontname : option string;
  size : option Q
}.

(** A text line: [line['text']], [line['chars']]. *)
Record line := Line {
  text : string;
  chars : list char
}.

(** A word dictionary; only [word.get('size')] is read.  pdfplumber
    puts a size into the dictionary when [extract_words] is given
    [extra_attrs=["size"]], and none otherwise. *)
Record word := Word {
  word_size : option Q
}.

(** A page: the outcomes of [page.extract_words()] and of
    [page.extract_text_lines(layout=True, strip=True)]. *)
Record page := Page {
  extract_words : result (list word);
  extract_text_lines : result (list line)
}.

(** A section dictionary appended to [doc_data["sections"]];
    [section_title] is [None] or a [str]. *)
Record section := Section_ {
  section_title : option string;
  content : string;
  page_number : nat
}.

Record doc_data := DocData {
  filename : string;
  sections : list section
}.

(** [word.get('size')] is truthy. *)
Definition has_size (w : word) : bool :=
  match word_size w with
  | Some q => Qtruthy q
  | None => false
  end.

(** [[word.get('size', 0) for word in words if word.get('size')]] *)
Definition sizes_of (ws : list word) : list Q :=
  List.map (fun w => default 0%Q (word_size w)) (List.filter has_size ws).

(** [PDFProcessor._get_median_font_size] *)
Definition _get_median_font_size (p : page) : result Q :=
  match extract_words p with
  | Raise e => Raise e
  | Ok ws =>
      match sizes_of ws with
      | [] => Ok 10.0%Q
      | sizes => Ok (Qmedian sizes)
      end
  end.

(** The local variables of the page loop, together with the list
    [doc_data["sections"]] they feed. *)
Record state := State {
  st_sections : list section;
  current_section_title : option string;
  current_section_content : string;
  current_section_page : nat
}.

(** The four structural tests of lines 40-46. *)
Definition is_bold (c : char) : bool :=
  let font_name := PyStr.lower (default EmptyString (fontname c)) in
  PyStr.contains "bold" font_name || PyStr.contains "black" font_name.

Definition is_large_enough (title_size_threshold : Q) (c : char) : bool :=
  Qltb title_size_threshold (default 0%Q (size c)).

Definition is_short_line (line_text : string) : bool :=
  let n := length (PyStr.split line_text) in
  (3 <? n)%nat && (n <? 12)%nat.

Definition ends_with_punctuation (line_text : string) : bool :=
  PyStr.endswith "." line_text || PyStr.endswith "," line_text.

Definition is_title (title_size_threshold : Q) (first_char : char)
    (line_text : string) : bool :=
  is_large_enough title_size_threshold first_char
  && is_bold first_char
  && is_short_line line_text
  && negb (ends_with_punctuation line_text).

(** [doc_data["sections"].append({...})] guarded by
    [if current_section_content.strip()]. *)
Definition flush (st : state) : list section :=
  if PyStr.truthy (PyStr.strip (current_section_content st))
  then st_sections st ++
       [Section_ (current_section_title st)
                 (PyStr.strip (current_section_content st))
                 (current_section_page st)]
  else st_sections st.

(** The body of [for line in lines] (lines 30-55). *)
Definition process_line (title_size_threshold : Q) (page_num : nat)
    (st : state) (l : line) : state :=
  let line_text := PyStr.strip (text l) in
  match chars l with
  | [] => st
  | first_char :: _ =>
      if negb (PyStr.truthy line_text) then st
      else
        let t := match current_section_title st with
                 | None => Some line_text
                 | Some t => Some t
                 end in
        let st1 := State (st_sections st) t
                     (current_section_content st) (current_section_page st) in
        if is_title title_size_threshold first_char line_text
        then State (flush st1) (Some line_text) EmptyString page_num
        else State (st_sections st1) t
               (PyStr.cat (current_section_content st1)
                          (PyStr.cat line_text " "))
               (current_section_page st1)
  end.

(** The page loop.  An exception raised by [extract_text_lines] leaves
    the loop with the sections appended so far: the local variables are
    lost, the list object [doc_data["sections"]] is not. *)
Fixpoint process_pages (title_size_threshold : Q) (page_num : nat)
    (st : state) (pages : list page) : state + (list section * string) :=
  match pages with
  | [] => inl st
  | p :: rest =>
      match extract_text_lines p with
      | Raise e => inr (st_sections st, e)
      | Ok lines =>
          process_pages title_size_threshold (S page_num)
            (fold_left (process_line title_size_threshold page_num) lines st)
            rest
      end
  end.

(** [s.split(sep)[-1]] for a one-character separator. *)
Fixpoint last_field (sep : ascii) (acc : string) (s : string) : string :=
  match s with
  | EmptyString => acc
  | String c s' =>
      if bool_decide (c = sep) then last_field sep EmptyString s'
      else last_field sep (PyStr.cat acc (String c EmptyString)) s'
  end.

(** [file_path.split('\\')[-1].split('/')[-1]] *)
Definition doc_filename_of (file_path : string) : string :=
  last_field "/" EmptyString (last_field "\" EmptyString file_path).

(** The [except Exception as e] handler of lines 59-62. *)
Definition on_exception (doc_filename : string) (sections_so_far : list section)
    (e : string) : list section :=
  match sections_so_far with
  | [] => [Section_ (Some (PyStr.cat "Error processing " doc_filename)) e 1]
  | _ => sections_so_far
  end.

(** [PDFProcessor.extract_text_with_structure].  [opened] is the outcome
    of [pdfplumber.open(file_path)]: the pages of the document, or the
    exception it raises. *)
Definition extract_text_with_structure (opened : result (list page))
    (file_path : string) : doc_data :=
  let doc_filename := doc_filename_of file_path in
  match opened with
  | Raise e => DocData doc_filename (on_exception doc_filename [] e)
  | Ok [] => DocData doc_filename []
  | Ok (first_page :: rest) =>
      match _get_median_font_size first_page with
      | Raise e => DocData doc_filename (on_exception doc_filename [] e)
      | Ok median_body_size =>
          let title_size_threshold := (median_body_size * 1.15)%Q in
          match process_pages title_size_threshold 1
                  (State [] None EmptyString 1) (first_page :: rest) with
          | inl st => DocData doc_filename (flush st)
          | inr (sections_so_far, e) =>
              DocData doc_filename (on_exception doc_filename sections_so_far e)
          end
      end
  end.

End Segmenter.

(* ===================================================================== *)
(** * Relevance ranker: [section_extractor.py] *)
(* ===================================================================== *)

Module Ranker.

(** A section dictionary as the segmenter produces it. *)
Record section := Section_ {
  section_title : string;
  content : string;
  page_number : nat
}.

(** An input document: [{"filename": ..., "sections": [...]}]. *)
Record doc := Doc {
  filename : string;
  sections : list section
}.

(** [{**section, "document": ..., "final_score": ...}] *)
Record scored := Scored {
  base : section;
  document : string;
  final_score : Q
}.

(** The request model [req]: [{"combined_text", "embedding"}]. *)
Record request (vec : Type) := Request {
  combined_text : string;
  embedding : vec
}.
Arguments Request {vec}.
Arguments combined_text {vec}.
Arguments embedding {vec}.

Definition title (c : scored) : string := section_title (base c).

(** [SectionExtractor.DIVERSITY_PENALTY] *)
Definition DIVERSITY_PENALTY : Q := 0.60.

(** ** Insertion-ordered dictionaries with [str] keys *)

(** [d[k] = v]: an existing key keeps its position. *)
Fixpoint dict_set {V} (k : string) (v : V) (d : list (string * V))
  : list (string * V) :=
  match d with
  | [] => [(k, v)]
  | (k', v') :: d' =>
      if bool_decide (k' = k) then (k, v) :: d'
      else (k', v') :: dict_set k v d'
  end.

(** [{k: v for k, v in pairs}] *)
Definition dict_of_pairs {V} (pairs : list (string * V)) : list (string * V) :=
  fold_left (fun d kv => dict_set (fst kv) (snd kv) d) pairs [].

(** ** Scoring (lines 133-166) *)

Section Scoring.

Variable vec : Type.
(** [self.model.encode] *)
Variable encode : string -> vec.
(** [cosine_similarity([a], [b])[0][0]] *)
Variable cosine_similarity : vec -> vec -> Q.
(** [self.kw_model.extract_keywords(text, ..., top_n=top_n)] *)
Variable extract_keywords : string -> list (string * Q).

(** [_extract_dynamic_themes]: a dict comprehension over the keywords,
    [{}] when the extractor returns nothing. *)
Definition _extract_dynamic_themes (text : string) : list (string * Q) :=
  match extract_keywords text with
  | [] => []
  | keywords => dict_of_pairs keywords
  end.

(** [{theme: self.model.encode(theme) for theme in dynamic_themes.keys()}] *)
Definition theme_embeddings_of (dynamic_themes : list (string * Q))
  : list (string * vec) :=
  dict_of_pairs (List.map (fun tw => (fst tw, encode (fst tw))) dynamic_themes).

(** [f"{section['section_title']}. {section['content'][:500]}"] *)
Definition section_text (s : section) : string :=
  PyStr.cat (section_title s) (PyStr.cat ". " (PyStr.take 500 (content s))).

(** The nested comprehension of lines 154-158. *)
Definition theme_scores (dynamic_themes : list (string * Q))
    (theme_embeddings : list (string * vec)) (section_embedding : vec)
  : list Q :=
  flat_map (fun te : string * vec =>
    flat_map (fun tw : string * Q =>
      if bool_decide (fst te = fst tw)
      then [(cosine_similarity section_embedding (snd te) * snd tw)%Q]
      else [])
    dynamic_themes)
  theme_embeddings.

Definition thematic_score_of (dynamic_themes : list (string * Q))
    (theme_embeddings : list (string * vec)) (section_embedding : vec) : Q :=
  match dynamic_themes with
  | [] => 0.0%Q
  | _ =>
      match theme_scores dynamic_themes theme_embeddings section_embedding with
      | [] => 0.0%Q
      | scores => Qmean scores
      end
  end.

(** The body of the inner [for section in ...] loop: [None] stands for
    [continue], [Some] for the dictionary appended to [all_sections]. *)
Definition score_section (req : request vec)
    (dynamic_themes : list (string * Q))
    (theme_embeddings : list (string * vec))
    (d : doc) (s : section) : option scored :=
  if PyStr.contains ".pdf" (section_title s) then None
  else
    let text := section_text s in
    if (length (PyStr.split text) <? 10)%nat then None
    else
      let section_embedding := encode text in
      let overall_relevance_score :=
        cosine_similarity section_embedding (embedding req) in
      let thematic_score :=
        thematic_score_of dynamic_themes theme_embeddings section_embedding in
      let final := (overall_relevance_score * 0.4 + thematic_score * 0.6)%Q in
      Some (Scored s (filename d) final).

(** [all_sections] after the two nested loops of lines 140-166. *)
Definition score_all (docs : list doc) (req : request vec) : list scored :=
  let dynamic_themes := _extract_dynamic_themes (combined_text req) in
  let theme_embeddings := theme_embeddings_of dynamic_themes in
  flat_map (fun d =>
    flat_map (fun s =>
      option_list (score_section req dynamic_themes theme_embeddings d s))
    (sections d))
  docs.

End Scoring.

(** ** Diversity-penalised selection (lines 170-204) *)

(** [sorted(l, key=lambda s: s["final_score"], reverse=True)]: stable,
    equal keys keep their relative order. *)
Fixpoint insert_desc (x : scored) (l : list scored) : list scored :=
  match l with
  | [] => [x]
  | y :: l' =>
      if Qltb (final_score x) (final_score y) then y :: insert_desc x l'
      else x :: y :: l'
  end.

Definition sorted_desc (l : list scored) : list scored :=
  foldr insert_desc [] l.

(** [doc_counts]: the [defaultdict(int)] rebuilt at every round. *)
Definition count_documents (final_results : list scored) : gmap string nat :=
  fold_left
    (fun (m : gmap string nat) res =>
       <[document res := S (default 0%nat (m !! document res))]> m)
    final_results ∅.

(** [doc_counts[doc_name]] on a [defaultdict(int)]. *)
Definition doc_count (doc_counts : gmap string nat) (doc_name : string) : nat :=
  default 0%nat (doc_counts !! doc_name).

(** [1.0 - (doc_counts[doc_name] * self.DIVERSITY_PENALTY)] *)
Definition penalty (doc_counts : gmap string nat) (doc_name : string) : Q :=
  (1.0 - inject_Z (Z.of_nat (doc_count doc_counts doc_name)) * DIVERSITY_PENALTY)%Q.

Definition penalized_score (doc_counts : gmap string nat) (c : scored) : Q :=
  (final_score c * penalty doc_counts (document c))%Q.

(** One iteration of [for candidate in candidates]; the state is
    [(best_candidate, best_score)]. *)
Definition scan_step (seen_titles : gset string) (doc_counts : gmap string nat)
    (st : option scored * Q) (candidate : scored) : option scored * Q :=
  if bool_decide (title candidate ∈ seen_titles) then st
  else
    let p := penalized_score doc_counts candidate in
    if Qltb (snd st) p then (Some candidate, p) else st.

(** The whole inner loop, started from [(None, -1.0)]. *)
Definition scan (seen_titles : gset string) (doc_counts : gmap string nat)
    (candidates : list scored) : option scored * Q :=
  fold_left (scan_step seen_titles doc_counts) candidates (None, (-1.0)%Q).

(** Dictionary equality [==] on scored sections. *)
Definition section_eqb (a b : section) : bool :=
  bool_decide (section_title a = section_title b)
  && bool_decide (content a = content b)
  && bool_decide (page_number a = page_number b).

Definition scored_eqb (a b : scored) : bool :=
  section_eqb (base a) (base b)
  && bool_decide (document a = document b)
  && Qeq_bool (final_score a) (final_score b).

(** [candidates.remove(x)]: drops the first element equal to [x]. *)
Fixpoint list_remove (x : scored) (l : list scored) : list scored :=
  match l with
  | [] => []
  | y :: l' => if scored_eqb y x then l' else y :: list_remove x l'
  end.

(** Truthiness of a list. *)
Definition nonempty {A} (l : list A) : bool :=
  match l with [] => false | _ => true end.

(** The [while len(final_results) < k and candidates] loop.  [fuel]
    bounds the number of iterations; [None] means the bound was hit. *)
Fixpoint select_loop (fuel : nat) (k : Z) (candidates final_results : list scored)
    (seen_titles : gset string) : option (list scored) :=
  if (Z.of_nat (length final_results) <? k)%Z && nonempty candidates
  then
    match fuel with
    | O => None
    | S fuel' =>
        let doc_counts := count_documents final_results in
        match fst (scan seen_titles doc_counts candidates) with
        | Some best_candidate =>
            select_loop fuel' k
              (list_remove best_candidate candidates)
              (final_results ++ [best_candidate])
              ({[title best_candidate]} ∪ seen_titles)
        | None => Some final_results
        end
    end
  else Some final_results.

(** Lines 170-204: the selection phase on the scored candidates. *)
Definition diversity_rank (all_sections : list scored) (k : Z)
  : option (list scored) :=
  match all_sections with
  | [] => Some []
  | _ =>
      let candidates := sorted_desc all_sections in
      select_loop (Z.to_nat k) k candidates [] ∅
  end.

(** [SectionExtractor.get_sections_with_content] *)
Definition get_sections_with_content {vec : Type}
    (encode : string -> vec) (cosine_similarity : vec -> vec -> Q)
    (extract_keywords : string -> list (string * Q))
    (docs : list doc) (req : request vec) (k : Z) : option (list scored) :=
  diversity_rank
    (score_all vec encode cosine_similarity extract_keywords docs req) k.

End Ranker.

(* ===================================================================== *)
(** * Sub-section refiner: [subsection_analyzer.py] *)
(* ===================================================================== *)

Module Refiner.

(** One entry of [summary_outputs]. *)
Record summary := Summary {
  document : string;
  refined_text : string;
  page_number : nat
}.

(** [l[a:b]] for indices [0 <= a], [0 <= b]. *)
Definition slice {A} (a b : Z) (l : list A) : list A :=
  firstn (Z.to_nat b - Z.to_nat a) (skipn (Z.to_nat a) l).

(** [np.argmax]: the index of the first occurrence of the maximum.
    [argmax_go i best best_score l] scans [l], whose head has index [i]. *)
Fixpoint argmax_go (i best : nat) (best_score : Q) (l : list Q) : nat :=
  match l with
  | [] => best
  | x :: l' =>
      if Qltb best_score x then argmax_go (S i) i x l'
      else argmax_go (S i) best best_score l'
  end.

Definition argmax (l : list Q) : nat :=
  match l with
  | [] => 0%nat
  | x :: l' => argmax_go 1 0 x l'
  end.

Section Refine.

Variable vec : Type.
(** [self.model.encode] applied to one sentence of the batch. *)
Variable encode : string -> vec.
Variable cosine_similarity : vec -> vec -> Q.
(** [nltk.tokenize.sent_tokenize] *)
Variable sent_tokenize : string -> list string.

(** [[s.strip() for s in sent_tokenize(content) if len(s.strip().split()) > 4]] *)
Definition usable_sentences (content : string) : list string :=
  List.map PyStr.strip
    (List.filter (fun s => (4 <? length (PyStr.split (PyStr.strip s)))%nat)
       (sent_tokenize content)).

(** [cosine_similarity(sentence_embeddings, [query_embedding]).flatten()] *)
Definition sim_scores (sents : list string) (query_embedding : vec) : list Q :=
  List.map (fun s => cosine_similarity (encode s) query_embedding) sents.

(** The body of [for section in sections]. *)
Definition refine (query_embedding : vec) (content : string) : string :=
  let sents := usable_sentences content in
  if (length sents <? 3)%nat then content
  else
    let best_sent_idx := Z.of_nat (argmax (sim_scores sents query_embedding)) in
    let start_idx := Z.max 0 (best_sent_idx - 1) in
    let end_idx := Z.min (Z.of_nat (length sents)) (best_sent_idx + 2) in
    PyStr.join " " (slice start_idx end_idx sents).

(** [SubsectionAnalyzer.analyze_subsections] *)
Definition analyze_subsections (sections : list Ranker.scored)
    (req_model : Ranker.request vec) : list summary :=
  match sections with
  | [] => []
  | _ =>
      List.map (fun section =>
        Summary (Ranker.document section)
                (refine (Ranker.embedding req_model)
                        (Ranker.content (Ranker.base section)))
                (Ranker.page_number (Ranker.base section)))
      sections
  end.

End Refine.

End Refiner.

(* ===================================================================== *)
(** * Pipeline orchestrator: [main.py], [ml_model.py], [models/pdf.py] *)
(* ===================================================================== *)

Module Pipeline.

(** An embedding as [encode_text] returns it: [embedding.tolist()]. *)
Definition vec : Type := list Q.

(** Truthiness of a list. *)
Definition nonempty {A} (l : list A) : bool :=
  match l with [] => false | _ => true end.

(** [str(n)] for an [int]. *)
Definition str_of_Z (z : Z) : string :=
  DecimalString.NilZero.string_of_int (Z.to_int z).

(** [str(l)] for a list of [int]. *)
Definition str_of_Z_list (l : list Z) : string :=
  PyStr.cat "[" (PyStr.cat (PyStr.join ", " (List.map str_of_Z l)) "]").

(** [f"{x}"] for a value that is [None] or a [str]. *)
Definition fmt (x : option string) : string := default "None" x.

(** ** The persistence model of [models/pdf.py] *)

(** A [PDFSection] row.  The column [embedding_json] holds
    [json.dumps(embedding)] or NULL; it is modelled by the list it
    decodes to, [json.loads] after [json.dumps] being the identity on
    lists of floats. *)
Record PDFSection := Row {
  row_title : option string;
  row_content : string;
  row_page_number : nat;
  row_section_index : nat;
  embedding_json : option vec
}.

(** A [PDF] row with its [sections] relationship.  [file_data] is
    [None] or a byte string. *)
Record PDF := Pdf {
  id : Z;
  user_id : Z;
  original_filename : string;
  file_data : option string;
  sections : list PDFSection;
  processing_status : string
}.

(** A section dictionary of [main.py]: the keys written by
    [extract_sections_from_pdf] and [generate_embeddings_for_sections],
    or by [PDF.get_sections_with_embeddings].  [section_text] is [None]
    when the key is absent (cached sections); the key ["id"] of cached
    sections is never read and is left out. *)
Record section := Section_ {
  section_title : option string;
  content : string;
  page_number : nat;
  section_index : nat;
  section_text : option string;
  embedding : vec
}.

(** After [section['source_pdf'] = ...; section['pdf_id'] = ...]. *)
Record tagged := Tagged {
  sec : section;
  source_pdf : string;
  pdf_id : Z
}.

(** After [section["relevance_score"] = ...]. *)
Record scored := Scored {
  tsec : tagged;
  relevance_score : Q
}.

Record insight_card := Card {
  card_id : string;
  pdfName : string;
  sectionTitle : option string;
  card_content : string;
  pageNumber : nat;
  importanceRank : nat;
  relevanceScore : Q
}.

Record metadata := Metadata {
  processing_timestamp : string;
  job_to_be_done : string;
  input_documents : list string;
  processing_time_seconds : Q;
  total_sections_processed : nat;
  top_insights_returned : nat
}.

(** The two shapes [process_pdfs_with_ml] returns: [{"error": msg}] and
    [{"insights": {"sections": ..., "metadata": ...}}]. *)
Inductive response :=
| Error (msg : string)
| Insights (cards : list insight_card) (meta : metadata).

(** What a run does besides computing its response. *)
Inductive event :=
| Segmented (pdf : Z)          (* [extract_sections_from_pdf] ran *)
| Encoded (text : string)      (* [encode_text(text)] was called *)
| Saved (pdf : Z).             (* [save_embeddings_to_db] committed *)

(** Everything outside the repository that a run depends on. *)
Record env := Env {
  (** [is_model_ready()]: the global [_MODEL] is set *)
  model_ready : bool;
  (** the module-level flag [DB_AVAILABLE] *)
  DB_AVAILABLE : bool;
  (** [_MODEL.encode(text)], as a list of floats *)
  model_encode : string -> result vec;
  (** [sklearn.metrics.pairwise.cosine_similarity] on two row vectors;
      it raises [ValueError] on rows of different lengths and on rows
      that hold a NaN or an infinity *)
  cosine_similarity : vec -> vec -> result Q;
  (** [pdfplumber.open] on a file holding the given bytes *)
  pdfplumber_open : string -> result (list Segmenter.page);
  (** the name [tempfile.NamedTemporaryFile] picks for a document *)
  temp_path : Z -> string;
  (** [time.strftime(...)] and the elapsed [time.time()] difference *)
  clock_timestamp : string;
  clock_elapsed : Q
}.

(** [PDFSection.get_embedding] *)
Definition get_embedding (r : PDFSection) : vec :=
  match embedding_json r with
  | Some e => e
  | None => []
  end.

(** [PDF.get_sections_with_embeddings] *)
Definition get_sections_with_embeddings (pdf : PDF) : list section :=
  List.map (fun r =>
    Section_ (row_title r) (row_content r) (row_page_number r)
             (row_section_index r) None (get_embedding r))
  (sections pdf).

(** [PDF.add_section]: [set_embedding] runs only [if embedding]. *)
Definition add_section (section_title : option string) (content : string)
    (page_number section_index : nat) (embedding : vec) : PDFSection :=
  Row section_title content page_number section_index
      (if nonempty embedding then Some embedding else None).

(** [enumerate(l)] *)
Fixpoint enumerate_from {A} (i : nat) (l : list A) : list (nat * A) :=
  match l with
  | [] => []
  | x :: l' => (i, x) :: enumerate_from (S i) l'
  end.

Definition enumerate {A} (l : list A) : list (nat * A) := enumerate_from 0 l.

(** [save_embeddings_to_db]: the sections of [pdf] are cleared and
    rebuilt; [db.session.commit()] is taken to succeed. *)
Definition save_embeddings_to_db (e : env) (pdf : PDF)
    (sections_data : list section) : result PDF :=
  if negb (DB_AVAILABLE e) then Raise "Database not available"
  else
    Ok (Pdf (id pdf) (user_id pdf) (original_filename pdf) (file_data pdf)
          (List.map (fun ix =>
             add_section (section_title (snd ix)) (content (snd ix))
                         (page_number (snd ix)) (fst ix) (embedding (snd ix)))
             (enumerate sections_data))
          "completed").

(** [encode_text] of [ml_model.py] *)
Definition encode_text (e : env) (text : string) : result vec :=
  if negb (model_ready e) then Raise "Model not loaded. Call get_model() first."
  else
    match model_encode e text with
    | Ok v => Ok v
    | Raise msg => Raise (PyStr.cat "Text encoding failed: " msg)
    end.

(** [extract_sections_from_pdf]; [data] is the content of the file at
    [pdf_path]. *)
Definition extract_sections_from_pdf (e : env) (pdf_path : string)
    (data : string) : list section :=
  let document :=
    Segmenter.extract_text_with_structure (pdfplumber_open e data) pdf_path in
  flat_map (fun ix =>
    let s := snd ix in
    let text := PyStr.cat (fmt (Segmenter.section_title s))
                  (PyStr.cat ". " (PyStr.take 500 (Segmenter.content s))) in
    if (10 <=? length (PyStr.split text))%nat
    then [Section_ (Segmenter.section_title s) (Segmenter.content s)
            (Segmenter.page_number s) (fst ix) (Some text) []]
    else [])
  (enumerate (Segmenter.sections document)).

(** The body of the loop of [generate_embeddings_for_sections]: the
    [try] covers the key lookup and the call. *)
Definition embed_section (e : env) (s : section) : section * list event :=
  match section_text s with
  | None =>
      (Section_ (section_title s) (content s) (page_number s)
         (section_index s) (section_text s) [], [])
  | Some text =>
      (Section_ (section_title s) (content s) (page_number s)
         (section_index s) (section_text s)
         (match encode_text e text with Ok v => v | Raise _ => [] end),
       [Encoded text])
  end.

(** [generate_embeddings_for_sections] *)
Definition generate_embeddings_for_sections (e : env) (l : list section)
  : result (list section * list event) :=
  if negb (model_ready e) then Raise "ML model not ready"
  else
    Ok (List.map (fun s => fst (embed_section e s)) l,
        flat_map (fun s => snd (embed_section e s)) l).

Definition tag (pdf : PDF) (l : list section) : list tagged :=
  List.map (fun s => Tagged s (original_filename pdf) (id pdf)) l.

(** [existing_sections and all(section.get('embedding') for ...)] *)
Definition cache_usable (existing_sections : list section) : bool :=
  nonempty existing_sections
  && forallb (fun s => nonempty (embedding s)) existing_sections.

(** Truthiness of [pdf.get_file_data()]. *)
Definition has_file_data (pdf : PDF) : option string :=
  match file_data pdf with
  | Some EmptyString => None
  | other => other
  end.

(** The body of [for pdf in pdfs] (lines 181-224): the row after the
    iteration, the sections it adds to [all_sections], and what it did. *)
Definition process_pdf (e : env) (pdf : PDF)
  : result (PDF * list tagged * list event) :=
  let existing_sections := get_sections_with_embeddings pdf in
  if cache_usable existing_sections
  then Ok (pdf, tag pdf existing_sections, [])
  else
    match has_file_data pdf with
    | None => Ok (pdf, [], [])
    | Some pdf_data =>
        let sections :=
          extract_sections_from_pdf e (temp_path e (id pdf)) pdf_data in
        match generate_embeddings_for_sections e sections with
        | Raise msg => Raise msg
        | Ok (sections_with_embeddings, encoded) =>
            match save_embeddings_to_db e pdf sections_with_embeddings with
            | Raise msg => Raise msg
            | Ok pdf' =>
                Ok (pdf', tag pdf sections_with_embeddings,
                    Segmented (id pdf) :: encoded ++ [Saved (id pdf)])
            end
        end
    end.

(** The filter of the query in [get_pdfs_from_db]. *)
Definition selected (user : Z) (pdf_ids : list Z) (pdf : PDF) : bool :=
  bool_decide (id pdf ∈ pdf_ids) && bool_decide (user_id pdf = user).

(** The loop over the selected rows.  The table is visited in order; a
    selected row is replaced by what the iteration leaves, the others
    are kept.  The first component is the table and the events when the
    loop ends or raises. *)
Fixpoint process_rows (e : env) (user : Z) (pdf_ids : list Z)
    (rows : list PDF) : (list PDF * list event) * result (list tagged) :=
  match rows with
  | [] => (([], []), Ok [])
  | pdf :: rest =>
      if selected user pdf_ids pdf then
        match process_pdf e pdf with
        | Raise msg => ((pdf :: rest, []), Raise msg)
        | Ok (pdf', secs, evs) =>
            let '((rest', evs'), r) := process_rows e user pdf_ids rest in
            ((pdf' :: rest', evs ++ evs'),
             match r with
             | Ok l => Ok (secs ++ l)
             | Raise msg => Raise msg
             end)
        end
      else
        let '((rest', evs'), r) := process_rows e user pdf_ids rest in
        ((pdf :: rest', evs'), r)
  end.

(** The body of the loop of lines 238-245: an exception of the
    [sklearn] call leaves it. *)
Definition score (e : env) (query_embedding : vec) (s : tagged)
  : result scored :=
  if nonempty (embedding (sec s))
  then
    match cosine_similarity e (embedding (sec s)) query_embedding with
    | Ok similarity_score => Ok (Scored s similarity_score)
    | Raise msg => Raise msg
    end
  else Ok (Scored s 0.0%Q).

(** The loop of lines 238-245, section by section; the first exception
    ends it. *)
Fixpoint score_sections (e : env) (query_embedding : vec)
    (all_sections : list tagged) : result (list scored) :=
  match all_sections with
  | [] => Ok []
  | s :: rest =>
      match score e query_embedding s with
      | Raise msg => Raise msg
      | Ok x =>
          match score_sections e query_embedding rest with
          | Raise msg => Raise msg
          | Ok xs => Ok (x :: xs)
          end
      end
  end.

(** [sorted(l, key=lambda x: x["relevance_score"], reverse=True)] *)
Fixpoint insert_desc (x : scored) (l : list scored) : list scored :=
  match l with
  | [] => [x]
  | y :: l' =>
      if Qltb (relevance_score x) (relevance_score y)
      then y :: insert_desc x l'
      else x :: y :: l'
  end.

Definition sorted_desc (l : list scored) : list scored :=
  foldr insert_desc [] l.

(** [l[:k]] for any [int] [k]. *)
Definition take_upto {A} (k : Z) (l : list A) : list A :=
  if (0 <=? k)%Z then firstn (Z.to_nat k) l
  else firstn (length l - Z.to_nat (- k)) l.

(** [content[:300] + "..." if len(content) > 300 else content] *)
Definition truncate (content : string) : string :=
  if (300 <? PyStr.len content)%nat
  then PyStr.cat (PyStr.take 300 content) "..."
  else content.

Definition insight_card_of (rank : nat) (s : scored) : insight_card :=
  let t := tsec s in
  Card (PyStr.cat "insight-"
          (PyStr.cat (str_of_Z (pdf_id t))
             (PyStr.cat "-" (str_of_Z (Z.of_nat (section_index (sec t)))))))
       (source_pdf t)
       (section_title (sec t))
       (truncate (content (sec t)))
       (page_number (sec t))
       (rank + 1)
       (relevance_score s).

(** [RequirementModeler.parse_job_to_be_done]: the embedding of
    ["Task: " + job]. *)
Definition parse_job_to_be_done (e : env) (job : string) : result vec :=
  model_encode e (PyStr.cat "Task: " job).

(** [process_pdfs_with_ml]: the response, the table after the run and
    the events of the run. *)
Definition process_pdfs_with_ml (e : env) (db : list PDF) (job : string)
    (user : Z) (pdf_ids : list Z) (k : Z)
  : response * list PDF * list event :=
  if negb (model_ready e) then (Error "ML model not ready", db, [])
  else if negb (DB_AVAILABLE e)
  then (Error "Processing failed: Database not available", db, [])
  else
    let pdfs := List.filter (selected user pdf_ids) db in
    match pdfs with
    | [] =>
        (Error (PyStr.cat "Processing failed: "
                  (PyStr.cat "No PDFs found for user "
                     (PyStr.cat (str_of_Z user)
                        (PyStr.cat " with IDs " (str_of_Z_list pdf_ids))))),
         db, [])
    | _ =>
        let '((db', evs), r) := process_rows e user pdf_ids db in
        match r with
        | Raise msg => (Error (PyStr.cat "Processing failed: " msg), db', evs)
        | Ok [] => (Error "No sections found in the provided PDFs", db', evs)
        | Ok all_sections =>
            match parse_job_to_be_done e job with
            | Raise msg =>
                (Error (PyStr.cat "Processing failed: " msg), db', evs)
            | Ok query_embedding =>
                match score_sections e query_embedding all_sections with
                | Raise msg =>
                    (Error (PyStr.cat "Processing failed: " msg), db', evs)
                | Ok scored_sections =>
                    let top_sections :=
                      take_upto k (sorted_desc scored_sections) in
                    let insight_cards :=
                      List.map (fun rs => insight_card_of (fst rs) (snd rs))
                        (enumerate top_sections) in
                    (Insights insight_cards
                       (Metadata (clock_timestamp e) job
                          (List.map original_filename pdfs)
                          (clock_elapsed e)
                          (length all_sections)
                          (length insight_cards)),
                     db', evs)
                end
            end
        end
    end.

End Pipeline.

(* ===================================================================== *)
(** * Notions used to state the segmenter properties *)
(* ===================================================================== *)

Module SegmenterRun.
Import Segmenter.

(** A string is headed when it is empty or starts with a character that
    is not white space. *)
Definition headed (s : string) : Prop :=
  match s with
  | EmptyString => True
  | String c _ => PyStr.isspace c = false
  end.

(** The states reached from the initial one by processing lines. *)
Inductive reachable (thr : Q) : state -> Prop :=
| reach_init : reachable thr (State [] None EmptyString 1)
| reach_line st page_num l :
    reachable thr st -> reachable thr (process_line thr page_num st l).

(** The title a line leaves in [current_section_title] before the
    title test: the first processed line seeds it. *)
Definition seeded (st : state) (line_text : string) : option string :=
  match current_section_title st with
  | None => Some line_text
  | Some t => Some t
  end.

(** The lines of a page whose extraction succeeds. *)
Definition lines_of (p : page) : list line :=
  match extract_text_lines p with
  | Ok ls => ls
  | Raise _ => []
  end.

Definition extracts (p : page) : Prop :=
  exists ls, extract_text_lines p = Ok ls.

(** The state after the lines of the given pages, numbered from
    [page_num]. *)
Fixpoint segment (thr : Q) (page_num : nat) (st : state)
    (pages : list (list line)) : state :=
  match pages with
  | [] => st
  | ls :: rest =>
      segment thr (S page_num) (fold_left (process_line thr page_num) ls st) rest
  end.

(** The baseline font size: the median of the sizes found on the first
    page, and 10.0 when there is none. *)
Definition baseline (ws : list word) : Q :=
  match sizes_of ws with
  | [] => 10.0%Q
  | sizes => Qmedian sizes
  end.

(** The section the handler builds from an exception message. *)
Definition error_section (file_path e : string) : section :=
  Section_ (Some (PyStr.cat "Error processing " (doc_filename_of file_path))) e 1.

End SegmenterRun.

(* ===================================================================== *)
(** * Notions used to state the ranker properties *)
(* ===================================================================== *)

Module RankerOrder.
Import Ranker.

(** [sorted] returns its input in descending order of [final_score]. *)
Inductive descending : list scored -> Prop :=
| desc_nil : descending []
| desc_cons x l :
    (forall y, In y l -> (final_score y <= final_score x)%Q) ->
    descending l -> descending (x :: l).

End RankerOrder.

(* ===================================================================== *)
(** * Notions used to state the pipeline properties *)
(* ===================================================================== *)

Module PipelineRun.
Import Pipeline.

(** The sections a document is re-segmented into, with their embeddings. *)
Definition fresh_sections (e : env) (pdf : PDF) (pdf_data : string) : list section :=
  List.map (fun s => fst (embed_section e s))
    (extract_sections_from_pdf e (temp_path e (id pdf)) pdf_data).

(** The calls to [encode_text] a re-segmentation makes. *)
Definition fresh_events (e : env) (pdf : PDF) (pdf_data : string) : list event :=
  flat_map (fun s => snd (embed_section e s))
    (extract_sections_from_pdf e (temp_path e (id pdf)) pdf_data).

(** The row [save_embeddings_to_db] leaves. *)
Definition saved (pdf : PDF) (sections_data : list section) : PDF :=
  Pdf (id pdf) (user_id pdf) (original_filename pdf) (file_data pdf)
    (List.map (fun ix =>
       add_section (section_title (snd ix)) (content (snd ix))
                   (page_number (snd ix)) (fst ix) (embedding (snd ix)))
       (enumerate sections_data))
    "completed".

(** One iteration of the document loop when the model is loaded and the
    database is available: it cannot raise. *)
Definition step (e : env) (pdf : PDF) : PDF * list tagged * list event :=
  if cache_usable (get_sections_with_embeddings pdf)
  then (pdf, tag pdf (get_sections_with_embeddings pdf), [])
  else
    match has_file_data pdf with
    | None => (pdf, [], [])
    | Some pdf_data =>
        (saved pdf (fresh_sections e pdf pdf_data),
         tag pdf (fresh_sections e pdf pdf_data),
         Segmented (id pdf) :: fresh_events e pdf pdf_data ++ [Saved (id pdf)])
    end.

Definition row_after (e : env) (user : Z) (pdf_ids : list Z) (pdf : PDF) : PDF :=
  if selected user pdf_ids pdf then fst (fst (step e pdf)) else pdf.

Definition sections_from (e : env) (user : Z) (pdf_ids : list Z) (pdf : PDF)
  : list tagged :=
  if selected user pdf_ids pdf then snd (fst (step e pdf)) else [].

Definition events_from (e : env) (user : Z) (pdf_ids : list Z) (pdf : PDF)
  : list event :=
  if selected user pdf_ids pdf then snd (step e pdf) else [].

(** The cards built from the sections kept (lines 253-264). *)
Definition cards_of (top_sections : list scored) : list insight_card :=
  List.map (fun rs => insight_card_of (fst rs) (snd rs)) (enumerate top_sections).

(** The response built from a non-empty [all_sections] once the query
    is embedded (lines 238-281, and the handler of lines 286-290 when
    the scoring loop raises). *)
Definition insights_of (e : env) (job : string) (pdfs : list PDF)
    (all_sections : list tagged) (query_embedding : vec) (k : Z) : response :=
  match score_sections e query_embedding all_sections with
  | Raise msg => Error (PyStr.cat "Processing failed: " msg)
  | Ok scored_sections =>
      let insight_cards :=
        cards_of (take_upto k (sorted_desc scored_sections)) in
      Insights insight_cards
        (Metadata (clock_timestamp e) job (List.map original_filename pdfs)
           (clock_elapsed e) (length all_sections) (length insight_cards))
  end.

(** The combined text [extract_sections_from_pdf] counts the words of. *)
Definition combined_text (s : Segmenter.section) : string :=
  PyStr.cat (fmt (Segmenter.section_title s))
    (PyStr.cat ". " (PyStr.take 500 (Segmenter.content s))).

(** The environment [e] with another encoder. *)
Definition with_encode (e : env) (f : string -> result vec) : env :=
  Env (model_ready e) (DB_AVAILABLE e) f (cosine_similarity e)
      (pdfplumber_open e) (temp_path e) (clock_timestamp e) (clock_elapsed e).

(** The response has the shape [{"error": ...}]. *)
Definition is_error (r : response) : bool :=
  match r with
  | Error _ => true
  | Insights _ _ => false
  end.

Definition is_ok {A} (r : result A) : bool :=
  match r with
  | Ok _ => true
  | Raise _ => false
  end.

(** What a response shows of a section, its card identifier apart. *)
Definition tcore (t : tagged)
  : option string * string * nat * vec * string * Z :=
  (section_title (sec t), content (sec t), page_number (sec t),
   embedding (sec t), source_pdf t, pdf_id t).

Definition score_core (s : scored) :=
  (tcore (tsec s), relevance_score s).

(** What the outcome of the scoring loop shows. *)
Definition scored_outline (r : result (list scored)) :=
  match r with
  | Ok l => inr (List.map score_core l)
  | Raise msg => inl msg
  end.

(** A section encoded with fewer successes: the same section, with the
    same embedding or none. *)
Definition dimmed (t' t : tagged) : Prop :=
  embedding (sec t') = embedding (sec t) \/ embedding (sec t') = [].

Definition card_outline (c : insight_card) :=
  (pdfName c, sectionTitle c, card_content c, pageNumber c,
   importanceRank c, relevanceScore c).

(** A response without the card identifiers. *)
Definition response_outline (r : response) :=
  match r with
  | Error msg => inl msg
  | Insights cards meta => inr (List.map card_outline cards, meta)
  end.

(** A document has a cache that a run reuses. *)
Definition fully_embedded (pdf : PDF) : Prop :=
  sections pdf <> [] /\ forall r, In r (sections pdf) -> get_embedding r <> [].

End PipelineRun.

(* ===================================================================== *)
(** * Reference definitions used in the statements *)
(* ===================================================================== *)

Module Reference.

(** The thematic score as the specification words it: the mean, over
    the extracted themes, of [cosine_similarity(section_embedding,
    theme_embedding) * theme_weight], and [0.0] for an empty theme set. *)
Definition thematic_score {vec : Type} (encode : string -> vec)
    (cosine_similarity : vec -> vec -> Q)
    (themes : list (string * Q)) (section_embedding : vec) : Q :=
  match themes with
  | [] => 0.0%Q
  | _ =>
      Qmean (List.map
               (fun tw => (cosine_similarity section_embedding (encode (fst tw))
                           * snd tw)%Q)
               themes)
  end.

(** A median of a list of numbers, by counting: at least half of the
    numbers are at most [m], and at least half of them are at least
    [m]. *)
Definition at_most (m : Q) (sizes : list Q) : nat :=
  length (List.filter (fun x => Qle_bool x m) sizes).

Definition at_least (m : Q) (sizes : list Q) : nat :=
  length (List.filter (fun x => Qle_bool m x) sizes).

Definition is_median (m : Q) (sizes : list Q) : bool :=
  (length sizes <=? 2 * at_most m sizes)%nat
  && (length sizes <=? 2 * at_least m sizes)%nat.

(** The title rule as the specification words it, for a line with the
    given first character and text and a given median font size of the
    first page's words: the font name indicates bold or black weight,
    the font size strictly exceeds 1.15 times the median, the word count
    is strictly between 3 and 12, and the line ends neither in "." nor
    in ",". *)
Definition title_line (median_font_size : Q) (first_char : Segmenter.char)
    (line_text : string) : Prop :=
  let font_name :=
    PyStr.lower (default EmptyString (Segmenter.fontname first_char)) in
  (PyStr.contains "bold" font_name = true \/
   PyStr.contains "black" font_name = true) /\
  (1.15 * median_font_size < default 0%Q (Segmenter.size first_char))%Q /\
  (3 < length (PyStr.split line_text) < 12)%nat /\
  PyStr.endswith "." line_text = false /\
  PyStr.endswith "," line_text = false.

End Reference.

(* ===================================================================== *)
(** * Sample inputs *)
(* ===================================================================== *)

Module Sample.

(** A small deterministic stand-in for the sentence-embedding model: a
    text is embedded as its number of words, two embeddings are as
    similar as their word counts are close. *)
Definition encode (s : string) : nat := length (PyStr.split s).

Definition cosine_similarity (a b : nat) : Q :=
  (1 # Pos.of_nat (1 + (a - b) + (b - a)))%Q.

Definition extract_keywords (s : string) : list (string * Q) :=
  match PyStr.split s with
  | [] => []
  | w :: _ => [(w, 0.5%Q)]
  end.

Definition req : Ranker.request nat :=
  Ranker.Request "Task: plan a trip" (encode "Task: plan a trip").

Definition long_content : string :=
  "one two three four five six seven eight nine ten eleven twelve".

Definition doc_a : Ranker.doc :=
  Ranker.Doc "a.pdf"
    [Ranker.Section_ "Coastal walks" long_content 1;
     Ranker.Section_ "notes.pdf" long_content 2;
     Ranker.Section_ "Short" "too few words" 3].

(** Scored candidates given directly. *)
Definition cand (t d : string) (q : Q) : Ranker.scored :=
  Ranker.Scored (Ranker.Section_ t "c" 1) d q.

(** A model for which every section is about equally close to the query
    and to its single theme: every similarity is 0.9, the theme has
    weight 1. *)
Definition close_cosine (a b : nat) : Q := 0.9%Q.

Definition one_theme (s : string) : list (string * Q) := [("trip", 1%Q)].

(** One document of five sections with distinct titles, each long
    enough to be kept. *)
Definition guide : Ranker.doc :=
  Ranker.Doc "guide.pdf"
    [Ranker.Section_ "Getting there" long_content 1;
     Ranker.Section_ "Where to stay" long_content 2;
     Ranker.Section_ "What to eat" long_content 3;
     Ranker.Section_ "Day trips" long_content 4;
     Ranker.Section_ "Getting back" long_content 5].

(** One document, five sections, each scoring 0.9. *)
Definition five : list Ranker.scored :=
  [cand "t1" "A" 0.9; cand "t2" "A" 0.9; cand "t3" "A" 0.9;
   cand "t4" "A" 0.9; cand "t5" "A" 0.9]%Q.

(** Document A with a negative third score, document B with a small
    positive one. *)
Definition mixed : list Ranker.scored :=
  [cand "a1" "A" 0.9; cand "a2" "A" 0.8; cand "a3" "A" (-0.5);
   cand "b1" "B" 0.05]%Q.

(** A two-page document for the segmenter: body text at 10 pt, one
    bold 14 pt heading; reading the lines of the second page fails. *)
Definition body_char : Segmenter.char :=
  Segmenter.Char (Some "Helvetica") (Some 10%Q).

Definition bold_char : Segmenter.char :=
  Segmenter.Char (Some "Helvetica-Bold") (Some 14%Q).

Definition body_line : Segmenter.line :=
  Segmenter.Line "  The path follows the shore.  " [body_char].

Definition title_line : Segmenter.line :=
  Segmenter.Line "Planning the coastal route" [bold_char].

Definition words1 : list Segmenter.word :=
  [Segmenter.Word (Some 10%Q); Segmenter.Word (Some 10%Q);
   Segmenter.Word (Some 14%Q)].

Definition page1 : Segmenter.page :=
  Segmenter.Page (Ok words1) (Ok [body_line; title_line; body_line]).

Definition page2_failing : Segmenter.page :=
  Segmenter.Page (Ok []) (Raise "boom").

Definition page2_fine : Segmenter.page :=
  Segmenter.Page (Ok []) (Ok [body_line]).

(** A one-page document set in 12 pt, with one bold 13 pt heading. *)
Definition body12 : Segmenter.char :=
  Segmenter.Char (Some "Helvetica") (Some 12%Q).

Definition bold13 : Segmenter.char :=
  Segmenter.Char (Some "Helvetica-Bold") (Some 13%Q).

Definition heading_lines : list Segmenter.line :=
  [Segmenter.Line "The path follows the shore." [body12];
   Segmenter.Line "Walking along the cliffs" [bold13];
   Segmenter.Line "It climbs to the old lighthouse." [body12]].

(** The font sizes of the words of lines that are set in one font each:
    every word of a line has the size of the line's first character. *)
Definition word_sizes (lines : list Segmenter.line) : list Q :=
  flat_map
    (fun l =>
       match Segmenter.chars l with
       | [] => []
       | first_char :: _ =>
           repeat (default 0%Q (Segmenter.size first_char))
                  (length (PyStr.split (Segmenter.text l)))
       end)
    lines.

(** The page as pdfplumber presents it.  [page.extract_words()], called
    without [extra_attrs] as line 11 calls it, gives every word the keys
    text, x0, x1, top, doctop, bottom, upright and direction: the
    dictionaries carry no size. *)
Definition heading_page : Segmenter.page :=
  Segmenter.Page
    (Ok (List.map (fun _ => Segmenter.Word None) (word_sizes heading_lines)))
    (Ok heading_lines).

(** The same page, had the word dictionaries carried the font sizes. *)
Definition heading_page_sized : Segmenter.page :=
  Segmenter.Page
    (Ok (List.map (fun q => Segmenter.Word (Some q)) (word_sizes heading_lines)))
    (Ok heading_lines).

(** A stand-in for the sentence tokenizer: a sentence ends at each
    full stop. *)
Fixpoint sent_tokenize_go (cur : string) (s : string) : list string :=
  match s with
  | EmptyString => match cur with EmptyString => [] | _ => [cur] end
  | String c s' =>
      if bool_decide (c = "."%char)
      then PyStr.cat cur "." :: sent_tokenize_go EmptyString s'
      else sent_tokenize_go (PyStr.cat cur (String c EmptyString)) s'
  end.

Definition sent_tokenize (s : string) : list string :=
  sent_tokenize_go EmptyString s.

Definition paragraph : string :=
  "We start the day at the old harbour. Too short. The bus to the cape leaves at nine and takes one hour. Bring water and a hat for the walk back. The last ferry leaves the island at six in the evening.".

(** A stand-in environment for the orchestrator.  Encoding fails on
    every text that mentions "Planning"; two files can be opened. *)
Definition short_page : Segmenter.page :=
  Segmenter.Page (Ok []) (Ok [Segmenter.Line "Too short" [body_char]]).

(** A page that opens with a two-word line, followed by a heading and
    a long paragraph. *)
Definition note_page : Segmenter.page :=
  Segmenter.Page (Ok words1)
    (Ok [Segmenter.Line "Hello there" [body_char];
         Segmenter.Line "Walking along the cliffs" [bold_char];
         Segmenter.Line long_content [body_char]]).

Definition env : Pipeline.env :=
  Pipeline.Env true true
    (fun text =>
       if PyStr.contains "Planning" text then Raise "out of memory"
       else Ok [inject_Z (Z.of_nat (length (PyStr.split text))); 1%Q])
    (fun a b =>
       if (length a =? length b)%nat
       then Ok (1 # Pos.of_nat (1 + length a + length b))%Q
       else Raise "Incompatible dimension for X and Y matrices")
    (fun data =>
       if bool_decide (data = "%PDF-trip") then Ok [page1; page2_fine]
       else if bool_decide (data = "%PDF-short") then Ok [short_page]
       else if bool_decide (data = "%PDF-note") then Ok [note_page]
       else Raise "No /Root object")
    (fun pdf_id => PyStr.cat "/tmp/tmp" (PyStr.cat (Pipeline.str_of_Z pdf_id) ".pdf"))
    "2024-01-01 00:00:00" 0.

(** A stored document never processed before. *)
Definition pdf_trip : Pipeline.PDF :=
  Pipeline.Pdf 1 7 "trip.pdf" (Some "%PDF-trip") [] "pending".

(** A stored document whose first section is too short to be kept. *)
Definition pdf_note : Pipeline.PDF :=
  Pipeline.Pdf 5 7 "note.pdf" (Some "%PDF-note") [] "pending".

(** A stored document whose only line is too short to be kept. *)
Definition pdf_short : Pipeline.PDF :=
  Pipeline.Pdf 2 7 "short.pdf" (Some "%PDF-short") [] "pending".

(** A stored document with two cached sections, one of them without an
    embedding, and no file data. *)
Definition pdf_partial : Pipeline.PDF :=
  Pipeline.Pdf 3 7 "old.pdf" None
    [Pipeline.Row (Some "Kept") "body of the kept section" 1 0 (Some [1%Q; 2%Q]);
     Pipeline.Row (Some "Lost") "body of the other section" 2 1 None]
    "completed".

(** A stored document whose two cached sections both carry an
    embedding. *)
Definition pdf_cached : Pipeline.PDF :=
  Pipeline.Pdf 4 7 "cached.pdf" None
    [Pipeline.Row (Some "First") "body of the first section" 1 0 (Some [1%Q; 2%Q]);
     Pipeline.Row (Some "Second") "body of the second section" 2 1 (Some [3%Q; 1%Q])]
    "completed".

(** A page whose words cannot be read. *)
Definition page_unreadable : Segmenter.page :=
  Segmenter.Page (Raise "bad xref") (Ok [body_line]).

End Sample.

(* ===================================================================== *)
(** * Notions used to state further ranker properties *)
(* ===================================================================== *)

Module RankerShape.
Import Ranker.

(** A section passes the two filters of the scoring loop. *)
Definition accepted (s : section) : bool :=
  negb (PyStr.contains ".pdf" (section_title s))
  && (10 <=? length (PyStr.split (section_text s)))%nat.

(** The document without the sections the filters reject. *)
Definition keep_accepted (d : doc) : doc :=
  Doc (filename d) (List.filter accepted (sections d)).

End RankerShape.

(* ===================================================================== *)
(** * Notions used to state further segmenter properties *)
(* ===================================================================== *)

Module SegmenterShape.
Import Segmenter SegmenterRun.

(** The words a line adds to the body text: those of a processed line
    that is not a title line. *)
Definition body_words (thr : Q) (l : line) : list string :=
  match chars l with
  | [] => []
  | first_char :: _ =>
      if is_title thr first_char (PyStr.strip (text l)) then []
      else PyStr.split (PyStr.strip (text l))
  end.

(** A section as the line loop appends it: titled, with non-empty
    content free of surrounding white space. *)
Definition well_formed (s : section) : Prop :=
  (exists t, section_title s = Some t /\ t <> EmptyString) /\
  content s <> EmptyString /\
  PyStr.strip (content s) = content s /\
  (1 <= page_number s)%nat.

(** A line the loop turns into a section title. *)
Definition title_line (thr : Q) (l : line) : bool :=
  match chars l with
  | [] => false
  | first_char :: _ => is_title thr first_char (PyStr.strip (text l))
  end.

(** The title [o] is the text of a title line among [lines]. *)
Definition titled (thr : Q) (lines : list line) (o : option string) : Prop :=
  exists l, In l lines /\ title_line thr l = true /\
            o = Some (PyStr.strip (text l)).

(** The words of the sections of a document. *)
Definition words_of (secs : list section) : list string :=
  flat_map (fun s => PyStr.split (content s)) secs.

(** The character [c] occurs in [s]. *)
Fixpoint occurs (c : ascii) (s : string) : Prop :=
  match s with
  | EmptyString => False
  | String a s' => a = c \/ occurs c s'
  end.

(** What the line loop keeps true of its state. *)
Definition shaped (st : state) : Prop :=
  Forall well_formed (st_sections st) /\
  headed (current_section_content st) /\
  (current_section_content st <> EmptyString ->
   exists t, current_section_title st = Some t) /\
  (forall t, current_section_title st = Some t -> t <> EmptyString) /\
  (1 <= current_section_page st)%nat.

(** The page numbers while page [n] is read: those of the sections are
    in order and at most that of the current section. *)
Definition paged (n : nat) (st : state) : Prop :=
  StronglySorted le (List.map page_number (st_sections st)) /\
  Forall (fun s => 1 <= page_number s <= current_section_page st)%nat
         (st_sections st) /\
  (1 <= current_section_page st <= n)%nat.

(** The sections and the title lines among the lines [done] read so
    far. *)
Definition follows (thr : Q) (done : list line) (st : state) : Prop :=
  (length (st_sections st) <= length (List.filter (title_line thr) done))%nat /\
  Forall (fun s => titled thr done (section_title s)) (tail (st_sections st)) /\
  (st_sections st <> [] -> titled thr done (current_section_title st)).

(** The content under construction is empty or ends with a space, and
    the words read so far are those of the body lines. *)
Definition spaced (c : string) : Prop :=
  c = EmptyString \/ exists a, c = PyStr.cat a " ".

Definition conserved (thr : Q) (done : list line) (st : state) : Prop :=
  spaced (current_section_content st) /\
  words_of (st_sections st) ++ PyStr.split (current_section_content st)
  = flat_map (body_words thr) done.

End SegmenterShape.

(* ===================================================================== *)
(** * Notions used to state further pipeline properties *)
(* ===================================================================== *)

Module PipelineShape.
Import Pipeline PipelineRun.

(** The cards of a response are in descending order of relevance. *)
Definition by_relevance (a b : insight_card) : Prop :=
  (relevanceScore b <= relevanceScore a)%Q.

(** What a run may change in a stored row: nothing but the sections and
    the processing status, and nothing at all in a row it did not
    select. *)
Definition row_kept (user : Z) (pdf_ids : list Z) (old new : PDF) : Prop :=
  id new = id old /\
  user_id new = user_id old /\
  original_filename new = original_filename old /\
  file_data new = file_data old /\
  (selected user pdf_ids old = false -> new = old) /\
  (new = old \/ processing_status new = "completed").

(** The section [x] of [extract_sections_from_pdf] is the section of
    the segmenter at position [section_index x]. *)
Definition taken_from (secs : list Segmenter.section) (x : section) : Prop :=
  exists seg,
    nth_error secs (section_index x) = Some seg /\
    (10 <= length (PyStr.split (combined_text seg)))%nat /\
    x = Section_ (Segmenter.section_title seg) (Segmenter.content seg)
          (Segmenter.page_number seg) (section_index x)
          (Some (combined_text seg)) [].

(** The section a stored row is read back as. *)
Definition reloaded (ix : nat * section) : section :=
  Section_ (section_title (snd ix)) (content (snd ix)) (page_number (snd ix))
           (fst ix) None (embedding (snd ix)).

(** What a run may do: encode a text of at least ten words, segment or
    save a document the caller selected and owns. *)
Definition allowed (db : list PDF) (user : Z) (pdf_ids : list Z)
    (ev : event) : Prop :=
  match ev with
  | Encoded text => (10 <= length (PyStr.split text))%nat
  | Segmented i | Saved i =>
      exists pdf, In pdf db /\ id pdf = i /\ i ∈ pdf_ids /\ user_id pdf = user
  end.

(** The order [sorted(..., reverse=True)] leaves the sections in. *)
Definition scored_desc (a b : scored) : Prop :=
  (relevance_score b <= relevance_score a)%Q.

(** The body of the loop of [extract_sections_from_pdf]. *)
Definition extract_one (ix : nat * Segmenter.section) : list section :=
  let s := snd ix in
  let text := PyStr.cat (fmt (Segmenter.section_title s))
                (PyStr.cat ". " (PyStr.take 500 (Segmenter.content s))) in
  if (10 <=? length (PyStr.split text))%nat
  then [Section_ (Segmenter.section_title s) (Segmenter.content s)
          (Segmenter.page_number s) (fst ix) (Some text) []]
  else [].

End PipelineShape.

(* ===================================================================== *)
(** * Model store: [ml_model.py] *)
(* ===================================================================== *)

Module ModelStore.

Section Store.

(** A [SentenceTransformer] instance. *)
Variable model : Type.
(** [m.get_sentence_embedding_dimension()] *)
Variable get_sentence_embedding_dimension : model -> result nat.
(** [m.encode(text).tolist()] *)
Variable encode : model -> string -> result (list Q).
(** [f"{t:.2f}"] *)
Variable format_2f : Q -> string.

(** The module globals [_MODEL] and [_MODEL_LOAD_TIME]. *)
Record globals := Globals {
  _MODEL : option model;
  _MODEL_LOAD_TIME : option Q
}.

(** The globals when the module body starts to run (lines 12-13). *)
Definition unloaded : globals := Globals None None.

(** What a call of [get_model] that finds no model gets from outside:
    the outcome of [SentenceTransformer('all-MiniLM-L6-v2', device='cpu')]
    and the time it took. *)
Record attempt := Attempt {
  constructed : result model;
  elapsed : Q
}.

(** [get_model]: the globals after the call and its outcome.  The
    [try] covers the construction and the two log lines, the second of
    which asks the model for its dimension after [_MODEL] is assigned. *)
Definition get_model (g : globals) (a : attempt) : globals * result model :=
  match _MODEL g with
  | Some m => (g, Ok m)
  | None =>
      match constructed a with
      | Raise e => (g, Raise (PyStr.cat "Model loading failed: " e))
      | Ok m =>
          let g' := Globals (Some m) (Some (elapsed a)) in
          match get_sentence_embedding_dimension m with
          | Raise e => (g', Raise (PyStr.cat "Model loading failed: " e))
          | Ok _ => (g', Ok m)
          end
      end
  end.

(** [is_model_ready] *)
Definition is_model_ready (g : globals) : bool :=
  match _MODEL g with
  | Some _ => true
  | None => false
  end.

(** The dictionary [get_model_status] returns. *)
Record status_report := Report {
  status : string;
  available : bool;
  load_time : option Q;
  dimensions : option nat;
  message : string
}.

(** [get_model_status]; the dictionary display is evaluated key by key,
    the dimension before the message. *)
Definition get_model_status (g : globals) : result status_report :=
  match _MODEL g with
  | None => Ok (Report "not_loaded" false None None "Model not loaded")
  | Some m =>
      match get_sentence_embedding_dimension m with
      | Raise e => Raise e
      | Ok d =>
          match _MODEL_LOAD_TIME g with
          | None => Raise "unsupported format string passed to NoneType.__format__"
          | Some t =>
              Ok (Report "ready" true (Some t) (Some d)
                    (PyStr.cat "Model ready (loaded in "
                       (PyStr.cat (format_2f t) "s)")))
          end
      end
  end.

(** [encode_text] *)
Definition encode_text (g : globals) (text : string) : result (list Q) :=
  if negb (is_model_ready g)
  then Raise "Model not loaded. Call get_model() first."
  else
    match _MODEL g with
    | None => Raise "Text encoding failed: 'NoneType' object has no attribute 'encode'"
    | Some m =>
        match encode m text with
        | Ok v => Ok v
        | Raise e => Raise (PyStr.cat "Text encoding failed: " e)
        end
    end.

(** The calls of [get_model] made over the life of the process, the
    first of them by the module body (lines 104-110), which discards
    the exception. *)
Fixpoint calls (g : globals) (attempts : list attempt)
  : globals * list (result model) :=
  match attempts with
  | [] => (g, [])
  | a :: rest =>
      let '(g1, r) := get_model g a in
      let '(g2, rs) := calls g1 rest in
      (g2, r :: rs)
  end.

(** The model of the first attempt whose construction succeeds. *)
Fixpoint first_constructed (attempts : list attempt) : option (model * Q) :=
  match attempts with
  | [] => None
  | a :: rest =>
      match constructed a with
      | Ok m => Some (m, elapsed a)
      | Raise _ => first_constructed rest
      end
  end.

End Store.

Arguments Globals {model}.
Arguments _MODEL {model}.
Arguments _MODEL_LOAD_TIME {model}.
Arguments unloaded {model}.
Arguments Attempt {model}.
Arguments constructed {model}.
Arguments elapsed {model}.
Arguments is_model_ready {model}.
Arguments first_constructed {model}.

End ModelStore.

(* ===================================================================== *)
(** * Page splitter: [section_extractor.py], lines 27-127 *)
(* ===================================================================== *)

Module Splitter.

(** ** The regular expressions of [header_patterns]

    [re.match(pattern, line)] with a pattern anchored by [^] and [$]
    on a line without a line feed: there is a match exactly when the
    whole line belongs to the language of the pattern.  Membership is
    decided with derivatives. *)

Inductive regex :=
| Empty                          (* matches nothing *)
| Eps                            (* the empty string *)
| Class (f : ascii -> bool)      (* one character of a class *)
| Cat (r1 r2 : regex)            (* [r1 r2] *)
| Alt (r1 r2 : regex)            (* [r1|r2] *)
| Star (r : regex).              (* [r*] *)

Fixpoint nullable (r : regex) : bool :=
  match r with
  | Empty => false
  | Eps => true
  | Class _ => false
  | Cat r1 r2 => nullable r1 && nullable r2
  | Alt r1 r2 => nullable r1 || nullable r2
  | Star _ => true
  end.

Fixpoint deriv (c : ascii) (r : regex) : regex :=
  match r with
  | Empty => Empty
  | Eps => Empty
  | Class f => if f c then Eps else Empty
  | Cat r1 r2 =>
      if nullable r1 then Alt (Cat (deriv c r1) r2) (deriv c r2)
      else Cat (deriv c r1) r2
  | Alt r1 r2 => Alt (deriv c r1) (deriv c r2)
  | Star r1 => Cat (deriv c r1) (Star r1)
  end.

Fixpoint matches (r : regex) (s : string) : bool :=
  match s with
  | EmptyString => nullable r
  | String c s' => matches (deriv c r) s'
  end.

(** [r+], [r?], [r{m,n}] *)
Definition plus (r : regex) : regex := Cat r (Star r).

Definition opt (r : regex) : regex := Alt Eps r.

Fixpoint upto (r : regex) (n : nat) : regex :=
  match n with
  | O => Eps
  | S n' => opt (Cat r (upto r n'))
  end.

Fixpoint times (r : regex) (m : nat) (rest : regex) : regex :=
  match m with
  | O => rest
  | S m' => Cat r (times r m' rest)
  end.

Definition between (r : regex) (m n : nat) : regex :=
  times r m (upto r (n - m)).

(** Character classes. *)
Definition upper (c : ascii) : bool :=
  let n := nat_of_ascii c in (65 <=? n)%nat && (n <=? 90)%nat.

Definition lower (c : ascii) : bool :=
  let n := nat_of_ascii c in (97 <=? n)%nat && (n <=? 122)%nat.

Definition digit (c : ascii) : bool :=
  let n := nat_of_ascii c in (48 <=? n)%nat && (n <=? 57)%nat.

(** The class of one character. *)
Definition chr (c0 c : ascii) : bool := bool_decide (c = c0).

(** [[A-Z\s&-]] *)
Definition caps_class (c : ascii) : bool :=
  upper c || PyStr.isspace c || chr "&" c || chr "-" c.

(** [[A-Za-z\s&-]] *)
Definition word_class (c : ascii) : bool :=
  upper c || lower c || PyStr.isspace c || chr "&" c || chr "-" c.

(** [\s*] *)
Definition spaces : regex := Star (Class PyStr.isspace).

(** [^[A-Z][A-Z\s&-]{2,50}:?\s*$] *)
Definition all_caps_header : regex :=
  Cat (Class upper)
    (Cat (between (Class caps_class) 2 50)
       (Cat (opt (Class (chr ":"))) spaces)).

(** [^\d+\.?\s+[A-Z][A-Za-z\s&-]{5,50}:?\s*$] *)
Definition numbered_header : regex :=
  Cat (plus (Class digit))
    (Cat (opt (Class (chr ".")))
       (Cat (plus (Class PyStr.isspace))
          (Cat (Class upper)
             (Cat (between (Class word_class) 5 50)
                (Cat (opt (Class (chr ":"))) spaces))))).

(** [^[A-Z][a-z]+(?:\s+[A-Z][a-z]+)*:?\s*$] *)
Definition title_case_header : regex :=
  Cat (Class upper)
    (Cat (plus (Class lower))
       (Cat (Star (Cat (plus (Class PyStr.isspace))
                     (Cat (Class upper) (plus (Class lower)))))
          (Cat (opt (Class (chr ":"))) spaces))).

(** [^\*\*[A-Za-z\s&-]+\*\*\s*$] *)
Definition bold_header : regex :=
  Cat (Class (chr "*"))
    (Cat (Class (chr "*"))
       (Cat (plus (Class word_class))
          (Cat (Class (chr "*")) (Cat (Class (chr "*")) spaces)))).

Definition header_patterns : list regex :=
  [all_caps_header; numbered_header; title_case_header; bold_header].

(** The [for pattern in header_patterns] loop of lines 74-78. *)
Definition is_header (line : string) : bool :=
  existsb (fun pattern => matches pattern line) header_patterns.

(** ** Strings *)

(** [s.split(sep)] for a one-character separator. *)
Fixpoint split_on_go (sep : ascii) (cur : string) (s : string) : list string :=
  match s with
  | EmptyString => [cur]
  | String c s' =>
      if bool_decide (c = sep) then cur :: split_on_go sep EmptyString s'
      else split_on_go sep (PyStr.cat cur (String c EmptyString)) s'
  end.

Definition split_on (sep : ascii) (s : string) : list string :=
  split_on_go sep EmptyString s.

(** [s.rstrip(c)] for a one-character argument. *)
Fixpoint rstrip_char (c0 : ascii) (s : string) : string :=
  match s with
  | EmptyString => EmptyString
  | String c s' =>
      match rstrip_char c0 s' with
      | EmptyString => if bool_decide (c = c0) then EmptyString else String c EmptyString
      | r => String c r
      end
  end.

(** The line feed. *)
Definition LF : ascii := ascii_of_nat 10.

(** ** [_split_into_sections] *)

(** A section dictionary of lines 83-90. *)
Record section := Section_ {
  section_title : string;
  content : string;
  page_number : Z;
  source_file : option string;
  start_line : nat;
  end_line : nat
}.

(** The dictionary [current_section]. *)
Record current := Current {
  title : string;
  cur_content : string;
  cur_start_line : nat
}.

(** [f"Page {page_num} Content"] *)
Definition default_title (page_num : Z) : string :=
  PyStr.cat "Page " (PyStr.cat (Pipeline.str_of_Z page_num) " Content").

(** The section appended from [current_section], when its content has
    at least ten words. *)
Definition close (page_num : Z) (cur : current) (end_line : nat)
    (sections : list section) : list section :=
  if (10 <=? length (PyStr.split (cur_content cur)))%nat
  then sections ++
       [Section_ (title cur) (PyStr.strip (cur_content cur)) page_num None
          (cur_start_line cur) end_line]
  else sections.

(** The body of [for i, line in enumerate(lines)] (lines 68-100). *)
Definition split_step (page_num : Z) (st : list section * current)
    (il : nat * string) : list section * current :=
  let '(sections, cur) := st in
  let i := fst il in
  let line := PyStr.strip (snd il) in
  if negb (PyStr.truthy line) then st
  else if is_header line && PyStr.truthy (PyStr.strip (cur_content cur))
  then (close page_num cur i sections,
        Current (rstrip_char ":" line) EmptyString i)
  else (sections,
        Current (title cur)
          (PyStr.cat (cur_content cur) (PyStr.cat line " "))
          (cur_start_line cur)).

(** [SectionExtractor._split_into_sections] *)
Definition _split_into_sections (page_text : string) (page_num : Z)
  : list section :=
  let lines := split_on LF page_text in
  let '(sections, cur) :=
    fold_left (split_step page_num) (Pipeline.enumerate lines)
      ([], Current (default_title page_num) EmptyString 0) in
  if PyStr.truthy (PyStr.strip (cur_content cur))
  then close page_num cur (length lines) sections
  else sections.

(** ** [_extract_sections_with_real_pages] *)

(** A page: the outcome of [page.extract_text()], which may be [None]. *)
Record page := Page {
  extract_text : result (option string)
}.

(** [not text or len(text.strip()) < 50] *)
Definition too_short (text : option string) : bool :=
  match text with
  | None => true
  | Some t =>
      negb (PyStr.truthy t) || (PyStr.len (PyStr.strip t) <? 50)%nat
  end.

(** The page loop of lines 36-43; an exception leaves it. *)
Fixpoint pages_loop (page_num : Z) (pages : list page)
    (sections : list section) : result (list section) :=
  match pages with
  | [] => Ok sections
  | p :: rest =>
      match extract_text p with
      | Raise e => Raise e
      | Ok text =>
          if too_short text then pages_loop (page_num + 1) rest sections
          else
            pages_loop (page_num + 1) rest
              (sections ++
               _split_into_sections (default EmptyString text) page_num)
      end
  end.

(** [SectionExtractor._extract_sections_with_real_pages]; [opened] is
    the outcome of [pdfplumber.open(pdf_path)] and [pdf.pages]. *)
Definition _extract_sections_with_real_pages (opened : result (list page))
  : list section :=
  match opened with
  | Raise _ => []
  | Ok pages =>
      match pages_loop 1 pages [] with
      | Raise _ => []
      | Ok sections => sections
      end
  end.

(** [SectionExtractor.process_pdf_with_real_pages] *)
Definition process_pdf_with_real_pages (opened : result (list page))
    (pdf_path : string) : list section :=
  let sections := _extract_sections_with_real_pages opened in
  let filename := Segmenter.last_field "/" EmptyString pdf_path in
  List.map (fun s =>
    Section_ (section_title s) (content s) (page_number s) (Some filename)
             (start_line s) (end_line s))
  sections.

End Splitter.

(* ===================================================================== *)
(** * Notions used to state the splitter properties *)
(* ===================================================================== *)

Module SplitterShape.
Import Splitter.

(** The characters a header line can be made of. *)
Definition header_char (c : ascii) : bool :=
  upper c || lower c || digit c || PyStr.isspace c
  || chr "&" c || chr "-" c || chr ":" c || chr "." c || chr "*" c.

(** The characters a header line can start with. *)
Definition header_start (c : ascii) : bool :=
  upper c || digit c || chr "*" c.

(** Every character of [s] satisfies [f]. *)
Fixpoint all_chars (f : ascii -> bool) (s : string) : bool :=
  match s with
  | EmptyString => true
  | String c s' => f c && all_chars f s'
  end.

(** The first character of [s] satisfies [f]. *)
Definition starts_with (f : ascii -> bool) (s : string) : bool :=
  match s with
  | EmptyString => false
  | String c _ => f c
  end.

(** The section [s] is titled by the header line at [start_line s]. *)
Definition headed_by (lines : list string) (s : section) : Prop :=
  exists raw,
    nth_error lines (start_line s) = Some raw /\
    is_header (PyStr.strip raw) = true /\
    section_title s = rstrip_char ":" (PyStr.strip raw).

(** The lines [lines[a:b]]. *)
Definition lines_between (a b : nat) (lines : list string) : list string :=
  firstn (b - a) (skipn a lines).

(** The first line whose text belongs to the section [s]: the line
    after its header, or the first line of the page for a section
    with the default title. *)
Definition text_start (page_num : Z) (lines : list string) (s : section)
    (from : nat) : Prop :=
  (from = 0%nat /\ start_line s = 0%nat /\
   section_title s = default_title page_num) \/
  (from = S (start_line s) /\ headed_by lines s).

(** The characters any regular expression can read. *)
Fixpoint alphabet (r : regex) (c : ascii) : bool :=
  match r with
  | Empty | Eps => false
  | Class f => f c
  | Cat r1 r2 | Alt r1 r2 => alphabet r1 c || alphabet r2 c
  | Star r1 => alphabet r1 c
  end.

(** The characters a match can start with. *)
Fixpoint first (r : regex) (c : ascii) : bool :=
  match r with
  | Empty | Eps => false
  | Class f => f c
  | Cat r1 r2 => first r1 c || (nullable r1 && first r2 c)
  | Alt r1 r2 => first r1 c || first r2 c
  | Star r1 => first r1 c
  end.

(** A regular expression that matches nothing, for syntactic reasons. *)
Fixpoint dead (r : regex) : bool :=
  match r with
  | Empty => true
  | Eps | Class _ | Star _ => false
  | Cat r1 r2 => dead r1 || dead r2
  | Alt r1 r2 => dead r1 && dead r2
  end.

(** A section of page [page_num] placed within the first [n] lines. *)
Definition well_placed (page_num : Z) (n : nat) (s : section) : Prop :=
  page_number s = page_num /\
  source_file s = None /\
  (10 <= length (PyStr.split (content s)))%nat /\
  PyStr.strip (content s) = content s /\
  (start_line s <= end_line s)%nat /\
  (end_line s <= n)%nat.

(** A section ends before the next one starts. *)
Definition in_order (a b : section) : Prop :=
  (end_line a <= start_line b)%nat.

(** The sections are in page order. *)
Definition page_order (a b : section) : Prop :=
  (page_number a <= page_number b)%Z.

(** The state of the line loop after the lines [done]: where the
    sections are. *)
Definition placed (page_num : Z) (done : list string)
    (st : list section * current) : Prop :=
  Forall (well_placed page_num (length done)) (fst st) /\
  StronglySorted in_order (fst st) /\
  Forall (fun s => (end_line s <= cur_start_line (snd st))%nat) (fst st) /\
  (cur_start_line (snd st) <= length done)%nat.

(** The section under construction is titled by the header line at its
    start line. *)
Definition cur_headed (done : list string) (cur : current) : Prop :=
  exists raw,
    nth_error done (cur_start_line cur) = Some raw /\
    is_header (PyStr.strip raw) = true /\
    title cur = rstrip_char ":" (PyStr.strip raw).

(** The first line whose text belongs to the section under
    construction. *)
Definition cur_text_start (page_num : Z) (done : list string) (cur : current)
    (from : nat) : Prop :=
  (from = 0%nat /\ cur_start_line cur = 0%nat /\
   title cur = default_title page_num) \/
  (from = S (cur_start_line cur) /\ cur_headed done cur).

(** The text of a section is the text of the lines from its text start
    to its end line. *)
Definition holds_text (page_num : Z) (lines : list string) (s : section)
  : Prop :=
  exists from,
    text_start page_num lines s from /\
    PyStr.split (content s)
    = flat_map PyStr.split (lines_between from (end_line s) lines).

(** The state of the line loop after the lines [done]: what the
    sections hold. *)
Definition texted (page_num : Z) (done : list string)
    (st : list section * current) : Prop :=
  Forall (fun s => holds_text page_num done s /\ (end_line s <= length done)%nat)
         (fst st) /\
  Forall (headed_by done) (tail (fst st)) /\
  (exists from,
      cur_text_start page_num done (snd st) from /\
      (from <= length done)%nat /\
      PyStr.split (cur_content (snd st))
      = flat_map PyStr.split (skipn from done)) /\
  (fst st <> [] -> cur_headed done (snd st)) /\
  SegmenterShape.spaced (cur_content (snd st)).

(** The sections of one page in [_extract_sections_with_real_pages]. *)
Definition page_sections (page_num : Z) (p : page) : list section :=
  match extract_text p with
  | Ok text =>
      if too_short text then []
      else _split_into_sections (default EmptyString text) page_num
  | Raise _ => []
  end.

(** The text of a page can be read. *)
Definition readable (p : page) : Prop :=
  exists text, extract_text p = Ok text.

(** The section [s] with [source_file] set. *)
Definition with_source (filename : string) (s : section) : section :=
  Section_ (section_title s) (content s) (page_number s) (Some filename)
           (start_line s) (end_line s).

(** The sections of the pages numbered from [page_num], page by page. *)
Fixpoint collect (page_num : Z) (pages : list page) : list section :=
  match pages with
  | [] => []
  | p :: rest => page_sections page_num p ++ collect (page_num + 1) rest
  end.

(** The section [s] was split from the text of a page of [pages],
    numbered from [first_num], whose stripped text has at least 50
    characters. *)
Definition on_page (pages : list page) (first_num : Z) (s : section) : Prop :=
  exists i p t,
    nth_error pages i = Some p /\
    extract_text p = Ok (Some t) /\
    (50 <= PyStr.len (PyStr.strip t))%nat /\
    page_number s = (first_num + Z.of_nat i)%Z /\
    In (Section_ (section_title s) (content s) (page_number s) None
          (start_line s) (end_line s))
       (_split_into_sections t (page_number s)).

End SplitterShape.

(* ===================================================================== *)
(** * Part II: properties *)
(* ===================================================================== *)

(** ** Rational comparisons *)

Lemma Qltb_lt (x y : Q) : Qltb x y = true <-> (x < y)%Q.
Proof.
  unfold Qltb. rewrite negb_true_iff. split.
  - intros H. apply Qnot_le_lt. intros Hle.
    apply Qle_bool_iff in Hle. congruence.
  - intros H. destruct (Qle_bool y x) eqn:E; [|reflexivity].
    apply Qle_bool_iff in E. exfalso. apply (Qlt_not_le _ _ H E).
Qed.

Lemma Qltb_ge (x y : Q) : Qltb x y = false <-> (y <= x)%Q.
Proof.
  unfold Qltb. rewrite negb_false_iff. apply Qle_bool_iff.
Qed.

(* ===================================================================== *)
(** ** Ranker: the inner scan of one round *)
(* ===================================================================== *)

Module RankerFacts.
Import Ranker RankerOrder.

Section Scan.

Variable seen_titles : gset string.
Variable doc_counts : gmap string nat.

Local Abbreviation ps := (penalized_score doc_counts).
Local Abbreviation step := (scan_step seen_titles doc_counts).

Lemma scan_step_skip st c :
  title c ∈ seen_titles -> step st c = st.
Proof.
  intros H. unfold scan_step. rewrite bool_decide_eq_true_2; auto.
Qed.

Lemma scan_step_take st c :
  title c ∉ seen_titles -> (snd st < ps c)%Q -> step st c = (Some c, ps c).
Proof.
  intros H Hlt. unfold scan_step. rewrite bool_decide_eq_false_2; auto.
  apply Qltb_lt in Hlt. simpl. rewrite Hlt. reflexivity.
Qed.

Lemma scan_step_keep st c :
  title c ∉ seen_titles -> (ps c <= snd st)%Q -> step st c = st.
Proof.
  intros H Hle. unfold scan_step. rewrite bool_decide_eq_false_2; auto.
  apply Qltb_ge in Hle. simpl. rewrite Hle. reflexivity.
Qed.

(** The running maximum never decreases, and dominates every eligible
    candidate that was scanned. *)
Lemma scan_fold_bound cands : forall st,
  let r := fold_left step cands st in
  (snd st <= snd r)%Q /\
  (forall c, In c cands -> title c ∉ seen_titles -> (ps c <= snd r)%Q).
Proof.
  induction cands as [|x cands IH]; intros st; simpl.
  - split; [apply Qle_refl|]. intros c [].
  - destruct (IH (step st x)) as [Hmono Hdom].
    assert (Hst : (snd st <= snd (step st x))%Q /\
                  ((title x ∉ seen_titles) -> (ps x <= snd (step st x))%Q)).
    { destruct (decide (title x ∈ seen_titles)) as [Hin|Hnin].
      - rewrite scan_step_skip by auto. split; [apply Qle_refl|tauto].
      - destruct (Qlt_le_dec (snd st) (ps x)) as [Hlt|Hle].
        + rewrite scan_step_take by auto. simpl.
          split; [apply Qlt_le_weak; auto|intros; apply Qle_refl].
        + rewrite scan_step_keep by auto. split; [apply Qle_refl|auto]. }
    destruct Hst as [H1 H2]. split.
    + eapply Qle_trans; eauto.
    + intros c [<-|Hc] Hel.
      * eapply Qle_trans; [apply H2; auto|apply Hmono].
      * apply Hdom; auto.
Qed.

(** Either the scan leaves its state untouched, or it ends on the first
    eligible candidate that reaches the maximum. *)
Lemma scan_fold_pick cands : forall st,
  let r := fold_left step cands st in
  (r = st /\ forall c, In c cands -> title c ∉ seen_titles -> (ps c <= snd st)%Q)
  \/
  (exists c l1 l2,
      cands = l1 ++ c :: l2 /\ r = (Some c, ps c) /\
      (title c ∉ seen_titles) /\ (snd st < ps c)%Q /\
      (forall c', In c' l1 -> title c' ∉ seen_titles -> (ps c' < ps c)%Q) /\
      (forall c', In c' l2 -> title c' ∉ seen_titles -> (ps c' <= ps c)%Q)).
Proof.
  induction cands as [|x cands IH]; intros st; simpl.
  - left. split; [reflexivity|]. intros c [].
  - destruct (decide (title x ∈ seen_titles)) as [Hin|Hnin].
    + rewrite scan_step_skip by auto.
      destruct (IH st) as [[Heq Hall]|(c & l1 & l2 & -> & Hr & Hel & Hlt & Hb & Ha)].
      * left. split; [exact Heq|]. intros c [<-|Hc] Hel; [contradiction|auto].
      * right. exists c, (x :: l1), l2. repeat split; auto.
        intros c' [<-|Hc'] Hel'; [contradiction|auto].
    + destruct (Qlt_le_dec (snd st) (ps x)) as [Hlt|Hle].
      * rewrite scan_step_take by auto.
        destruct (IH (Some x, ps x)) as [[Heq Hall]|(c & l1 & l2 & -> & Hr & Hel & Hlt' & Hb & Ha)].
        -- right. exists x, [], cands. simpl in *. repeat split; auto.
           intros c' [].
        -- right. exists c, (x :: l1), l2. simpl in *. repeat split; auto.
           ++ eapply Qlt_trans; eauto.
           ++ intros c' [<-|Hc'] Hel'; auto.
      * rewrite scan_step_keep by auto.
        destruct (IH st) as [[Heq Hall]|(c & l1 & l2 & -> & Hr & Hel & Hlt' & Hb & Ha)].
        -- left. split; [exact Heq|]. intros c [<-|Hc] Hel; auto.
        -- right. exists c, (x :: l1), l2. repeat split; auto.
           intros c' [<-|Hc'] Hel'; auto.
           eapply Qle_lt_trans; eauto.
Qed.

(** The scan of a round picks nothing exactly when no eligible
    candidate has a penalised score above the initial [-1.0]. *)
Lemma scan_none cands :
  fst (scan seen_titles doc_counts cands) = None <->
  (forall c, In c cands -> title c ∉ seen_titles -> (ps c <= -1.0)%Q).
Proof.
  unfold scan. destruct (scan_fold_pick cands (None, (-1.0)%Q))
    as [[Heq Hall]|(c & l1 & l2 & -> & Hr & Hel & Hlt & Hb & Ha)]; simpl in *.
  - rewrite Heq. simpl. split; auto.
  - rewrite Hr. simpl. split; [discriminate|].
    intros H. exfalso. apply (Qlt_not_le _ _ Hlt). apply H; auto.
    apply in_or_app. right. left. reflexivity.
Qed.

(** The pick of a round: the first eligible candidate, in list order,
    whose penalised score is maximal, provided that maximum exceeds
    [-1.0]. *)
Lemma scan_some cands b :
  fst (scan seen_titles doc_counts cands) = Some b ->
  exists l1 l2,
    cands = l1 ++ b :: l2 /\ (title b ∉ seen_titles) /\ (-1.0 < ps b)%Q /\
    (forall c', In c' l1 -> title c' ∉ seen_titles -> (ps c' < ps b)%Q) /\
    (forall c', In c' l2 -> title c' ∉ seen_titles -> (ps c' <= ps b)%Q).
Proof.
  unfold scan. destruct (scan_fold_pick cands (None, (-1.0)%Q))
    as [[Heq Hall]|(c & l1 & l2 & -> & Hr & Hel & Hlt & Hb & Ha)]; simpl in *.
  - rewrite Heq. simpl. discriminate.
  - rewrite Hr. simpl. intros [= <-]. exists l1, l2. repeat split; auto.
Qed.

End Scan.

(** ** Ranker: sorting and removal keep the candidates *)

Lemma insert_desc_In x y l : In x (insert_desc y l) <-> x = y \/ In x l.
Proof.
  induction l as [|z l IH]; simpl.
  - split; intros [H|H]; auto; contradiction.
  - destruct (Qltb (final_score y) (final_score z)); simpl.
    + rewrite IH. intuition congruence.
    + intuition congruence.
Qed.

Lemma sorted_desc_In x l : In x (sorted_desc l) <-> In x l.
Proof.
  induction l as [|y l IH]; simpl.
  - reflexivity.
  - rewrite insert_desc_In, IH. intuition congruence.
Qed.

Lemma list_remove_In x y l : In x (list_remove y l) -> In x l.
Proof.
  induction l as [|z l IH]; simpl; [auto|].
  destruct (scored_eqb z y); simpl; intuition.
Qed.

Lemma insert_desc_descending x l :
  descending l -> descending (insert_desc x l).
Proof.
  induction 1 as [|z l Hz Hd IH]; simpl.
  - constructor; [intros y []|constructor].
  - destruct (Qltb (final_score x) (final_score z)) eqn:E.
    + constructor; [|exact IH].
      intros y Hy. apply insert_desc_In in Hy as [->|Hy]; [|auto].
      apply Qltb_lt in E. apply Qlt_le_weak. exact E.
    + apply Qltb_ge in E. constructor; [|constructor; auto].
      intros y [<-|Hy]; [exact E|].
      eapply Qle_trans; [apply Hz; exact Hy|exact E].
Qed.

Lemma sorted_desc_descending l : descending (sorted_desc l).
Proof.
  induction l as [|x l IH]; simpl; [constructor|].
  apply insert_desc_descending. exact IH.
Qed.

(** ** Ranker: the selection loop *)

(** What a finished loop returns: the selection it started from,
    extended by candidates with fresh, pairwise distinct titles, and
    never longer than [k] unless it already was. *)
Lemma select_loop_spec fuel : forall k cands final seen r,
  select_loop fuel k cands final seen = Some r ->
  exists picked,
    r = final ++ picked /\
    (forall c, In c picked -> In c cands) /\
    (forall c, In c picked -> title c ∉ seen) /\
    List.NoDup (List.map title picked) /\
    (Z.of_nat (length r) <= Z.max k (Z.of_nat (length final)))%Z.
Proof.
  induction fuel as [|fuel IH]; intros k cands final seen r; simpl.
  - destruct ((Z.of_nat (length final) <? k)%Z && nonempty cands) eqn:Hc;
      [discriminate|].
    intros [= <-]. exists []. rewrite app_nil_r.
    repeat split; try (intros c []); [constructor|lia].
  - destruct ((Z.of_nat (length final) <? k)%Z && nonempty cands) eqn:Hc.
    + apply andb_true_iff in Hc as [Hlt _]. apply Z.ltb_lt in Hlt.
      destruct (fst (scan seen (count_documents final) cands)) as [best|] eqn:Hs.
      * intros Hr. apply IH in Hr as (picked & -> & Hin & Hfresh & Hnd & Hlen).
        apply scan_some in Hs as (l1 & l2 & Hcands & Hel & _).
        exists (best :: picked). rewrite <- app_assoc. simpl.
        split; [reflexivity|]. split; [|split; [|split]].
        -- intros c [<-|Hc].
           ++ rewrite Hcands. apply in_or_app. right. left. reflexivity.
           ++ eapply list_remove_In. apply Hin. exact Hc.
        -- intros c [<-|Hc]; [exact Hel|].
           specialize (Hfresh c Hc). set_solver.
        -- constructor; [|exact Hnd].
           intros Hin'. apply in_map_iff in Hin' as (c & Heq & Hc).
           specialize (Hfresh c Hc). rewrite Heq in Hfresh. set_solver.
        -- rewrite !length_app in *. simpl in *. lia.
      * intros [= <-]. exists []. rewrite app_nil_r.
        repeat split; try (intros c []); [constructor|lia].
    + intros [= <-]. exists []. rewrite app_nil_r.
      repeat split; try (intros c []); [constructor|lia].
Qed.

(** The loop ends within [k - len(final_results)] iterations. *)
Lemma select_loop_total fuel : forall k cands final seen,
  (k - Z.of_nat (length final) <= Z.of_nat fuel)%Z ->
  exists r, select_loop fuel k cands final seen = Some r.
Proof.
  induction fuel as [|fuel IH]; intros k cands final seen Hf; simpl.
  - destruct (Z.ltb_spec (Z.of_nat (length final)) k); [lia|].
    simpl. eauto.
  - destruct ((Z.of_nat (length final) <? k)%Z && nonempty cands); [|eauto].
    destruct (fst (scan seen (count_documents final) cands)); [|eauto].
    apply IH. rewrite length_app. simpl. lia.
Qed.

Lemma diversity_rank_total all_sections k :
  exists r, diversity_rank all_sections k = Some r.
Proof.
  unfold diversity_rank. destruct all_sections as [|x l]; [eauto|].
  apply select_loop_total. simpl. lia.
Qed.

(** The selection is drawn from the scored candidates, holds no title
    twice and has at most [k] entries. *)
Lemma diversity_rank_spec all_sections k r :
  diversity_rank all_sections k = Some r ->
  (forall c, In c r -> In c all_sections) /\
  List.NoDup (List.map title r) /\
  (Z.of_nat (length r) <= Z.max k 0)%Z.
Proof.
  unfold diversity_rank. destruct all_sections as [|x l].
  - intros [= <-]. repeat split; [intros c []|constructor|simpl; lia].
  - intros Hr. apply select_loop_spec in Hr as (picked & -> & Hin & _ & Hnd & Hlen).
    simpl in *. repeat split; auto.
    intros c Hc. apply (sorted_desc_In c (x :: l)). auto.
Qed.

(** ** Ranker: the per-document counter *)

Lemma count_documents_fold final : forall (m : gmap string nat) d,
  default 0%nat
    (fold_left
       (fun (m : gmap string nat) res =>
          <[document res := S (default 0%nat (m !! document res))]> m)
       final m !! d)
  = (default 0%nat (m !! d)
     + length (List.filter (fun r => bool_decide (document r = d)) final))%nat.
Proof.
  induction final as [|x final IH]; intros m d; simpl.
  - lia.
  - rewrite IH. destruct (decide (document x = d)) as [->|Hne].
    + rewrite lookup_insert_eq. rewrite bool_decide_eq_true_2 by reflexivity.
      simpl. lia.
    + rewrite lookup_insert_ne by exact Hne.
      rewrite bool_decide_eq_false_2 by exact Hne. reflexivity.
Qed.

(** [doc_counts[d]] is the number of selected sections of document [d]. *)
Lemma count_documents_spec final d :
  doc_count (count_documents final) d
  = length (List.filter (fun r => bool_decide (document r = d)) final).
Proof.
  unfold doc_count, count_documents. rewrite count_documents_fold.
  rewrite lookup_empty. reflexivity.
Qed.

(** ** Ranker: dictionaries *)

Lemma dict_set_fresh {V} k (v : V) d :
  ~ In k (List.map fst d) -> dict_set k v d = d ++ [(k, v)].
Proof.
  induction d as [|[k' v'] d IH]; simpl; intros Hnin; [reflexivity|].
  rewrite bool_decide_eq_false_2 by tauto. rewrite IH by tauto. reflexivity.
Qed.

Lemma dict_set_present {V} k (v : V) d :
  In k (List.map fst d) -> List.map fst (dict_set k v d) = List.map fst d.
Proof.
  induction d as [|[k' v'] d IH]; simpl; intros Hin; [contradiction|].
  destruct (decide (k' = k)) as [->|Hne].
  - rewrite bool_decide_eq_true_2 by reflexivity. reflexivity.
  - rewrite bool_decide_eq_false_2 by exact Hne. simpl. rewrite IH; [reflexivity|].
    destruct Hin; [contradiction|assumption].
Qed.

Lemma NoDup_snoc {A} (l : list A) x :
  List.NoDup l -> ~ In x l -> List.NoDup (l ++ [x]).
Proof.
  induction 1 as [|y l Hy Hnd IH]; simpl; intros Hx.
  - constructor; [tauto|constructor].
  - constructor.
    + rewrite in_app_iff. simpl. intros [H|[H|[]]]; [tauto|subst; tauto].
    + apply IH. tauto.
Qed.

Lemma dict_set_NoDup {V} k (v : V) d :
  List.NoDup (List.map fst d) -> List.NoDup (List.map fst (dict_set k v d)).
Proof.
  intros Hnd. destruct (in_dec string_dec k (List.map fst d)) as [Hin|Hnin].
  - rewrite dict_set_present by exact Hin. exact Hnd.
  - rewrite dict_set_fresh by exact Hnin. rewrite map_app. simpl.
    apply NoDup_snoc; assumption.
Qed.

Lemma dict_fold_NoDup {V} (pairs : list (string * V)) : forall d,
  List.NoDup (List.map fst d) ->
  List.NoDup (List.map fst
    (fold_left (fun d kv => dict_set (fst kv) (snd kv) d) pairs d)).
Proof.
  induction pairs as [|[k v] pairs IH]; intros d Hnd; simpl; [exact Hnd|].
  apply IH. apply dict_set_NoDup. exact Hnd.
Qed.

(** A dictionary has each key once. *)
Lemma dict_of_pairs_NoDup {V} (pairs : list (string * V)) :
  List.NoDup (List.map fst (dict_of_pairs pairs)).
Proof. apply dict_fold_NoDup. constructor. Qed.

Lemma dict_fold_id {V} (pairs : list (string * V)) : forall d,
  List.NoDup (List.map fst (d ++ pairs)) ->
  fold_left (fun d kv => dict_set (fst kv) (snd kv) d) pairs d = d ++ pairs.
Proof.
  induction pairs as [|[k v] pairs IH]; intros d Hnd; simpl.
  - rewrite app_nil_r. reflexivity.
  - assert (Hk : ~ In k (List.map fst d)).
    { rewrite map_app in Hnd. simpl in Hnd.
      apply List.NoDup_remove_2 in Hnd. intros Hin. apply Hnd.
      apply in_or_app. auto. }
    rewrite dict_set_fresh by exact Hk.
    rewrite IH; rewrite <- app_assoc; simpl; [reflexivity|exact Hnd].
Qed.

(** Building a dictionary from pairs with distinct keys keeps them all,
    in order. *)
Lemma dict_of_pairs_id {V} (pairs : list (string * V)) :
  List.NoDup (List.map fst pairs) -> dict_of_pairs pairs = pairs.
Proof. intros Hnd. unfold dict_of_pairs. rewrite dict_fold_id; auto. Qed.

(** ** Ranker: scoring *)

Section ScoringFacts.

Variable vec : Type.
Variable encode : string -> vec.
Variable cosine_similarity : vec -> vec -> Q.
Variable extract_keywords : string -> list (string * Q).

Local Abbreviation themes_of := (_extract_dynamic_themes extract_keywords).
Local Abbreviation embeddings_of := (theme_embeddings_of vec encode).

Lemma _extract_dynamic_themes_NoDup text :
  List.NoDup (List.map fst (themes_of text)).
Proof.
  unfold _extract_dynamic_themes. destruct (extract_keywords text).
  - constructor.
  - apply dict_of_pairs_NoDup.
Qed.

Lemma theme_embeddings_of_map themes :
  List.NoDup (List.map fst themes) ->
  embeddings_of themes
  = List.map (fun tw => (fst tw, encode (fst tw))) themes.
Proof.
  intros Hnd. unfold theme_embeddings_of. apply dict_of_pairs_id.
  rewrite map_map. simpl. exact Hnd.
Qed.

(** A theme that is not a key of the dictionary matches no entry. *)
Lemma inner_absent (themes : list (string * Q)) (t : string) (g : string * Q -> Q) :
  ~ In t (List.map fst themes) ->
  flat_map (fun tw : string * Q =>
              if bool_decide (t = fst tw) then [g tw] else []) themes = [].
Proof.
  induction themes as [|[k w] themes IH]; simpl; intros Hnin; [reflexivity|].
  rewrite bool_decide_eq_false_2 by (intros ->; tauto).
  simpl. apply IH. tauto.
Qed.

(** A key of the dictionary matches exactly its own entry. *)
Lemma inner_single (themes : list (string * Q)) t w (g : string * Q -> Q) :
  List.NoDup (List.map fst themes) -> In (t, w) themes ->
  flat_map (fun tw : string * Q =>
              if bool_decide (t = fst tw) then [g tw] else []) themes = [g (t, w)].
Proof.
  induction themes as [|[k v] themes IH]; simpl; intros Hnd Hin; [contradiction|].
  apply List.NoDup_cons_iff in Hnd as [Hk Hnd].
  destruct Hin as [[= -> ->]|Hin].
  - rewrite bool_decide_eq_true_2 by reflexivity. simpl.
    rewrite inner_absent by exact Hk. reflexivity.
  - assert (t <> k).
    { intros ->. apply Hk. apply in_map_iff. exists (k, w). auto. }
    rewrite bool_decide_eq_false_2 by assumption. simpl. apply IH; assumption.
Qed.

(** The nested comprehension yields one product per theme, in order. *)
Lemma theme_scores_collapse themes se :
  List.NoDup (List.map fst themes) ->
  theme_scores vec cosine_similarity themes (embeddings_of themes) se
  = List.map (fun tw => (cosine_similarity se (encode (fst tw)) * snd tw)%Q) themes.
Proof.
  intros Hnd. rewrite theme_embeddings_of_map by exact Hnd.
  unfold theme_scores.
  assert (H : forall sub, (forall x, In x sub -> In x themes) ->
    flat_map (fun te : string * vec =>
      flat_map (fun tw : string * Q =>
        if bool_decide (fst te = fst tw)
        then [(cosine_similarity se (snd te) * snd tw)%Q] else []) themes)
      (List.map (fun tw => (fst tw, encode (fst tw))) sub)
    = List.map (fun tw => (cosine_similarity se (encode (fst tw)) * snd tw)%Q) sub).
  { induction sub as [|[t w] sub IH]; intros Hsub; simpl; [reflexivity|].
    rewrite (inner_single themes t w
               (fun tw => (cosine_similarity se (encode t) * snd tw)%Q))
      by (auto; apply Hsub; left; reflexivity).
    simpl. f_equal. apply IH. intros x Hx. apply Hsub. right. exact Hx. }
  apply H. auto.
Qed.

(** The thematic score of the code is the mean the specification names. *)
Lemma thematic_score_of_reference themes se :
  List.NoDup (List.map fst themes) ->
  thematic_score_of vec cosine_similarity themes (embeddings_of themes) se
  = Reference.thematic_score encode cosine_similarity themes se.
Proof.
  intros Hnd. unfold thematic_score_of, Reference.thematic_score.
  destruct themes as [|tw themes]; [reflexivity|].
  rewrite theme_scores_collapse by exact Hnd. reflexivity.
Qed.

(** What [score_section] returns when it does not [continue]. *)
Lemma score_section_Some req themes embs d s c :
  score_section vec encode cosine_similarity req themes embs d s = Some c ->
  PyStr.contains ".pdf" (section_title s) = false /\
  (10 <= length (PyStr.split (section_text s)))%nat /\
  c = Scored s (filename d)
        (cosine_similarity (encode (section_text s)) (embedding req) * 0.4
         + thematic_score_of vec cosine_similarity themes embs
             (encode (section_text s)) * 0.6)%Q.
Proof.
  unfold score_section.
  destruct (PyStr.contains ".pdf" (section_title s)); [discriminate|].
  destruct (Nat.ltb_spec (length (PyStr.split (section_text s))) 10); [discriminate|].
  intros [= <-]. auto.
Qed.

(** Every scored candidate comes from a section that passed both filters. *)
Lemma score_all_In docs req c :
  In c (score_all vec encode cosine_similarity extract_keywords docs req) ->
  exists d s,
    In d docs /\ In s (sections d) /\
    score_section vec encode cosine_similarity req
      (themes_of (combined_text req))
      (embeddings_of (themes_of (combined_text req))) d s = Some c.
Proof.
  unfold score_all. intros Hin.
  apply in_flat_map in Hin as (d & Hd & Hin).
  apply in_flat_map in Hin as (s & Hs & Hin).
  exists d, s. repeat split; auto.
  destruct (score_section _ _ _ _ _ _ _ _) as [c'|]; simpl in Hin.
  - destruct Hin as [->|[]]. reflexivity.
  - contradiction.
Qed.

End ScoringFacts.

(** Whenever some eligible candidate has a penalised score above
    [-1.0], the round picks a candidate, and it picks the first one, in
    the order of the list, whose penalised score is the maximum over the
    eligible candidates. *)
Lemma scan_picks_first_maximum seen_titles doc_counts cands c :
  In c cands -> title c ∉ seen_titles ->
  (-1.0 < penalized_score doc_counts c)%Q ->
  exists b l1 l2,
    fst (scan seen_titles doc_counts cands) = Some b /\
    cands = l1 ++ b :: l2 /\ (title b ∉ seen_titles) /\
    (forall c', In c' cands -> title c' ∉ seen_titles ->
       (penalized_score doc_counts c' <= penalized_score doc_counts b)%Q) /\
    (forall c', In c' l1 -> title c' ∉ seen_titles ->
       (penalized_score doc_counts c' < penalized_score doc_counts b)%Q).
Proof.
  intros Hin Hel Hgt.
  destruct (fst (scan seen_titles doc_counts cands)) as [b|] eqn:Hs.
  - apply scan_some in Hs as (l1 & l2 & Hc & Hb & _ & Hbefore & Hafter).
    exists b, l1, l2. repeat split; auto.
    intros c' Hc' Hel'. rewrite Hc in Hc'.
    apply in_app_or in Hc' as [H|[<-|H]].
    + apply Qlt_le_weak. auto.
    + apply Qle_refl.
    + auto.
  - exfalso. pose proof (proj1 (scan_none seen_titles doc_counts cands) Hs c Hin Hel).
    lra.
Qed.

(** Every scored candidate was built from a section whose title does
    not contain [".pdf"] and whose combined text has at least ten words. *)
Lemma scored_passed_filters {vec : Type} (encode : string -> vec)
    (cosine_similarity : vec -> vec -> Q)
    (extract_keywords : string -> list (string * Q)) docs req c :
  In c (score_all vec encode cosine_similarity extract_keywords docs req) ->
  PyStr.contains ".pdf" (section_title (base c)) = false /\
  (10 <= length (PyStr.split (section_text (base c))))%nat.
Proof.
  intros Hc. apply score_all_In in Hc as (d & s & _ & _ & Hs).
  apply score_section_Some in Hs as (H1 & H2 & ->). simpl. auto.
Qed.

(** When every section of every document is rejected by one of the two
    filters, the ranker returns the empty list. *)
Lemma get_sections_with_content_empty {vec : Type} (encode : string -> vec)
    (cosine_similarity : vec -> vec -> Q)
    (extract_keywords : string -> list (string * Q)) docs req k :
  (forall d s, In d docs -> In s (sections d) ->
     PyStr.contains ".pdf" (section_title s) = true \/
     (length (PyStr.split (section_text s)) < 10)%nat) ->
  get_sections_with_content encode cosine_similarity extract_keywords docs req k
  = Some [].
Proof.
  intros Hrej. unfold get_sections_with_content.
  destruct (score_all vec encode cosine_similarity extract_keywords docs req)
    as [|c l] eqn:E; [reflexivity|].
  assert (Hc : In c (score_all vec encode cosine_similarity extract_keywords docs req))
    by (rewrite E; left; reflexivity).
  apply score_all_In in Hc as (d & s & Hd & Hs & Hsc).
  apply score_section_Some in Hsc as (H1 & H2 & _).
  destruct (Hrej d s Hd Hs) as [H|H]; [congruence|lia].
Qed.

End RankerFacts.

(* ===================================================================== *)
(** ** Ranker: the claims *)
(* ===================================================================== *)

Module RankerClaims.
Import Ranker RankerOrder RankerFacts.

(** Closes [t ∉ {[t1]} ∪ ... ∪ ∅] for literal titles. *)
Ltac titles_fresh :=
  simpl; rewrite ?elem_of_union, ?elem_of_singleton, ?elem_of_empty;
  intuition discriminate.

(** C1 (evaluation at the failing input).  One document with five
    sections of final score 0.9 and [k = 5]: the loop returns four
    sections.  In the fifth round the section titled "t5" is still a
    candidate and its title has not been chosen, but its penalised score
    [0.9 * (1 - 4 * 0.60) = -1.26] is not above the initial
    [best_score = -1.0], so the scan picks nothing and the loop breaks.
    The same happens through [get_sections_with_content] on a document
    of five sections under a model that scores each of them 0.9. *)
Theorem C1_fifth_round_picks_nothing :
  diversity_rank Sample.five 5 = Some (firstn 4 Sample.five) /\
  (let final_results := firstn 4 Sample.five in
   let seen_titles : gset string := list_to_set (List.map title final_results) in
   let doc_counts := count_documents final_results in
   let t5 := Sample.cand "t5" "A" 0.9%Q in
   In t5 Sample.five /\ (title t5 ∉ seen_titles) /\
   (penalized_score doc_counts t5 == -1.26)%Q /\
   fst (scan seen_titles doc_counts [t5]) = None) /\
  option_map (List.map title)
    (get_sections_with_content Sample.encode Sample.close_cosine Sample.one_theme
       [Sample.guide] Sample.req 5)
  = Some ["Getting there"; "Where to stay"; "What to eat"; "Day trips"].
Proof.
  split; [vm_compute; reflexivity|]. split.
  - cbv zeta. split; [simpl; tauto|]. split.
    + intros H. apply elem_of_list_to_set, list_elem_of_In in H.
      simpl in H. intuition discriminate.
    + split; vm_compute; reflexivity.
  - vm_compute. reflexivity.
Qed.

(** C2.  Every candidate that survives the filters is scored
    [0.4 * cosine_similarity(section_embedding, query_embedding)
     + 0.6 * thematic_score], the thematic score being the mean over the
    extracted themes of [cosine_similarity(section_embedding,
    theme_embedding) * theme_weight], and [0.0] when no theme was
    extracted. *)
Theorem C2_final_score_blend {vec : Type} (encode : string -> vec)
    (cosine_similarity : vec -> vec -> Q)
    (extract_keywords : string -> list (string * Q)) docs req c :
  In c (score_all vec encode cosine_similarity extract_keywords docs req) ->
  let themes := _extract_dynamic_themes extract_keywords (combined_text req) in
  let section_embedding := encode (section_text (base c)) in
  (final_score c ==
     0.4 * cosine_similarity section_embedding (embedding req)
     + 0.6 * Reference.thematic_score encode cosine_similarity themes
               section_embedding)%Q /\
  (themes = [] ->
   (final_score c == 0.4 * cosine_similarity section_embedding (embedding req))%Q).
Proof.
  intros Hc themes se.
  apply score_all_In in Hc as (d & s & _ & _ & Hs).
  apply score_section_Some in Hs as (_ & _ & ->).
  subst themes se. simpl.
  rewrite (thematic_score_of_reference vec encode cosine_similarity
             extract_keywords _ _
             (_extract_dynamic_themes_NoDup extract_keywords (combined_text req))).
  split.
  - ring.
  - intros ->. unfold Reference.thematic_score. ring.
Qed.

Lemma C2_final_score_blend_witness :
  let c := Scored (Section_ "Coastal walks" Sample.long_content 1) "a.pdf"
             (8900 # 154000) in
  let themes := _extract_dynamic_themes Sample.extract_keywords
                  (combined_text Sample.req) in
  let section_embedding := Sample.encode (section_text (base c)) in
  (final_score c ==
     0.4 * Sample.cosine_similarity section_embedding (embedding Sample.req)
     + 0.6 * Reference.thematic_score Sample.encode Sample.cosine_similarity
               themes section_embedding)%Q /\
  (themes = [] ->
   (final_score c ==
      0.4 * Sample.cosine_similarity section_embedding (embedding Sample.req))%Q).
Proof.
  apply (C2_final_score_blend Sample.encode Sample.cosine_similarity
           Sample.extract_keywords [Sample.doc_a] Sample.req).
  vm_compute. left. reflexivity.
Defined.

(** C6.  A section whose title contains [".pdf"], or whose combined text
    [title + ". " + content[:500]] has fewer than ten words, is never an
    entry of the list the ranker returns, whatever the model, the query
    and [k] are. *)
Theorem C6_rejected_section_never_ranked {vec : Type} (encode : string -> vec)
    (cosine_similarity : vec -> vec -> Q)
    (extract_keywords : string -> list (string * Q)) docs req k s :
  PyStr.contains ".pdf" (section_title s) = true \/
  (length (PyStr.split (section_text s)) < 10)%nat ->
  exists r,
    get_sections_with_content encode cosine_similarity extract_keywords docs req k
    = Some r /\
    forall c, In c r -> base c <> s.
Proof.
  intros Hrej. unfold get_sections_with_content.
  destruct (diversity_rank_total
              (score_all vec encode cosine_similarity extract_keywords docs req) k)
    as [r Hr].
  exists r. split; [exact Hr|].
  intros c Hc Heq. apply diversity_rank_spec in Hr as (Hsub & _).
  apply Hsub in Hc. apply scored_passed_filters in Hc as [H1 H2].
  rewrite Heq in H1, H2. destruct Hrej as [H|H]; [congruence|lia].
Qed.

Lemma C6_rejected_section_never_ranked_witness :
  exists r,
    get_sections_with_content Sample.encode Sample.cosine_similarity
      Sample.extract_keywords [Sample.doc_a] Sample.req 5 = Some r /\
    forall c, In c r -> base c <> Section_ "notes.pdf" Sample.long_content 2.
Proof.
  apply (C6_rejected_section_never_ranked Sample.encode Sample.cosine_similarity
           Sample.extract_keywords [Sample.doc_a] Sample.req 5
           (Section_ "notes.pdf" Sample.long_content 2)).
  left. vm_compute. reflexivity.
Defined.

(** C4 as worded does not hold.  Document A scores 0.9,
    0.8 and -0.5, document B scores 0.05, [k = 3].  After two picks from
    A the candidate of B is eligible with the positive penalised score
    0.05, yet the third pick is the section of A whose final score is
    negative: its penalised score is [-0.5 * -0.2 = 0.1]. *)
Lemma C4_negative_score_third_pick :
  let a1 := Sample.cand "a1" "A" 0.9%Q in
  let a2 := Sample.cand "a2" "A" 0.8%Q in
  let a3 := Sample.cand "a3" "A" (-0.5)%Q in
  let b1 := Sample.cand "b1" "B" 0.05%Q in
  let final_results := [a1; a2] in
  let seen_titles : gset string := {["a2"]} ∪ ({["a1"]} ∪ ∅) in
  let candidates := [b1; a3] in
  let doc_counts := count_documents final_results in
  diversity_rank Sample.mixed 3 = Some [a1; a2; a3] /\
  doc_count doc_counts "A" = 2%nat /\
  In b1 candidates /\ (title b1 ∉ seen_titles) /\ document b1 <> "A" /\
  (0 < penalized_score doc_counts b1)%Q /\
  fst (scan seen_titles doc_counts candidates) = Some a3 /\
  document a3 = "A".
Proof.
  cbv zeta. split; [vm_compute; reflexivity|].
  split; [vm_compute; reflexivity|].
  split; [simpl; tauto|].
  split; [titles_fresh|].
  split; [discriminate|].
  split; [vm_compute; reflexivity|].
  split; [vm_compute; reflexivity|reflexivity].
Qed.

(** C4 (amended).  In a round where document [d] already has two
    selections, the penalty factor of [d] is [1 - 2 * 0.60 = -0.2]; a
    candidate of [d] with a positive final score has a negative
    penalised score, strictly below that of any eligible candidate [c']
    of another document whose penalised score is positive; and while
    such a [c'] remains the round does pick a candidate, which is never a
    candidate of [d] with a final score of zero or more. *)
Theorem C4_third_pick_dominated cands final_results seen_titles d c' :
  let doc_counts := count_documents final_results in
  length (List.filter (fun r => bool_decide (document r = d)) final_results) = 2%nat ->
  In c' cands -> title c' ∉ seen_titles -> document c' <> d ->
  (0 < penalized_score doc_counts c')%Q ->
  (penalty doc_counts d == -0.2)%Q /\
  (forall c, document c = d -> (0 < final_score c)%Q ->
     (penalized_score doc_counts c < 0)%Q /\
     (penalized_score doc_counts c < penalized_score doc_counts c')%Q) /\
  exists b,
    fst (scan seen_titles doc_counts cands) = Some b /\
    (penalized_score doc_counts c' <= penalized_score doc_counts b)%Q /\
    (document b = d -> (final_score b < 0)%Q).
Proof.
  intros doc_counts Hcount Hin Hel Hdoc Hpos.
  assert (Hpen : (penalty doc_counts d == -0.2)%Q).
  { unfold penalty, doc_counts. rewrite count_documents_spec, Hcount.
    vm_compute. reflexivity. }
  split; [exact Hpen|]. split.
  - intros c Hc Hfs. unfold penalized_score at 1 2. rewrite Hc, Hpen.
    split; lra.
  - destruct (fst (scan seen_titles doc_counts cands)) as [b|] eqn:Hs.
    + exists b. split; [reflexivity|].
      apply scan_some in Hs as (l1 & l2 & -> & _ & _ & Hb & Ha).
      assert (Hle : (penalized_score doc_counts c' <= penalized_score doc_counts b)%Q).
      { apply in_app_or in Hin as [Hin|[<-|Hin]].
        - apply Qlt_le_weak. apply Hb; assumption.
        - apply Qle_refl.
        - apply Ha; assumption. }
      split; [exact Hle|].
      intros Hbd.
      assert (Hbpos : (0 < penalized_score doc_counts b)%Q)
        by (eapply Qlt_le_trans; eassumption).
      unfold penalized_score in Hbpos. rewrite Hbd, Hpen in Hbpos. lra.
    + exfalso. pose proof (proj1 (scan_none seen_titles doc_counts cands) Hs c' Hin Hel).
      lra.
Qed.

Lemma C4_third_pick_dominated_witness :
  let a1 := Sample.cand "a1" "A" 0.9%Q in
  let a2 := Sample.cand "a2" "A" 0.8%Q in
  let a3 := Sample.cand "a3" "A" 0.7%Q in
  let b1 := Sample.cand "b1" "B" 0.05%Q in
  let doc_counts := count_documents [a1; a2] in
  (penalty doc_counts "A" == -0.2)%Q /\
  (forall c, document c = "A" -> (0 < final_score c)%Q ->
     (penalized_score doc_counts c < 0)%Q /\
     (penalized_score doc_counts c < penalized_score doc_counts b1)%Q) /\
  exists b,
    fst (scan ({["a2"]} ∪ ({["a1"]} ∪ ∅)) doc_counts [a3; b1]) = Some b /\
    (penalized_score doc_counts b1 <= penalized_score doc_counts b)%Q /\
    (document b = "A" -> (final_score b < 0)%Q).
Proof.
  cbv zeta.
  apply (C4_third_pick_dominated
           [Sample.cand "a3" "A" 0.7%Q; Sample.cand "b1" "B" 0.05%Q]
           [Sample.cand "a1" "A" 0.9%Q; Sample.cand "a2" "A" 0.8%Q]
           ({["a2"]} ∪ ({["a1"]} ∪ ∅)) "A" (Sample.cand "b1" "B" 0.05%Q)).
  - vm_compute. reflexivity.
  - simpl. tauto.
  - titles_fresh.
  - discriminate.
  - vm_compute. reflexivity.
Defined.

End RankerClaims.

(* ===================================================================== *)
(** ** Segmenter *)
(* ===================================================================== *)

Module SegmenterFacts.
Import Segmenter SegmenterRun.

(** *** Stripping *)

Lemma lstrip_headed s : headed (PyStr.lstrip s).
Proof.
  induction s as [|c s IH]; simpl; [exact I|].
  destruct (PyStr.isspace c) eqn:E; [exact IH|]. simpl. exact E.
Qed.

Lemma rstrip_head c s :
  PyStr.isspace c = false -> exists r, PyStr.rstrip (String c s) = String c r.
Proof.
  intros Hc. simpl. destruct (PyStr.rstrip s) as [|c' r'].
  - rewrite Hc. eauto.
  - eauto.
Qed.

Lemma strip_headed s : headed (PyStr.strip s).
Proof.
  unfold PyStr.strip. pose proof (lstrip_headed s) as H.
  destruct (PyStr.lstrip s) as [|c r]; [exact I|].
  simpl in H. destruct (rstrip_head c r H) as [r' ->]. exact H.
Qed.

(** On a headed string [strip] removes nothing at the front, so the
    result is empty only if the string is. *)
Lemma strip_truthy_headed s :
  headed s -> PyStr.truthy (PyStr.strip s) = PyStr.truthy s.
Proof.
  destruct s as [|c r]; [reflexivity|]. simpl. intros Hc.
  unfold PyStr.strip. simpl PyStr.lstrip. rewrite Hc.
  destruct (rstrip_head c r Hc) as [r' ->]. reflexivity.
Qed.

Lemma cat_headed s t : headed s -> s <> EmptyString -> headed (PyStr.cat s t).
Proof. destruct s; simpl; [congruence|auto]. Qed.

Lemma truthy_neq s : PyStr.truthy s = true <-> s <> EmptyString.
Proof. destruct s; simpl; split; congruence. Qed.

(** *** The states the line loop can be in *)

(** [process_line], case by case. *)
Lemma process_line_skip thr n st l :
  chars l = [] \/ PyStr.strip (text l) = EmptyString ->
  process_line thr n st l = st.
Proof.
  unfold process_line. intros [H|H].
  - rewrite H. reflexivity.
  - rewrite H. destruct (chars l); reflexivity.
Qed.

Lemma process_line_title thr n st l c cs :
  chars l = c :: cs -> PyStr.strip (text l) <> EmptyString ->
  is_title thr c (PyStr.strip (text l)) = true ->
  process_line thr n st l
  = State (flush (State (st_sections st) (seeded st (PyStr.strip (text l)))
                    (current_section_content st) (current_section_page st)))
          (Some (PyStr.strip (text l))) EmptyString n.
Proof.
  intros Hc Ht Hi. unfold process_line. rewrite Hc.
  apply truthy_neq in Ht. rewrite Ht. simpl. rewrite Hi. reflexivity.
Qed.

Lemma process_line_body thr n st l c cs :
  chars l = c :: cs -> PyStr.strip (text l) <> EmptyString ->
  is_title thr c (PyStr.strip (text l)) = false ->
  process_line thr n st l
  = State (st_sections st) (seeded st (PyStr.strip (text l)))
          (PyStr.cat (current_section_content st)
                     (PyStr.cat (PyStr.strip (text l)) " "))
          (current_section_page st).
Proof.
  intros Hc Ht Hi. unfold process_line. rewrite Hc.
  apply truthy_neq in Ht. rewrite Ht. simpl. rewrite Hi. reflexivity.
Qed.

(** The accumulated content is always headed: it is a concatenation of
    stripped, non-empty lines, each followed by a space. *)
Lemma process_line_headed thr n st l :
  headed (current_section_content st) ->
  headed (current_section_content (process_line thr n st l)).
Proof.
  intros Hh.
  destruct (chars l) as [|c cs] eqn:Hc.
  { rewrite process_line_skip by auto. exact Hh. }
  destruct (PyStr.strip (text l)) as [|a r] eqn:Ht.
  { rewrite process_line_skip by auto. exact Hh. }
  destruct (is_title thr c (PyStr.strip (text l))) eqn:Hi.
  - erewrite process_line_title by (eauto; rewrite Ht; discriminate).
    exact I.
  - erewrite process_line_body by (eauto; rewrite Ht; discriminate).
    simpl. destruct (current_section_content st) as [|b q] eqn:Hcur.
    + rewrite Ht. simpl. pose proof (strip_headed (text l)) as H.
      rewrite Ht in H. exact H.
    + simpl. exact Hh.
Qed.

Lemma reachable_headed thr st :
  reachable thr st -> headed (current_section_content st).
Proof.
  induction 1 as [|st n l _ IH]; [exact I|].
  apply process_line_headed. exact IH.
Qed.

(** In a reachable state a section is closed exactly when some content
    was accumulated. *)
Lemma flush_reachable thr st t :
  reachable thr st ->
  flush (State (st_sections st) t (current_section_content st)
           (current_section_page st))
  = match current_section_content st with
    | EmptyString => st_sections st
    | content =>
        st_sections st ++
        [Section_ t (PyStr.strip content) (current_section_page st)]
    end.
Proof.
  intros Hr. apply reachable_headed in Hr. unfold flush. simpl.
  rewrite strip_truthy_headed by exact Hr.
  destruct (current_section_content st); reflexivity.
Qed.

(** *** The title test *)

Lemma is_title_iff thr c line_text :
  is_title thr c line_text = true <->
  (PyStr.contains "bold" (PyStr.lower (default EmptyString (fontname c))) = true \/
   PyStr.contains "black" (PyStr.lower (default EmptyString (fontname c))) = true) /\
  (thr < default 0%Q (size c))%Q /\
  (3 < length (PyStr.split line_text) < 12)%nat /\
  PyStr.endswith "." line_text = false /\
  PyStr.endswith "," line_text = false.
Proof.
  unfold is_title, is_large_enough, is_bold, is_short_line, ends_with_punctuation.
  rewrite !andb_true_iff, negb_true_iff, orb_false_iff, orb_true_iff.
  rewrite Qltb_lt, !Nat.ltb_lt. tauto.
Qed.

(** *** Runs without extraction failure *)

Lemma fold_reachable thr n ls : forall st,
  reachable thr st -> reachable thr (fold_left (process_line thr n) ls st).
Proof.
  induction ls as [|l ls IH]; intros st Hr; simpl; [exact Hr|].
  apply IH. constructor. exact Hr.
Qed.

Lemma segment_reachable thr pages : forall n st,
  reachable thr st -> reachable thr (segment thr n st pages).
Proof.
  induction pages as [|ls pages IH]; intros n st Hr; simpl; [exact Hr|].
  apply IH. apply fold_reachable. exact Hr.
Qed.

Lemma process_pages_ok thr pages : forall n st,
  Forall extracts pages ->
  process_pages thr n st pages = inl (segment thr n st (List.map lines_of pages)).
Proof.
  induction pages as [|p pages IH]; intros n st Hall; simpl; [reflexivity|].
  inversion Hall as [|? ? [ls Hls] Hrest]; subst.
  unfold lines_of at 1. rewrite Hls. apply IH. exact Hrest.
Qed.

Lemma process_pages_fail thr good bad rest e : forall n st,
  Forall extracts good -> extract_text_lines bad = Raise e ->
  process_pages thr n st (good ++ bad :: rest)
  = inr (st_sections (segment thr n st (List.map lines_of good)), e).
Proof.
  induction good as [|p good IH]; intros n st Hall Hbad; simpl.
  - rewrite Hbad. reflexivity.
  - inversion Hall as [|? ? [ls Hls] Hrest]; subst.
    unfold lines_of at 1. rewrite Hls. apply IH; assumption.
Qed.

Lemma _get_median_font_size_Ok p ws :
  extract_words p = Ok ws -> _get_median_font_size p = Ok (baseline ws).
Proof.
  intros H. unfold _get_median_font_size, baseline. rewrite H.
  destruct (sizes_of ws); reflexivity.
Qed.

(** *** The median *)

Lemma Qinsert_perm x l : Permutation (Qinsert x l) (x :: l).
Proof.
  induction l as [|y l IH]; simpl; [reflexivity|].
  destruct (Qle_bool x y); [reflexivity|].
  rewrite IH. apply perm_swap.
Qed.

Lemma Qsort_perm l : Permutation (Qsort l) l.
Proof.
  induction l as [|x l IH]; simpl; [reflexivity|].
  rewrite Qinsert_perm. constructor. exact IH.
Qed.

Lemma Qinsert_Forall (P : Q -> Prop) x l :
  P x -> List.Forall P l -> List.Forall P (Qinsert x l).
Proof.
  intros Hx Hl. induction Hl as [|y l Hy Hl IH]; simpl.
  - constructor; [exact Hx|constructor].
  - destruct (Qle_bool x y); constructor; auto.
Qed.

Lemma Qinsert_sorted x l :
  StronglySorted Qle l -> StronglySorted Qle (Qinsert x l).
Proof.
  induction 1 as [|y l Hs IH Hy]; simpl.
  - constructor; constructor.
  - destruct (Qle_bool x y) eqn:E.
    + apply Qle_bool_iff in E. constructor.
      * constructor; assumption.
      * constructor; [exact E|].
        eapply List.Forall_impl; [|exact Hy].
        intros z Hz. simpl in Hz. lra.
    + constructor; [exact IH|].
      apply Qinsert_Forall; [|exact Hy].
      destruct (Qle_bool y x) eqn:F; [apply Qle_bool_iff; exact F|].
      assert (~ x <= y)%Q by (rewrite <- Qle_bool_iff; congruence).
      assert (~ y <= x)%Q by (rewrite <- Qle_bool_iff; congruence).
      lra.
Qed.

Lemma Qsort_sorted l : StronglySorted Qle (Qsort l).
Proof.
  induction l as [|x l IH]; simpl; [constructor|].
  apply Qinsert_sorted. exact IH.
Qed.

Lemma sorted_nth s :
  StronglySorted Qle s ->
  forall i j, (i <= j)%nat -> (j < length s)%nat ->
  (nth i s 0 <= nth j s 0)%Q.
Proof.
  induction 1 as [|x s Hs IH Hx]; intros i j Hij Hj; simpl in Hj; [lia|].
  destruct j as [|j].
  - assert (i = 0)%nat as -> by lia. simpl. lra.
  - destruct i as [|i]; simpl.
    + rewrite List.Forall_forall in Hx. apply Hx. apply nth_In. lia.
    + apply IH; lia.
Qed.

(** Counting: a predicate that holds of the first [k] elements, or of
    all elements from position [k] on, holds of that many at least. *)
Lemma count_prefix (f : Q -> bool) s : forall k,
  (k <= length s)%nat ->
  (forall i, (i < k)%nat -> f (nth i s 0%Q) = true) ->
  (k <= length (List.filter f s))%nat.
Proof.
  induction s as [|x s IH]; intros k Hk Hf; simpl in *; [lia|].
  destruct k as [|k]; [lia|].
  rewrite (Hf 0%nat) by lia. simpl.
  apply le_n_S. apply IH; [lia|].
  intros i Hi. apply (Hf (S i)). lia.
Qed.

Lemma count_suffix (f : Q -> bool) s : forall k,
  (forall i, (k <= i)%nat -> (i < length s)%nat -> f (nth i s 0%Q) = true) ->
  (length s - k <= length (List.filter f s))%nat.
Proof.
  induction s as [|x s IH]; intros k Hf; simpl in *; [lia|].
  destruct k as [|k].
  - rewrite (Hf 0%nat) by lia. simpl.
    apply le_n_S. specialize (IH 0%nat). rewrite Nat.sub_0_r in IH.
    apply IH. intros i _ Hi. apply (Hf (S i)); lia.
  - specialize (IH k).
    assert (length s - k <= length (List.filter f s))%nat as H.
    { apply IH. intros i Hi Hl. apply (Hf (S i)); lia. }
    destruct (f x); simpl; lia.
Qed.

Lemma count_perm (f : Q -> bool) l l' :
  Permutation l l' -> length (List.filter f l) = length (List.filter f l').
Proof.
  induction 1 as [|x l l' _ IH|x y l|l l' l'' _ IH1 _ IH2]; simpl.
  - reflexivity.
  - destruct (f x); simpl; congruence.
  - destruct (f x), (f y); reflexivity.
  - congruence.
Qed.

Lemma half_even n : Nat.even n = true -> n = (2 * (n / 2))%nat.
Proof.
  intros H. apply Nat.even_spec in H as [h ->].
  rewrite (Nat.mul_comm 2 h), Nat.div_mul by lia. lia.
Qed.

Lemma half_odd n : Nat.even n = false -> n = (2 * (n / 2) + 1)%nat.
Proof.
  intros H.
  assert (Nat.odd n = true) as Ho by (rewrite <- Nat.negb_even, H; reflexivity).
  apply Nat.odd_spec in Ho as [h ->].
  rewrite (Nat.mul_comm 2 h), Nat.div_add_l by lia.
  change (1 / 2)%nat with 0%nat. lia.
Qed.

Lemma Qle_half_sum a b c : (a <= b -> c <= a -> c <= (a + b) / 2)%Q.
Proof. intros. apply Qle_shift_div_l; [reflexivity|]. lra. Qed.

Lemma Qhalf_sum_le a b c : (a <= b -> b <= c -> (a + b) / 2 <= c)%Q.
Proof. intros. apply Qle_shift_div_r; [reflexivity|]. lra. Qed.

(** [np.median] returns a median. *)
Lemma Qmedian_is_median l :
  l <> [] -> Reference.is_median (Qmedian l) l = true.
Proof.
  intros Hne.
  pose proof (Qsort_sorted l) as Hs. pose proof (Qsort_perm l) as Hp.
  assert (length (Qsort l) = length l) as Hlen by (apply Permutation_length; exact Hp).
  assert (0 < length l)%nat as Hpos by (destruct l; simpl; [congruence|lia]).
  unfold Reference.is_median, Reference.at_most, Reference.at_least.
  rewrite <- (count_perm _ _ _ Hp), <- (count_perm (fun x => Qle_bool (Qmedian l) x) _ _ Hp).
  rewrite <- Hlen in *.
  unfold Qmedian. cbv zeta.
  set (s := Qsort l) in *. set (n := length s) in *.
  apply andb_true_iff. rewrite !Nat.leb_le.
  destruct (Nat.even n) eqn:E.
  - pose proof (half_even n E) as Hn.
    set (h := (n / 2)%nat) in *.
    assert (nth (h - 1) s 0 <= nth h s 0)%Q as Hmid by (apply sorted_nth; [exact Hs|lia|lia]).
    split.
    + assert (h <= length (List.filter
                 (fun x => Qle_bool x ((nth (h - 1) s 0 + nth h s 0) / 2)%Q) s))%nat.
      { apply count_prefix; [fold n; lia|].
        intros i Hi. cbv beta. apply Qle_bool_iff.
        assert (nth i s 0 <= nth (h - 1) s 0)%Q
          by (apply sorted_nth; [exact Hs|lia|fold n; lia]).
        apply Qle_half_sum; assumption. }
      lia.
    + assert (length s - h <= length (List.filter
                 (fun x => Qle_bool ((nth (h - 1) s 0 + nth h s 0) / 2)%Q x) s))%nat.
      { apply count_suffix.
        intros i Hi Hl. cbv beta. apply Qle_bool_iff.
        assert (nth h s 0 <= nth i s 0)%Q
          by (apply sorted_nth; [exact Hs|lia|exact Hl]).
        apply Qhalf_sum_le; assumption. }
      fold n in H. lia.
  - pose proof (half_odd n E) as Hn.
    set (h := (n / 2)%nat) in *.
    split.
    + assert (S h <= length (List.filter (fun x => Qle_bool x (nth h s 0%Q)) s))%nat.
      { apply count_prefix; [fold n; lia|].
        intros i Hi. cbv beta. apply Qle_bool_iff.
        apply sorted_nth; [exact Hs|lia|fold n; lia]. }
      lia.
    + assert (length s - h <= length (List.filter (fun x => Qle_bool (nth h s 0%Q) x) s))%nat.
      { apply count_suffix.
        intros i Hi Hl. cbv beta. apply Qle_bool_iff.
        apply sorted_nth; [exact Hs|lia|exact Hl]. }
      fold n in H. lia.
Qed.

(** *** The sizes read from the word dictionaries *)

Lemma sizes_of_unsized ws :
  List.Forall (fun w => word_size w = None) ws -> sizes_of ws = [].
Proof.
  unfold sizes_of. induction 1 as [|w ws Hw _ IH]; simpl; [reflexivity|].
  unfold has_size at 1. rewrite Hw. exact IH.
Qed.

Lemma sizes_of_sized ws :
  List.Forall (fun w => exists q, word_size w = Some q /\ ~ q == 0) ws ->
  sizes_of ws = List.map (fun w => default 0%Q (word_size w)) ws.
Proof.
  unfold sizes_of. induction 1 as [|w ws (q & Hw & Hq) _ IH]; simpl; [reflexivity|].
  unfold has_size at 1. rewrite Hw. unfold Qtruthy.
  destruct (Qeq_bool q 0) eqn:E.
  - apply Qeq_bool_iff in E. contradiction.
  - simpl. rewrite IH, Hw. reflexivity.
Qed.

(** *** The title test against the rule of the specification *)

Lemma is_title_rule median_body_size c line_text :
  is_title (median_body_size * 1.15)%Q c line_text = true <->
  Reference.title_line median_body_size c line_text.
Proof.
  rewrite is_title_iff. unfold Reference.title_line. cbv zeta.
  assert ((median_body_size * 1.15 < default 0%Q (size c))%Q <->
          (1.15 * median_body_size < default 0%Q (size c))%Q) as H
    by (split; intros; lra).
  rewrite H. reflexivity.
Qed.

End SegmenterFacts.

Module SegmenterClaims.
Import Segmenter SegmenterRun SegmenterFacts.

(** C5.  The threshold of the title rule does not come from the font
    sizes of the first page.  The title test itself is the rule of the
    specification relative to the baseline the threshold is computed
    from, and a title line closes the current section (appended only if
    content was accumulated) and opens a new one under its own text,
    while any other processed line is appended to the content, followed
    by a space.  Had the word dictionaries of the first page carried
    their sizes, the baseline would be a median of these sizes.  But
    [page.extract_words()] is called without [extra_attrs], the
    dictionaries it returns have no size, and the baseline is 10.0
    whatever the fonts of the page are.  On a page set in 12 pt with a
    bold 13 pt heading of four words, 12 is the median size of the words
    and the only one, so the rule of the specification does not make the
    heading a title (13 is below 1.15 * 12 = 13.8) and the page is one
    section; the code compares 13 with 11.5 and returns two sections,
    the second under the heading. *)
Theorem C5_title_threshold_ignores_the_font_sizes :
  (forall median_body_size first_char line_text,
     is_title (median_body_size * 1.15)%Q first_char line_text = true <->
     Reference.title_line median_body_size first_char line_text)
  /\
  (forall median_body_size page_num st l c cs,
     reachable (median_body_size * 1.15)%Q st ->
     chars l = c :: cs -> PyStr.strip (text l) <> EmptyString ->
     let line_text := PyStr.strip (text l) in
     (Reference.title_line median_body_size c line_text ->
      process_line (median_body_size * 1.15)%Q page_num st l
      = State (match current_section_content st with
               | EmptyString => st_sections st
               | content =>
                   st_sections st ++
                   [Section_ (seeded st line_text) (PyStr.strip content)
                      (current_section_page st)]
               end)
              (Some line_text) EmptyString page_num) /\
     (~ Reference.title_line median_body_size c line_text ->
      process_line (median_body_size * 1.15)%Q page_num st l
      = State (st_sections st) (seeded st line_text)
              (PyStr.cat (current_section_content st) (PyStr.cat line_text " "))
              (current_section_page st)))
  /\
  (forall p ws,
     extract_words p = Ok ws -> ws <> [] ->
     List.Forall (fun w => exists q, word_size w = Some q /\ ~ q == 0) ws ->
     exists m,
       _get_median_font_size p = Ok m /\
       Reference.is_median m
         (List.map (fun w => default 0%Q (word_size w)) ws) = true)
  /\
  (forall p ws,
     extract_words p = Ok ws ->
     List.Forall (fun w => word_size w = None) ws ->
     _get_median_font_size p = Ok 10.0%Q)
  /\
  Reference.is_median 12 (Sample.word_sizes Sample.heading_lines) = true
  /\
  (forall m,
     Reference.is_median m (Sample.word_sizes Sample.heading_lines) = true ->
     m == 12 /\
     ~ Reference.title_line m Sample.bold13 "Walking along the cliffs")
  /\
  extract_text_with_structure (Ok [Sample.heading_page_sized]) "/tmp/walk.pdf"
  = DocData "walk.pdf"
      [Section_ (Some "The path follows the shore.")
         "The path follows the shore. Walking along the cliffs It climbs to the old lighthouse."
         1]
  /\
  _get_median_font_size Sample.heading_page = Ok 10.0%Q
  /\
  extract_text_with_structure (Ok [Sample.heading_page]) "/tmp/walk.pdf"
  = DocData "walk.pdf"
      [Section_ (Some "The path follows the shore.")
         "The path follows the shore." 1;
       Section_ (Some "Walking along the cliffs")
         "It climbs to the old lighthouse." 1].
Proof.
  split; [exact is_title_rule|].
  split.
  { intros b page_num st l c cs Hr Hc Ht line_text.
    pose proof (is_title_rule b c line_text) as Hiff. split.
    - intros Htl. apply Hiff in Htl.
      rewrite (process_line_title _ page_num st l c cs Hc Ht Htl).
      rewrite (flush_reachable _ st _ Hr). reflexivity.
    - intros Hntl.
      apply (process_line_body _ page_num st l c cs Hc Ht).
      destruct (is_title (b * 1.15)%Q c (PyStr.strip (text l))) eqn:E; [|reflexivity].
      exfalso. apply Hntl. apply Hiff. exact E. }
  split.
  { intros p ws Hw Hne Hall.
    exists (Qmedian (List.map (fun w => default 0%Q (word_size w)) ws)). split.
    - unfold _get_median_font_size. rewrite Hw, (sizes_of_sized ws Hall).
      destruct ws as [|w ws']; [congruence|reflexivity].
    - apply Qmedian_is_median. destruct ws; [congruence|discriminate]. }
  split.
  { intros p ws Hw Hall.
    unfold _get_median_font_size. rewrite Hw, (sizes_of_unsized ws Hall).
    reflexivity. }
  split; [vm_compute; reflexivity|].
  split.
  { intros m Hm.
    assert (m == 12) as Heq.
    { unfold Reference.is_median, Reference.at_most, Reference.at_least in Hm.
      let v := eval vm_compute in (Sample.word_sizes Sample.heading_lines) in
      change (Sample.word_sizes Sample.heading_lines) with v in Hm.
      cbn [List.filter] in Hm.
      destruct (Qle_bool 12 m) eqn:A, (Qle_bool m 12) eqn:B,
               (Qle_bool 13 m) eqn:C, (Qle_bool m 13) eqn:D;
        vm_compute in Hm; try discriminate Hm;
        apply Qle_bool_iff in A; apply Qle_bool_iff in B; lra. }
    split; [exact Heq|].
    intros (_ & Hlt & _). simpl in Hlt. lra. }
  split; [vm_compute; reflexivity|].
  split; vm_compute; reflexivity.
Qed.

Lemma C5_title_threshold_ignores_the_font_sizes_witness :
  is_title (10.0 * 1.15)%Q Sample.bold13 "Walking along the cliffs" = true
  /\
  process_line (10.0 * 1.15)%Q 1
    (process_line (10.0 * 1.15)%Q 1 (State [] None EmptyString 1)
       (Line "The path follows the shore." [Sample.body12]))
    (Line "Walking along the cliffs" [Sample.bold13])
  = State [Section_ (Some "The path follows the shore.")
             "The path follows the shore." 1]
      (Some "Walking along the cliffs") EmptyString 1
  /\
  (exists m,
     _get_median_font_size Sample.heading_page_sized = Ok m /\
     Reference.is_median m (Sample.word_sizes Sample.heading_lines) = true)
  /\
  _get_median_font_size Sample.heading_page = Ok 10.0%Q.
Proof.
  destruct C5_title_threshold_ignores_the_font_sizes
    as (Hrule & Hstep & Hsized & Hunsized & _).
  assert (Reference.title_line 10.0 Sample.bold13 "Walking along the cliffs")
    as Htitle.
  { repeat split;
      first [reflexivity | left; reflexivity | vm_compute; reflexivity
            | vm_compute; lia]. }
  split; [apply Hrule; exact Htitle|].
  split.
  { destruct (Hstep 10.0%Q 1%nat
                (process_line (10.0 * 1.15)%Q 1 (State [] None EmptyString 1)
                   (Line "The path follows the shore." [Sample.body12]))
                (Line "Walking along the cliffs" [Sample.bold13])
                Sample.bold13 [])
      as (Hclose & _).
    - constructor. constructor.
    - reflexivity.
    - vm_compute. discriminate.
    - rewrite Hclose; [vm_compute; reflexivity|exact Htitle]. }
  split.
  { destruct (Hsized Sample.heading_page_sized
                (List.map (fun q => Word (Some q))
                   (Sample.word_sizes Sample.heading_lines)))
      as (m & Hm & Hmed).
    - reflexivity.
    - vm_compute. discriminate.
    - vm_compute. repeat constructor; eexists; (split; [reflexivity|discriminate]).
    - exists m. split; [exact Hm|exact Hmed]. }
  apply (Hunsized Sample.heading_page
           (List.map (fun _ => Word None)
              (Sample.word_sizes Sample.heading_lines))).
  - reflexivity.
  - vm_compute. repeat constructor.
Defined.

(** C9 as worded does not hold.  The first page holds a body line and
    a heading, so one section has been appended when reading the second
    page raises "boom": the segmenter returns that one section, and no
    section carries the error message. *)
Lemma C9_failure_after_first_section_is_silent :
  sections (extract_text_with_structure
              (Ok [Sample.page1; Sample.page2_failing]) "/tmp/trip.pdf")
  = [Section_ (Some "The path follows the shore.")
       "The path follows the shore." 1]
  /\
  forall s,
    In s (sections (extract_text_with_structure
                      (Ok [Sample.page1; Sample.page2_failing]) "/tmp/trip.pdf")) ->
    content s <> "boom".
Proof.
  split; [vm_compute; reflexivity|].
  intros s Hs. vm_compute in Hs. destruct Hs as [<-|[]]. discriminate.
Qed.

(** C9 (amended).  The segmenter never fails a document.  When opening
    the file, reading the words of the first page or reading the lines
    of some page raises, it returns the sections it had appended before
    the failure; only when there is none does it return a single section
    titled "Error processing <file name>" whose content is the error
    message.  A document without pages yields no section. *)
Theorem C9_extraction_failure_degrades :
  (forall e path,
     sections (extract_text_with_structure (Raise e) path)
     = [error_section path e]) /\
  (forall path,
     sections (extract_text_with_structure (Ok []) path) = []) /\
  (forall p rest e path,
     extract_words p = Raise e ->
     sections (extract_text_with_structure (Ok (p :: rest)) path)
     = [error_section path e]) /\
  (forall good bad rest first ws e path,
     hd_error (good ++ bad :: rest) = Some first ->
     extract_words first = Ok ws ->
     Forall extracts good ->
     extract_text_lines bad = Raise e ->
     let appended :=
       st_sections (segment (baseline ws * 1.15)%Q 1
                      (State [] None EmptyString 1)
                      (List.map lines_of good)) in
     sections (extract_text_with_structure (Ok (good ++ bad :: rest)) path)
     = match appended with
       | [] => [error_section path e]
       | _ => appended
       end).
Proof.
  split; [reflexivity|]. split; [reflexivity|]. split.
  - intros p rest e path Hw. unfold extract_text_with_structure.
    unfold _get_median_font_size. rewrite Hw. reflexivity.
  - intros good bad rest first ws e path Hhd Hw Hgood Hbad appended.
    unfold extract_text_with_structure.
    destruct (good ++ bad :: rest) as [|first' l] eqn:Hpages; [discriminate|].
    simpl in Hhd. injection Hhd as ->.
    rewrite (_get_median_font_size_Ok first ws Hw).
    rewrite <- Hpages.
    rewrite (process_pages_fail _ good bad rest e 1 _ Hgood Hbad).
    reflexivity.
Qed.

Lemma C9_extraction_failure_degrades_witness :
  sections (extract_text_with_structure
              (Ok ([] ++ Sample.page2_failing :: [Sample.page1])) "C:\docs\trip.pdf")
  = [Section_ (Some "Error processing trip.pdf") "boom" 1]
  /\
  sections (extract_text_with_structure
              (Ok ([Sample.page1] ++ Sample.page2_failing :: [])) "/tmp/trip.pdf")
  = [Section_ (Some "The path follows the shore.")
       "The path follows the shore." 1]
  /\
  sections (extract_text_with_structure
              (Ok [Sample.page_unreadable; Sample.page1]) "/tmp/trip.pdf")
  = [Section_ (Some "Error processing trip.pdf") "bad xref" 1].
Proof.
  destruct C9_extraction_failure_degrades as (_ & _ & Hwords & H).
  split; [|split].
  - rewrite (H [] Sample.page2_failing [Sample.page1] Sample.page2_failing
               [] "boom" "C:\docs\trip.pdf");
      [vm_compute; reflexivity|reflexivity|reflexivity|constructor|reflexivity].
  - rewrite (H [Sample.page1] Sample.page2_failing [] Sample.page1
               Sample.words1 "boom" "/tmp/trip.pdf");
      [vm_compute; reflexivity|reflexivity|reflexivity| |reflexivity].
    repeat constructor. eexists. reflexivity.
  - rewrite (Hwords Sample.page_unreadable [Sample.page1] "bad xref" "/tmp/trip.pdf");
      [vm_compute; reflexivity|reflexivity].
Defined.

End SegmenterClaims.

(* ===================================================================== *)
(** ** Refiner *)
(* ===================================================================== *)

Module RefinerFacts.
Import Refiner.

(** [argmax_go] continues a scan of [pre ++ l] that has read [pre]:
    [best] is the first index of the maximum of [pre]. *)
Lemma argmax_go_spec l : forall pre best best_score,
  (best < length pre)%nat ->
  nth best pre 0%Q = best_score ->
  (forall j, (j < length pre)%nat -> (nth j pre 0 <= best_score)%Q) ->
  (forall j, (j < best)%nat -> (nth j pre 0 < best_score)%Q) ->
  let r := argmax_go (length pre) best best_score l in
  let L := pre ++ l in
  (r < length L)%nat /\
  (forall j, (j < length L)%nat -> (nth j L 0 <= nth r L 0)%Q) /\
  (forall j, (j < r)%nat -> (nth j L 0 < nth r L 0)%Q).
Proof.
  induction l as [|x l IH]; intros pre best bs Hb Hbs Hmax Hfirst; simpl.
  - rewrite app_nil_r. rewrite Hbs. auto.
  - assert (Hlen : length (pre ++ [x]) = S (length pre))
      by (rewrite length_app; simpl; lia).
    assert (Hpre : forall j, (j < length pre)%nat ->
                             nth j (pre ++ [x]) 0%Q = nth j pre 0%Q)
      by (intros j Hj; apply app_nth1; exact Hj).
    assert (Hx : nth (length pre) (pre ++ [x]) 0%Q = x)
      by (rewrite app_nth2 by lia; rewrite Nat.sub_diag; reflexivity).
    replace (pre ++ x :: l) with ((pre ++ [x]) ++ l)
      by (rewrite <- app_assoc; reflexivity).
    rewrite <- Hlen.
    destruct (Qltb bs x) eqn:E.
    + apply Qltb_lt in E. apply IH.
      * lia.
      * exact Hx.
      * intros j Hj. rewrite Hlen in Hj.
        destruct (Nat.eq_dec j (length pre)) as [->|Hne].
        -- rewrite Hx. apply Qle_refl.
        -- rewrite Hpre by lia. apply Qlt_le_weak.
           eapply Qle_lt_trans; [apply Hmax; lia|exact E].
      * intros j Hj. rewrite Hpre by lia.
        eapply Qle_lt_trans; [apply Hmax; lia|exact E].
    + apply Qltb_ge in E. apply IH.
      * lia.
      * rewrite Hpre by lia. exact Hbs.
      * intros j Hj. rewrite Hlen in Hj.
        destruct (Nat.eq_dec j (length pre)) as [->|Hne].
        -- rewrite Hx. exact E.
        -- rewrite Hpre by lia. apply Hmax. lia.
      * intros j Hj. rewrite Hpre by lia. apply Hfirst. exact Hj.
Qed.

(** [argmax] returns the first index at which the maximum is reached. *)
Lemma argmax_spec l :
  l <> [] ->
  (argmax l < length l)%nat /\
  (forall j, (j < length l)%nat -> (nth j l 0 <= nth (argmax l) l 0)%Q) /\
  (forall j, (j < argmax l)%nat -> (nth j l 0 < nth (argmax l) l 0)%Q).
Proof.
  destruct l as [|x l]; [congruence|]. intros _.
  apply (argmax_go_spec l [x] 0%nat x); simpl.
  - lia.
  - reflexivity.
  - intros j Hj. assert (j = 0%nat) as -> by lia. apply Qle_refl.
  - intros j Hj. lia.
Qed.

(** The elements of a slice [l[a:b]], by index. *)
Lemma slice_nth_error {A} (a b : nat) (l : list A) j :
  nth_error (slice (Z.of_nat a) (Z.of_nat b) l) j
  = if (a + j <? b)%nat then nth_error l (a + j) else None.
Proof.
  unfold slice. rewrite !Nat2Z.id, nth_error_firstn, nth_error_skipn.
  destruct (Nat.ltb_spec j (b - a)), (Nat.ltb_spec (a + j) b);
    try reflexivity; lia.
Qed.

End RefinerFacts.

Module RefinerClaims.
Import Refiner RefinerFacts.

(** C7.  The usable sentences are the stripped sentences of the content
    that have more than four words.  With fewer than three of them the
    refined text is the content itself.  Otherwise, [i] being the first
    index at which the cosine similarity between the embedding of the
    sentence and the query embedding is maximal, the refined text is the
    join with single spaces of the usable sentences of indices
    [max(0, i-1) <= j < min(n, i+2)]. *)
Theorem C7_refined_text_window {vec : Type} (encode : string -> vec)
    (cosine_similarity : vec -> vec -> Q)
    (sent_tokenize : string -> list string)
    (query_embedding : vec) (content : string) :
  let sents := usable_sentences sent_tokenize content in
  let n := length sents in
  let similarity_to_query :=
    fun sentence : string => cosine_similarity (encode sentence) query_embedding in
  (sents = List.map PyStr.strip
             (List.filter
                (fun s => negb (length (PyStr.split (PyStr.strip s)) <=? 4)%nat)
                (sent_tokenize content))) /\
  ((n < 3)%nat ->
   refine vec encode cosine_similarity sent_tokenize query_embedding content
   = content) /\
  ((3 <= n)%nat ->
   exists i window,
     (i < n)%nat /\
     (forall j, (j < n)%nat ->
        (similarity_to_query (nth j sents EmptyString)
         <= similarity_to_query (nth i sents EmptyString))%Q) /\
     (forall j, (j < i)%nat ->
        (similarity_to_query (nth j sents EmptyString)
         < similarity_to_query (nth i sents EmptyString))%Q) /\
     (forall j,
        nth_error window j
        = if ((i - 1) + j <? Nat.min n (i + 2))%nat
          then nth_error sents ((i - 1) + j) else None) /\
     refine vec encode cosine_similarity sent_tokenize query_embedding content
     = PyStr.join " " window).
Proof.
  intros sents n similarity_to_query. split; [|split].
  - unfold sents, usable_sentences. f_equal. apply filter_ext.
    intros s. destruct (Nat.ltb_spec 4 (length (PyStr.split (PyStr.strip s))));
      destruct (Nat.leb_spec (length (PyStr.split (PyStr.strip s))) 4);
      simpl; try reflexivity; lia.
  - intros Hn. unfold refine. fold sents.
    apply Nat.ltb_lt in Hn. fold n. rewrite Hn. reflexivity.
  - intros Hn.
    set (scores := sim_scores vec encode cosine_similarity sents query_embedding).
    assert (Hlen : length scores = n)
      by (unfold scores, sim_scores; apply length_map).
    assert (Hnth : forall j, (j < n)%nat ->
              nth j scores 0%Q = similarity_to_query (nth j sents EmptyString)).
    { intros j Hj. unfold scores, sim_scores.
      rewrite (nth_indep _ 0%Q (similarity_to_query EmptyString))
        by (rewrite length_map; exact Hj).
      apply (map_nth similarity_to_query). }
    assert (Hne : scores <> []).
    { intros E. rewrite E in Hlen. simpl in Hlen. lia. }
    destruct (argmax_spec scores Hne) as (Hi & Hmax & Hfirst).
    rewrite Hlen in Hi, Hmax.
    exists (argmax scores),
           (slice (Z.of_nat (argmax scores - 1))
                  (Z.of_nat (Nat.min n (argmax scores + 2))) sents).
    split; [exact Hi|]. split; [|split; [|split]].
    + intros j Hj. rewrite <- !Hnth by assumption. apply Hmax. exact Hj.
    + intros j Hj. rewrite <- !Hnth by lia. apply Hfirst. exact Hj.
    + intros j. apply slice_nth_error.
    + unfold refine. fold sents. fold n.
      destruct (Nat.ltb_spec n 3) as [Hlt|_]; [lia|].
      fold scores. f_equal. f_equal; lia.
Qed.

(** On a paragraph of four usable sentences of 8, 12, 9 and 11 words
    and a query of 9 words, under a model for which a text is the closer
    to another the closer their word counts are, the best sentence is
    the third one and the refined text is the second, third and fourth
    sentences. *)
Lemma C7_refined_text_window_witness :
  refine nat Sample.encode Sample.cosine_similarity Sample.sent_tokenize
    (Sample.encode "Task: plan a trip") "Only one sentence of more than four words here."
  = "Only one sentence of more than four words here."
  /\
  exists i window,
    i = 2%nat /\
    window = ["The bus to the cape leaves at nine and takes one hour.";
              "Bring water and a hat for the walk back.";
              "The last ferry leaves the island at six in the evening."] /\
    refine nat Sample.encode Sample.cosine_similarity Sample.sent_tokenize
      (Sample.encode "Task: what should we bring for the walk back")
      Sample.paragraph
    = PyStr.join " " window.
Proof.
  pose proof (C7_refined_text_window Sample.encode Sample.cosine_similarity
                Sample.sent_tokenize) as H.
  split.
  - destruct (H (Sample.encode "Task: plan a trip")
                "Only one sentence of more than four words here.")
      as (_ & Hshort & _).
    apply Hshort. vm_compute. lia.
  - destruct (H (Sample.encode "Task: what should we bring for the walk back")
                Sample.paragraph) as (_ & _ & Hlong).
    destruct Hlong as (i & window & Hi & Hmax & _ & Hw & Hr).
    + vm_compute. lia.
    + assert (Ei : i = 2%nat).
      { assert (Hi' : (i < 4)%nat) by exact Hi.
        specialize (Hmax 2%nat ltac:(vm_compute; lia)).
        destruct i as [|[|[|[|i]]]]; [| |reflexivity| |lia];
          exfalso; vm_compute in Hmax; apply Hmax; reflexivity. }
      subst i. exists 2%nat, window. split; [reflexivity|].
      split; [|exact Hr].
      pose proof (Hw 0%nat) as H0. pose proof (Hw 1%nat) as H1.
      pose proof (Hw 2%nat) as H2. pose proof (Hw 3%nat) as H3.
      vm_compute in H0, H1, H2, H3.
      destruct window as [|a [|b [|c [|d w]]]]; try discriminate.
      simpl in H0, H1, H2. injection H0 as ->. injection H1 as ->.
      injection H2 as ->. reflexivity.
Defined.

End RefinerClaims.

(* ===================================================================== *)
(** ** Pipeline *)
(* ===================================================================== *)

Module PipelineFacts.
Import Pipeline PipelineRun.

(** *** One document *)

Lemma process_pdf_step e pdf :
  model_ready e = true -> DB_AVAILABLE e = true ->
  process_pdf e pdf = Ok (step e pdf).
Proof.
  intros Hm Hd. unfold process_pdf, step.
  destruct (cache_usable (get_sections_with_embeddings pdf)); [reflexivity|].
  destruct (has_file_data pdf) as [data|]; [|reflexivity].
  unfold generate_embeddings_for_sections, save_embeddings_to_db.
  rewrite Hm, Hd. reflexivity.
Qed.

(** *** The document loop *)

(** With the model loaded and the database available the loop runs to
    its end: every selected row is stepped once, in table order. *)
Lemma process_rows_steps e user pdf_ids rows :
  model_ready e = true -> DB_AVAILABLE e = true ->
  process_rows e user pdf_ids rows
  = ((List.map (row_after e user pdf_ids) rows,
      flat_map (events_from e user pdf_ids) rows),
     Ok (flat_map (sections_from e user pdf_ids) rows)).
Proof.
  intros Hm Hd. induction rows as [|pdf rows IH]; [reflexivity|].
  simpl. unfold row_after at 1, sections_from at 1, events_from at 1.
  destruct (selected user pdf_ids pdf).
  - rewrite (process_pdf_step e pdf Hm Hd).
    destruct (step e pdf) as [[pdf' secs] evs]. rewrite IH. reflexivity.
  - rewrite IH. reflexivity.
Qed.

(** *** The response *)

(** The response of a run that gets past the two readiness checks and
    finds at least one document. *)
Lemma process_pdfs_with_ml_ready e db job user pdf_ids k :
  model_ready e = true -> DB_AVAILABLE e = true ->
  List.filter (selected user pdf_ids) db <> [] ->
  process_pdfs_with_ml e db job user pdf_ids k
  = (match flat_map (sections_from e user pdf_ids) db with
     | [] => Error "No sections found in the provided PDFs"
     | all_sections =>
         match parse_job_to_be_done e job with
         | Raise msg => Error (PyStr.cat "Processing failed: " msg)
         | Ok query_embedding =>
             insights_of e job (List.filter (selected user pdf_ids) db)
               all_sections query_embedding k
         end
     end,
     List.map (row_after e user pdf_ids) db,
     flat_map (events_from e user pdf_ids) db).
Proof.
  intros Hm Hd Hsel. unfold process_pdfs_with_ml. rewrite Hm, Hd. simpl.
  destruct (List.filter (selected user pdf_ids) db) as [|p ps] eqn:Hf; [congruence|].
  rewrite (process_rows_steps e user pdf_ids db Hm Hd).
  destruct (flat_map (sections_from e user pdf_ids) db) as [|t ts]; [reflexivity|].
  destruct (parse_job_to_be_done e job) as [q|msg]; [|reflexivity].
  unfold insights_of, cards_of.
  destruct (score_sections e q (t :: ts)); reflexivity.
Qed.

(** [sorted] keeps every element. *)
Lemma ranked_insert_In x y l : In x (insert_desc y l) <-> x = y \/ In x l.
Proof.
  induction l as [|z l IH]; simpl.
  - split; intros [H|H]; auto; contradiction.
  - destruct (Qltb (relevance_score y) (relevance_score z)); simpl.
    + rewrite IH. intuition congruence.
    + intuition congruence.
Qed.

Lemma ranked_sorted_In x l : In x (sorted_desc l) <-> In x l.
Proof.
  induction l as [|y l IH]; simpl.
  - reflexivity.
  - rewrite ranked_insert_In, IH. intuition congruence.
Qed.

(** *** Extraction and the ten-word filter *)

Lemma enumerate_from_In {A} (l : list A) : forall n i x,
  In (i, x) (enumerate_from n l) -> In x l.
Proof.
  induction l as [|y l IH]; intros n i x; simpl; [auto|].
  intros [[= _ ->]|H]; [auto|right; eapply IH; exact H].
Qed.

Lemma flat_map_nil {A B} (f : A -> list B) l :
  (forall x, In x l -> f x = []) -> flat_map f l = [].
Proof.
  induction l as [|x l IH]; intros H; simpl; [reflexivity|].
  rewrite (H x) by (left; reflexivity). apply IH.
  intros y Hy. apply H. right. exact Hy.
Qed.

(** When every section of the segmenter has fewer than ten words of
    combined text, nothing is extracted. *)
Lemma extract_sections_from_pdf_none e pdf_path data :
  (forall s,
     In s (Segmenter.sections
             (Segmenter.extract_text_with_structure (pdfplumber_open e data) pdf_path)) ->
     (length (PyStr.split (combined_text s)) < 10)%nat) ->
  extract_sections_from_pdf e pdf_path data = [].
Proof.
  intros H. unfold extract_sections_from_pdf. apply flat_map_nil.
  intros [i s] Hin. apply enumerate_from_In in Hin. cbn [fst snd].
  specialize (H s Hin). unfold combined_text in H.
  destruct (Nat.leb_spec 10
    (length (PyStr.split (PyStr.cat (fmt (Segmenter.section_title s))
       (PyStr.cat ". " (PyStr.take 500 (Segmenter.content s)))))));
    [lia|reflexivity].
Qed.

(** *** Independence from the outcome of section encodings *)

(** The number of sections a document contributes does not depend on
    the encoder. *)
Lemma sections_from_length e f user pdf_ids pdf :
  length (sections_from (with_encode e f) user pdf_ids pdf)
  = length (sections_from e user pdf_ids pdf).
Proof.
  unfold sections_from. destruct (selected user pdf_ids pdf); [|reflexivity].
  unfold step. destruct (cache_usable (get_sections_with_embeddings pdf)); [reflexivity|].
  destruct (has_file_data pdf) as [data|]; [|reflexivity].
  cbn [fst snd]. unfold tag, fresh_sections. rewrite !length_map. reflexivity.
Qed.

Lemma all_sections_length e f user pdf_ids db :
  length (flat_map (sections_from (with_encode e f) user pdf_ids) db)
  = length (flat_map (sections_from e user pdf_ids) db).
Proof.
  induction db as [|pdf db IH]; simpl; [reflexivity|].
  rewrite !length_app, IH, sections_from_length. reflexivity.
Qed.

(** When a run returns the error shape. *)
Lemma process_pdfs_with_ml_is_error e db job user pdf_ids k :
  is_error (fst (fst (process_pdfs_with_ml e db job user pdf_ids k)))
  = negb (model_ready e)
    || negb (DB_AVAILABLE e)
    || negb (nonempty (List.filter (selected user pdf_ids) db))
    || negb (nonempty (flat_map (sections_from e user pdf_ids) db))
    || match parse_job_to_be_done e job with
       | Ok query_embedding =>
           negb (is_ok (score_sections e query_embedding
                          (flat_map (sections_from e user pdf_ids) db)))
       | Raise _ => true
       end.
Proof.
  destruct (model_ready e) eqn:Hm;
    [|unfold process_pdfs_with_ml; rewrite Hm; reflexivity].
  destruct (DB_AVAILABLE e) eqn:Hd;
    [|unfold process_pdfs_with_ml; rewrite Hm, Hd; reflexivity].
  destruct (List.filter (selected user pdf_ids) db) as [|p ps] eqn:Hf.
  { unfold process_pdfs_with_ml. rewrite Hm, Hd, Hf. reflexivity. }
  rewrite (process_pdfs_with_ml_ready e db job user pdf_ids k Hm Hd)
    by (rewrite Hf; discriminate).
  cbn [fst]. destruct (flat_map (sections_from e user pdf_ids) db) as [|t ts];
    [reflexivity|].
  destruct (parse_job_to_be_done e job) as [q|msg]; [|reflexivity].
  unfold insights_of. destruct (score_sections e q (t :: ts)); reflexivity.
Qed.

(** *** Running again on what a run has saved *)

Lemma nonempty_true {A} (l : list A) : nonempty l = true <-> l <> [].
Proof. destruct l; simpl; split; congruence. Qed.

Lemma cache_usable_iff pdf :
  cache_usable (get_sections_with_embeddings pdf) = true <-> fully_embedded pdf.
Proof.
  unfold cache_usable, fully_embedded, get_sections_with_embeddings.
  rewrite andb_true_iff, nonempty_true, forallb_forall. split.
  - intros [Hne Hall]. split.
    + intros E. apply Hne. rewrite E. reflexivity.
    + intros r Hr. apply nonempty_true.
      apply (Hall (Section_ (row_title r) (row_content r) (row_page_number r)
                     (row_section_index r) None (get_embedding r))).
      apply in_map_iff. exists r. auto.
  - intros [Hne Hall]. split.
    + intros E. apply map_eq_nil in E. auto.
    + intros s Hs. apply in_map_iff in Hs as (r & <- & Hr). simpl.
      apply nonempty_true. auto.
Qed.

(** Storing an embedding and reading it back gives the same list. *)
Lemma get_embedding_add_section t c p i emb :
  get_embedding (add_section t c p i emb) = emb.
Proof. destruct emb; reflexivity. Qed.

Lemma map_enumerate_from {A B} (g : A -> B) (l : list A) : forall n,
  List.map (fun ix => g (snd ix)) (enumerate_from n l) = List.map g l.
Proof.
  induction l as [|x l IH]; intros n; simpl; [reflexivity|].
  rewrite IH. reflexivity.
Qed.

(** The sections read back from a saved row show what the saved
    sections showed. *)
Lemma saved_sections_tcore pdf l :
  List.map tcore (tag (saved pdf l) (get_sections_with_embeddings (saved pdf l)))
  = List.map tcore (tag pdf l).
Proof.
  unfold tag, get_sections_with_embeddings, saved, enumerate. simpl.
  rewrite !map_map. unfold tcore. simpl.
  rewrite <- (map_enumerate_from
                (fun s => (section_title s, content s, page_number s,
                           embedding s, original_filename pdf, id pdf)) l 0).
  apply map_ext. intros [i s]. simpl.
  rewrite get_embedding_add_section. reflexivity.
Qed.

(** A step keeps the identity of the row. *)
Lemma step_identity e pdf :
  id (fst (fst (step e pdf))) = id pdf /\
  user_id (fst (fst (step e pdf))) = user_id pdf /\
  original_filename (fst (fst (step e pdf))) = original_filename pdf.
Proof.
  unfold step. destruct (cache_usable (get_sections_with_embeddings pdf)); [auto|].
  destruct (has_file_data pdf); simpl; auto.
Qed.

Lemma row_after_selected e user pdf_ids pdf :
  selected user pdf_ids (row_after e user pdf_ids pdf) = selected user pdf_ids pdf.
Proof.
  unfold row_after. destruct (selected user pdf_ids pdf) eqn:E; [|exact E].
  unfold selected in *. destruct (step_identity e pdf) as (-> & -> & _). exact E.
Qed.

Lemma row_after_filename e user pdf_ids pdf :
  original_filename (row_after e user pdf_ids pdf) = original_filename pdf.
Proof.
  unfold row_after. destruct (selected user pdf_ids pdf); [|reflexivity].
  apply step_identity.
Qed.

(** Stepping a row that a previous step left fully embedded: nothing is
    segmented, encoded or saved, the row stays, and the sections show
    what the previous step's sections showed. *)
Lemma step_again e pdf :
  fully_embedded (fst (fst (step e pdf))) ->
  step e (fst (fst (step e pdf)))
  = (fst (fst (step e pdf)),
     tag (fst (fst (step e pdf)))
         (get_sections_with_embeddings (fst (fst (step e pdf)))), []) /\
  List.map tcore (tag (fst (fst (step e pdf)))
                    (get_sections_with_embeddings (fst (fst (step e pdf)))))
  = List.map tcore (snd (fst (step e pdf))).
Proof.
  intros Hfull. apply cache_usable_iff in Hfull. split.
  - unfold step at 1. rewrite Hfull. reflexivity.
  - revert Hfull. unfold step.
    destruct (cache_usable (get_sections_with_embeddings pdf)) eqn:Hc; [reflexivity|].
    destruct (has_file_data pdf) as [data|]; simpl.
    + intros _. apply saved_sections_tcore.
    + congruence.
Qed.

Lemma row_again e user pdf_ids pdf :
  (selected user pdf_ids pdf = true ->
   fully_embedded (row_after e user pdf_ids pdf)) ->
  row_after e user pdf_ids (row_after e user pdf_ids pdf)
  = row_after e user pdf_ids pdf /\
  events_from e user pdf_ids (row_after e user pdf_ids pdf) = [] /\
  List.map tcore (sections_from e user pdf_ids (row_after e user pdf_ids pdf))
  = List.map tcore (sections_from e user pdf_ids pdf).
Proof.
  intros Hfull.
  pose proof (row_after_selected e user pdf_ids pdf) as Hsel.
  unfold events_from, sections_from.
  unfold row_after at 1. rewrite Hsel.
  destruct (selected user pdf_ids pdf) eqn:Hs.
  - specialize (Hfull eq_refl). unfold row_after in *. rewrite Hs in *.
    destruct (step_again e pdf Hfull) as [Hstep Hcore].
    rewrite Hstep. cbn [fst snd]. auto.
  - unfold row_after. rewrite Hs. auto.
Qed.

Lemma rows_again e user pdf_ids db :
  (forall pdf, In pdf (List.map (row_after e user pdf_ids) db) ->
     selected user pdf_ids pdf = true -> fully_embedded pdf) ->
  List.map (row_after e user pdf_ids) (List.map (row_after e user pdf_ids) db)
  = List.map (row_after e user pdf_ids) db /\
  flat_map (events_from e user pdf_ids) (List.map (row_after e user pdf_ids) db) = [] /\
  List.map tcore
    (flat_map (sections_from e user pdf_ids) (List.map (row_after e user pdf_ids) db))
  = List.map tcore (flat_map (sections_from e user pdf_ids) db).
Proof.
  induction db as [|pdf db IH]; intros Hfull; [simpl; auto|].
  destruct IH as (IH1 & IH2 & IH3).
  { intros p Hp. apply Hfull. right. exact Hp. }
  destruct (row_again e user pdf_ids pdf) as (H1 & H2 & H3).
  { intros Hs. apply Hfull; [left; reflexivity|].
    rewrite row_after_selected. exact Hs. }
  cbn [List.map flat_map]. rewrite !map_app, H1, H2, H3, IH1, IH2, IH3. auto.
Qed.

Lemma filter_row_after e user pdf_ids db :
  List.filter (selected user pdf_ids) (List.map (row_after e user pdf_ids) db)
  = List.map (row_after e user pdf_ids) (List.filter (selected user pdf_ids) db).
Proof.
  induction db as [|pdf db IH]; simpl; [reflexivity|].
  rewrite row_after_selected.
  destruct (selected user pdf_ids pdf); simpl; rewrite IH; reflexivity.
Qed.

Lemma cons_eq_inv {A} (x y : A) l l' : x :: l = y :: l' -> x = y /\ l = l'.
Proof. intros H. injection H as -> ->. auto. Qed.

(** Scoring, sorting, truncating and formatting only look at what
    [tcore] shows. *)
Lemma score_tcore e q t t' :
  tcore t = tcore t' ->
  scored_outline (score_sections e q [t]) = scored_outline (score_sections e q [t']).
Proof.
  unfold tcore. intros H. injection H as H1 H2 H3 H4 H5 H6.
  simpl. unfold score. rewrite H4.
  destruct (nonempty (embedding (sec t'))).
  - destruct (cosine_similarity e (embedding (sec t')) q); [|reflexivity].
    simpl. unfold score_core, tcore. simpl.
    rewrite H1, H2, H3, H4, H5, H6. reflexivity.
  - simpl. unfold score_core, tcore. simpl.
    rewrite H1, H2, H3, H4, H5, H6. reflexivity.
Qed.

Lemma score_sections_cons e q t l :
  scored_outline (score_sections e q (t :: l))
  = match scored_outline (score_sections e q [t]) with
    | inl msg => inl msg
    | inr x =>
        match scored_outline (score_sections e q l) with
        | inl msg => inl msg
        | inr xs => inr (x ++ xs)
        end
    end.
Proof.
  simpl. destruct (score e q t) as [x|msg]; [|reflexivity].
  destruct (score_sections e q l) as [xs|msg]; reflexivity.
Qed.

Lemma map_score_tcore e q l : forall l',
  List.map tcore l = List.map tcore l' ->
  scored_outline (score_sections e q l) = scored_outline (score_sections e q l').
Proof.
  induction l as [|t l IH]; intros [|t' l'] H; simpl in H; try congruence.
  apply cons_eq_inv in H as [Ht Hl].
  rewrite (score_sections_cons e q t l), (score_sections_cons e q t' l').
  rewrite (score_tcore e q t t' Ht), (IH l' Hl). reflexivity.
Qed.

Lemma insert_desc_core x y l : forall l',
  score_core x = score_core y ->
  List.map score_core l = List.map score_core l' ->
  List.map score_core (insert_desc x l) = List.map score_core (insert_desc y l').
Proof.
  intros l' Hxy. assert (Hr : relevance_score x = relevance_score y)
    by (unfold score_core in Hxy; congruence).
  revert l'. induction l as [|z l IH]; intros [|z' l'] H; simpl in *; try congruence.
  apply cons_eq_inv in H as [Hz Hl].
  assert (Hr' : relevance_score z = relevance_score z')
    by (unfold score_core in Hz; congruence).
  rewrite Hr, Hr'.
  destruct (Qltb (relevance_score y) (relevance_score z')); simpl.
  - rewrite Hz, (IH l' Hl). reflexivity.
  - rewrite Hxy, Hz, Hl. reflexivity.
Qed.

Lemma sorted_desc_core l : forall l',
  List.map score_core l = List.map score_core l' ->
  List.map score_core (sorted_desc l) = List.map score_core (sorted_desc l').
Proof.
  induction l as [|x l IH]; intros [|y l'] H; simpl in *; try congruence.
  apply cons_eq_inv in H as [Hx Hl]. apply insert_desc_core; auto.
Qed.

Lemma take_upto_map {A B} (f : A -> B) k l :
  List.map f (take_upto k l) = take_upto k (List.map f l).
Proof.
  unfold take_upto. rewrite length_map.
  destruct (0 <=? k)%Z; symmetry; apply firstn_map.
Qed.

Lemma cards_core l : forall l' n,
  List.map score_core l = List.map score_core l' ->
  List.map card_outline
    (List.map (fun rs => insight_card_of (fst rs) (snd rs)) (enumerate_from n l))
  = List.map card_outline
      (List.map (fun rs => insight_card_of (fst rs) (snd rs)) (enumerate_from n l')).
Proof.
  induction l as [|x l IH]; intros [|y l'] n H; simpl in *; try congruence.
  apply cons_eq_inv in H as [Hx Hl]. rewrite (IH l' (S n) Hl). f_equal.
  unfold card_outline, insight_card_of, score_core, tcore in *. simpl.
  injection Hx as H1 H2 H3 H4 H5 H6 H7.
  rewrite H1, H2, H3, H5, H7. reflexivity.
Qed.

(** Two section lists that show the same give the same response, card
    identifiers apart. *)
Lemma insights_of_core e job pdfs pdfs' l l' q k :
  List.map original_filename pdfs = List.map original_filename pdfs' ->
  List.map tcore l = List.map tcore l' ->
  response_outline (insights_of e job pdfs l q k)
  = response_outline (insights_of e job pdfs' l' q k).
Proof.
  intros Hp Hl. unfold insights_of.
  assert (Hlen : length l = length l').
  { rewrite <- (length_map tcore l), Hl. apply length_map. }
  pose proof (map_score_tcore e q l l' Hl) as Hout.
  destruct (score_sections e q l) as [sl|msg], (score_sections e q l') as [sl'|msg'];
    simpl in Hout; try discriminate.
  2:{ injection Hout as ->. reflexivity. }
  injection Hout as Hout. unfold response_outline, cards_of.
  assert (Hs : List.map score_core (take_upto k (sorted_desc sl))
             = List.map score_core (take_upto k (sorted_desc sl'))).
  { rewrite !take_upto_map. f_equal. apply sorted_desc_core. exact Hout. }
  f_equal. f_equal.
  - apply cards_core. exact Hs.
  - rewrite Hp, Hlen, !length_map.
    f_equal. unfold enumerate.
    assert (Hn : forall {A} (l : list A) n, length (enumerate_from n l) = length l).
    { intros A l0. induction l0; intros n; simpl; [reflexivity|]. rewrite IHl0. reflexivity. }
    rewrite !Hn. rewrite <- (length_map score_core), Hs. apply length_map.
Qed.

(** Every extracted section carries its combined text, so each one is
    passed to [encode_text]. *)
Lemma extract_sections_have_text e pdf_path data s :
  In s (extract_sections_from_pdf e pdf_path data) ->
  exists text, section_text s = Some text.
Proof.
  unfold extract_sections_from_pdf. intros H.
  apply in_flat_map in H as ([i x] & _ & H). cbn [fst snd] in H.
  destruct (10 <=? _)%nat; [|contradiction].
  destruct H as [<-|[]]. simpl. eauto.
Qed.

Lemma events_of_texts e l :
  (forall s, In s l -> exists text, section_text s = Some text) ->
  flat_map (fun s => snd (embed_section e s)) l
  = List.map (fun s => Encoded (default EmptyString (section_text s))) l.
Proof.
  induction l as [|s l IH]; intros H; simpl; [reflexivity|].
  destruct (H s (or_introl eq_refl)) as [text Ht].
  rewrite IH by (intros s' Hs'; apply H; right; exact Hs').
  unfold embed_section. rewrite Ht. reflexivity.
Qed.

(** *** The scoring loop *)

Lemma score_spec e q t x :
  score e q t = Ok x ->
  tsec x = t /\
  (embedding (sec t) = [] -> relevance_score x = 0.0%Q) /\
  (embedding (sec t) <> [] ->
   cosine_similarity e (embedding (sec t)) q = Ok (relevance_score x)).
Proof.
  unfold score. destruct (embedding (sec t)) as [|v vs] eqn:Ev; simpl.
  - intros [= <-]. simpl. repeat split; auto. congruence.
  - destruct (cosine_similarity e (v :: vs) q) as [y|msg]; [|discriminate].
    intros [= <-]. simpl. repeat split; auto. discriminate.
Qed.

Lemma score_sections_spec e q l : forall scored_sections,
  score_sections e q l = Ok scored_sections ->
  List.map tsec scored_sections = l /\
  forall s, In s scored_sections ->
    (embedding (sec (tsec s)) = [] -> relevance_score s = 0.0%Q) /\
    (embedding (sec (tsec s)) <> [] ->
     cosine_similarity e (embedding (sec (tsec s))) q = Ok (relevance_score s)).
Proof.
  induction l as [|t l IH]; intros sl H; simpl in H.
  - injection H as <-. split; [reflexivity|]. intros s [].
  - destruct (score e q t) as [x|msg] eqn:Ex; [|discriminate].
    destruct (score_sections e q l) as [xs|msg]; [|discriminate].
    injection H as <-. destruct (IH xs eq_refl) as [Hm Hall].
    destruct (score_spec e q t x Ex) as (Ht & H0 & H1).
    split; [simpl; rewrite Ht, Hm; reflexivity|].
    intros s [<-|Hs]; [rewrite Ht; auto|auto].
Qed.

Lemma score_sections_total e q l :
  (forall t, In t l -> embedding (sec t) <> [] ->
     exists x, cosine_similarity e (embedding (sec t)) q = Ok x) ->
  exists scored_sections, score_sections e q l = Ok scored_sections.
Proof.
  induction l as [|t l IH]; intros H; simpl; [eauto|].
  destruct IH as [xs ->]; [intros t' Ht'; apply H; right; exact Ht'|].
  unfold score. destruct (embedding (sec t)) as [|v vs] eqn:Ev; simpl; [eauto|].
  destruct (H t (or_introl eq_refl)) as [x Hx]; [rewrite Ev; discriminate|].
  rewrite Ev in Hx. rewrite Hx. eauto.
Qed.

(** [sorted] rearranges its input. *)
Lemma insert_desc_perm x l : Permutation (insert_desc x l) (x :: l).
Proof.
  induction l as [|y l IH]; simpl; [reflexivity|].
  destruct (Qltb (relevance_score x) (relevance_score y)); [|reflexivity].
  rewrite IH. apply perm_swap.
Qed.

Lemma sorted_desc_perm l : Permutation (sorted_desc l) l.
Proof.
  induction l as [|x l IH]; simpl; [reflexivity|].
  rewrite insert_desc_perm, IH. reflexivity.
Qed.

(** *** An encoder that fails more often *)

Lemma embed_section_dimmed e f s :
  (forall text, f text = model_encode e text \/ exists msg, f text = Raise msg) ->
  embedding (fst (embed_section (with_encode e f) s))
  = embedding (fst (embed_section e s)) \/
  embedding (fst (embed_section (with_encode e f) s)) = [].
Proof.
  intros Hf. unfold embed_section.
  destruct (section_text s) as [text|]; cbn [fst embedding]; [|auto].
  unfold encode_text. cbn [with_encode model_ready model_encode].
  destruct (negb (model_ready e)); [auto|].
  destruct (Hf text) as [->|[msg ->]]; auto.
Qed.

Lemma sections_from_dimmed e f user pdf_ids pdf :
  (forall text, f text = model_encode e text \/ exists msg, f text = Raise msg) ->
  Forall2 dimmed (sections_from (with_encode e f) user pdf_ids pdf)
                 (sections_from e user pdf_ids pdf).
Proof.
  intros Hf. unfold sections_from.
  destruct (selected user pdf_ids pdf); [|constructor].
  unfold step. destruct (cache_usable (get_sections_with_embeddings pdf)).
  - cbn [fst snd]. induction (tag pdf (get_sections_with_embeddings pdf));
      constructor; auto. left. reflexivity.
  - destruct (has_file_data pdf) as [data|]; cbn [fst snd]; [|constructor].
    unfold tag, fresh_sections. cbn [with_encode pdfplumber_open temp_path].
    change (extract_sections_from_pdf (with_encode e f) (temp_path e (id pdf)) data)
      with (extract_sections_from_pdf e (temp_path e (id pdf)) data).
    induction (extract_sections_from_pdf e (temp_path e (id pdf)) data)
      as [|s l IH]; simpl; constructor; [|exact IH].
    unfold dimmed. cbn [sec]. apply embed_section_dimmed. exact Hf.
Qed.

Lemma all_sections_dimmed e f user pdf_ids db :
  (forall text, f text = model_encode e text \/ exists msg, f text = Raise msg) ->
  Forall2 dimmed (flat_map (sections_from (with_encode e f) user pdf_ids) db)
                 (flat_map (sections_from e user pdf_ids) db).
Proof.
  intros Hf. induction db as [|pdf db IH]; simpl; [constructor|].
  apply Forall2_app; [apply sections_from_dimmed; exact Hf|exact IH].
Qed.

(** Scoring succeeds on the dimmed sections when it succeeds on the
    others: a section without embedding is scored without a call. *)
Lemma score_sections_dimmed e f q l' l :
  Forall2 dimmed l' l ->
  is_ok (score_sections e q l) = true ->
  is_ok (score_sections (with_encode e f) q l') = true.
Proof.
  induction 1 as [|t' t l' l Ht _ IH]; simpl; [reflexivity|].
  destruct (score e q t) as [x|msg] eqn:Ex; [|discriminate].
  destruct (score_sections e q l) as [xs|msg]; [|discriminate].
  intros _. specialize (IH eq_refl).
  destruct (score_sections (with_encode e f) q l') as [xs'|msg]; [|discriminate].
  assert (Hs : is_ok (score (with_encode e f) q t') = true).
  { revert Ex. unfold score. cbn [with_encode cosine_similarity].
    destruct Ht as [->| ->]; [|reflexivity].
    destruct (nonempty (embedding (sec t))); [|reflexivity].
    destruct (cosine_similarity e (embedding (sec t)) q); [reflexivity|discriminate]. }
  destruct (score (with_encode e f) q t'); [reflexivity|discriminate].
Qed.

(** A run that does not get to the document loop leaves the table as
    it is. *)
Lemma process_pdfs_with_ml_no_selection e db job user pdf_ids k :
  model_ready e = true -> DB_AVAILABLE e = true ->
  List.filter (selected user pdf_ids) db = [] ->
  process_pdfs_with_ml e db job user pdf_ids k
  = (Error (PyStr.cat "Processing failed: "
              (PyStr.cat "No PDFs found for user "
                 (PyStr.cat (str_of_Z user)
                    (PyStr.cat " with IDs " (str_of_Z_list pdf_ids))))),
     db, []).
Proof.
  intros Hm Hd Hf. unfold process_pdfs_with_ml. rewrite Hm, Hd, Hf. reflexivity.
Qed.

(** The card identifier is not kept by a second run: the fresh section
    carries its position among all segmented sections, the stored one
    its position among the sections that were kept. *)
Example rerun_renumbers_the_section :
  let run1 := process_pdfs_with_ml Sample.env [Sample.pdf_note] "a walk" 7 [5%Z] 5 in
  let run2 := process_pdfs_with_ml Sample.env (snd (fst run1)) "a walk" 7 [5%Z] 5 in
  (exists meta score,
     fst (fst run1)
     = Insights [Card "insight-5-1" "note.pdf" (Some "Walking along the cliffs")
                   Sample.long_content 1 1 score] meta) /\
  (exists meta score,
     fst (fst run2)
     = Insights [Card "insight-5-0" "note.pdf" (Some "Walking along the cliffs")
                   Sample.long_content 1 1 score] meta).
Proof.
  split; eexists _, _; vm_compute; reflexivity.
Qed.

End PipelineFacts.

Module PipelineClaims.
Import Pipeline PipelineRun PipelineFacts.

(** C3 as worded does not hold for the orchestrator.  One stored
    document whose only section has four words of combined text:
    nothing survives the ten-word filter, and the run returns the error
    shape, not a result with an empty section list. *)
Lemma C3_empty_corpus_is_an_error :
  (forall s,
     In s (Segmenter.sections
             (Segmenter.extract_text_with_structure
                (pdfplumber_open Sample.env "%PDF-short")
                (temp_path Sample.env 2))) ->
     (length (PyStr.split (combined_text s)) < 10)%nat) /\
  fst (fst (process_pdfs_with_ml Sample.env [Sample.pdf_short] "plan a trip" 7 [2%Z] 5))
  = Error "No sections found in the provided PDFs".
Proof.
  split.
  - intros s Hs. vm_compute in Hs. destruct Hs as [<-|[]]. vm_compute. lia.
  - vm_compute. reflexivity.
Qed.

(** C3 (amended).  When no section survives the filters, the ranker
    [get_sections_with_content] returns the empty list; the orchestrator
    [process_pdfs_with_ml], once the model is loaded, the database is
    available and the query finds documents, returns the error "No
    sections found in the provided PDFs" when no document has a usable
    cache and every segmented section has fewer than ten words of
    combined text. *)
Theorem C3_no_candidates_outcome :
  (forall (vec : Type) (encode : string -> vec)
          (cosine_similarity : vec -> vec -> Q)
          (extract_keywords : string -> list (string * Q)) docs req k,
     (forall d s, In d docs -> In s (Ranker.sections d) ->
        PyStr.contains ".pdf" (Ranker.section_title s) = true \/
        (length (PyStr.split (Ranker.section_text s)) < 10)%nat) ->
     Ranker.get_sections_with_content encode cosine_similarity extract_keywords
       docs req k = Some [])
  /\
  (forall e db job user pdf_ids k,
     model_ready e = true -> DB_AVAILABLE e = true ->
     List.filter (selected user pdf_ids) db <> [] ->
     (forall pdf, In pdf db -> selected user pdf_ids pdf = true ->
        cache_usable (get_sections_with_embeddings pdf) = false /\
        forall data s,
          has_file_data pdf = Some data ->
          In s (Segmenter.sections
                  (Segmenter.extract_text_with_structure
                     (pdfplumber_open e data) (temp_path e (id pdf)))) ->
          (length (PyStr.split (combined_text s)) < 10)%nat) ->
     fst (fst (process_pdfs_with_ml e db job user pdf_ids k))
     = Error "No sections found in the provided PDFs").
Proof.
  split.
  - intros vec encode cosine_similarity extract_keywords docs req k H.
    apply RankerFacts.get_sections_with_content_empty. exact H.
  - intros e db job user pdf_ids k Hm Hd Hsel Hall.
    rewrite (process_pdfs_with_ml_ready e db job user pdf_ids k Hm Hd Hsel).
    simpl. rewrite flat_map_nil; [reflexivity|].
    intros pdf Hin. unfold sections_from.
    destruct (selected user pdf_ids pdf) eqn:Hs; [|reflexivity].
    destruct (Hall pdf Hin Hs) as [Hcache Hshort].
    unfold step. rewrite Hcache.
    destruct (has_file_data pdf) as [data|] eqn:Hdata; [|reflexivity].
    simpl. unfold fresh_sections.
    rewrite extract_sections_from_pdf_none; [reflexivity|].
    intros s Hs'. eapply Hshort; eauto.
Qed.

Lemma C3_no_candidates_outcome_witness :
  Ranker.get_sections_with_content Sample.encode Sample.cosine_similarity
    Sample.extract_keywords
    [Ranker.Doc "a.pdf" [Ranker.Section_ "Short" "too few words" 3]]
    Sample.req 5 = Some []
  /\
  fst (fst (process_pdfs_with_ml Sample.env [Sample.pdf_short] "plan a trip" 7 [2%Z] 5))
  = Error "No sections found in the provided PDFs".
Proof.
  destruct C3_no_candidates_outcome as [HR HP]. split.
  - apply HR. intros d s [<-|[]] [<-|[]]. right. vm_compute. lia.
  - apply HP; try reflexivity.
    + vm_compute. discriminate.
    + intros pdf [<-|[]] _. split; [reflexivity|].
      intros data s Hdata Hs. vm_compute in Hdata. injection Hdata as <-.
      vm_compute in Hs. destruct Hs as [<-|[]]. vm_compute. lia.
Defined.

(** C10.  A failed encoding of a section's text leaves the section in
    place with the empty list as embedding, and the embedding stage does
    not raise.  A section with an empty embedding is scored 0.0 without
    a similarity being computed, so scoring it cannot fail.  When the
    run reaches the scoring loop and the similarity can be computed for
    every section that has an embedding, the response has the insights
    shape and counts every section; its cards are built from the first
    [k] entries of the sorted list of all the scored sections, a
    rearrangement of them in which the sections without embedding carry
    0.0 and the others their similarity to the query.  Making the
    encoder fail on more section texts never turns the response of a
    run into the error shape. *)
Theorem C10_section_encoding_failure_absorbed :
  (forall e s text msg,
     section_text s = Some text -> model_encode e text = Raise msg ->
     fst (embed_section e s)
     = Section_ (section_title s) (content s) (page_number s)
         (section_index s) (section_text s) [])
  /\
  (forall e l,
     model_ready e = true ->
     generate_embeddings_for_sections e l
     = Ok (List.map (fun s => fst (embed_section e s)) l,
           flat_map (fun s => snd (embed_section e s)) l))
  /\
  (forall e query_embedding t,
     embedding (sec t) = [] ->
     score e query_embedding t = Ok (Scored t 0.0%Q))
  /\
  (forall e db job user pdf_ids k query_embedding,
     model_ready e = true -> DB_AVAILABLE e = true ->
     List.filter (selected user pdf_ids) db <> [] ->
     flat_map (sections_from e user pdf_ids) db <> [] ->
     parse_job_to_be_done e job = Ok query_embedding ->
     let all_sections := flat_map (sections_from e user pdf_ids) db in
     (forall t, In t all_sections -> embedding (sec t) <> [] ->
        exists x,
          cosine_similarity e (embedding (sec t)) query_embedding = Ok x) ->
     exists scored_sections meta,
       fst (fst (process_pdfs_with_ml e db job user pdf_ids k))
       = Insights (cards_of (take_upto k (sorted_desc scored_sections))) meta /\
       total_sections_processed meta = length all_sections /\
       List.map tsec scored_sections = all_sections /\
       Permutation (sorted_desc scored_sections) scored_sections /\
       forall s, In s scored_sections ->
         (embedding (sec (tsec s)) = [] -> relevance_score s = 0.0%Q) /\
         (embedding (sec (tsec s)) <> [] ->
          cosine_similarity e (embedding (sec (tsec s))) query_embedding
          = Ok (relevance_score s)))
  /\
  (forall e f db job user pdf_ids k,
     f (PyStr.cat "Task: " job) = model_encode e (PyStr.cat "Task: " job) ->
     (forall text,
        f text = model_encode e text \/ exists msg, f text = Raise msg) ->
     is_error (fst (fst (process_pdfs_with_ml e db job user pdf_ids k))) = false ->
     is_error (fst (fst (process_pdfs_with_ml (with_encode e f) db job user
                           pdf_ids k))) = false).
Proof.
  split; [|split; [|split; [|split]]].
  - intros e s text msg Ht Hf. unfold embed_section, encode_text.
    rewrite Ht, Hf. destruct (negb (model_ready e)); reflexivity.
  - intros e l Hm. unfold generate_embeddings_for_sections. rewrite Hm. reflexivity.
  - intros e q t He. unfold score. rewrite He. reflexivity.
  - intros e db job user pdf_ids k q Hm Hd Hsel Hne Hq all_sections Hcos.
    rewrite (process_pdfs_with_ml_ready e db job user pdf_ids k Hm Hd Hsel).
    cbn [fst]. subst all_sections. rewrite Hq.
    destruct (score_sections_total e q _ Hcos) as [sl Hsl].
    destruct (score_sections_spec e q _ sl Hsl) as [Hmap Hall].
    destruct (flat_map (sections_from e user pdf_ids) db) as [|t0 ts] eqn:E;
      [congruence|].
    unfold insights_of. rewrite Hsl.
    eexists sl, _. split; [reflexivity|]. split; [reflexivity|].
    split; [exact Hmap|]. split; [apply sorted_desc_perm|exact Hall].
  - intros e f db job user pdf_ids k Hq Hf.
    rewrite !process_pdfs_with_ml_is_error.
    assert (Hlen := all_sections_length e f user pdf_ids db).
    assert (Hne : nonempty (flat_map (sections_from (with_encode e f) user pdf_ids) db)
                  = nonempty (flat_map (sections_from e user pdf_ids) db)).
    { destruct (flat_map (sections_from (with_encode e f) user pdf_ids) db),
               (flat_map (sections_from e user pdf_ids) db);
        simpl in *; congruence. }
    rewrite Hne. unfold parse_job_to_be_done. cbn [with_encode model_encode
      model_ready DB_AVAILABLE]. rewrite Hq.
    destruct (negb (model_ready e)); [discriminate|].
    destruct (negb (DB_AVAILABLE e)); [discriminate|].
    destruct (negb (nonempty (List.filter (selected user pdf_ids) db)));
      [discriminate|].
    destruct (negb (nonempty (flat_map (sections_from e user pdf_ids) db)));
      [discriminate|].
    cbn [orb]. destruct (model_encode e (PyStr.cat "Task: " job)) as [q|msg];
      [|discriminate].
    intros H. apply negb_false_iff in H. apply negb_false_iff.
    eapply score_sections_dimmed; [|exact H].
    apply all_sections_dimmed. exact Hf.
Qed.

Lemma C10_section_encoding_failure_absorbed_witness :
  (let all_sections :=
     flat_map (sections_from Sample.env 7 [1%Z]) [Sample.pdf_trip] in
   exists scored_sections meta,
     fst (fst (process_pdfs_with_ml Sample.env [Sample.pdf_trip] "plan a trip" 7 [1%Z] 5))
     = Insights (cards_of (take_upto 5 (sorted_desc scored_sections))) meta /\
     total_sections_processed meta = length all_sections /\
     List.map tsec scored_sections = all_sections /\
     Permutation (sorted_desc scored_sections) scored_sections /\
     forall s, In s scored_sections ->
       (embedding (sec (tsec s)) = [] -> relevance_score s = 0.0%Q) /\
       (embedding (sec (tsec s)) <> [] ->
        cosine_similarity Sample.env (embedding (sec (tsec s))) [inject_Z 4; 1%Q]
        = Ok (relevance_score s)))
  /\
  (exists cards meta,
     fst (fst (process_pdfs_with_ml Sample.env [Sample.pdf_trip] "plan a trip" 7 [1%Z] 5))
     = Insights cards meta /\
     total_sections_processed meta = 2%nat /\
     List.map relevanceScore cards = [(1 # 5)%Q; 0.0%Q])
  /\
  embedding
    (fst (embed_section Sample.env
            (Section_ (Some "Planning the coastal route") "The path." 1 1
               (Some "Planning the coastal route. The path.") [])))
  = []
  /\
  is_error
    (fst (fst (process_pdfs_with_ml
                 (with_encode Sample.env
                    (fun text =>
                       if bool_decide (text = "Task: plan a trip")
                       then model_encode Sample.env text
                       else Raise "model down"))
                 [Sample.pdf_trip] "plan a trip" 7 [1%Z] 5)))
  = false.
Proof.
  destruct C10_section_encoding_failure_absorbed as (Hfail & _ & _ & H & Hmono).
  split; [|split; [|split]].
  - apply (H Sample.env [Sample.pdf_trip] "plan a trip" 7%Z [1%Z] 5%Z
             [inject_Z 4; 1%Q]).
    + reflexivity.
    + reflexivity.
    + vm_compute. discriminate.
    + vm_compute. discriminate.
    + vm_compute. reflexivity.
    + intros t Hin Hne. vm_compute in Hin.
      destruct Hin as [<-|[<-|[]]]; [eexists; vm_compute; reflexivity|].
      exfalso. apply Hne. reflexivity.
  - eexists _, _. split; [vm_compute; reflexivity|].
    split; reflexivity.
  - rewrite (Hfail Sample.env _ "Planning the coastal route. The path."
               "out of memory"); reflexivity.
  - apply (Hmono Sample.env).
    + vm_compute. reflexivity.
    + intros text. destruct (bool_decide (text = "Task: plan a trip")); eauto.
    + vm_compute. reflexivity.
Defined.

(** C8 as worded does not hold.  The stored document has two cached
    sections, one with an embedding and one without, and no file data:
    the iteration neither reuses the cache nor segments or embeds
    anything; the document is skipped. *)
Lemma C8_partial_cache_without_file_data_is_skipped :
  sections Sample.pdf_partial <> [] /\
  (exists r, In r (sections Sample.pdf_partial) /\ get_embedding r <> []) /\
  (exists r, In r (sections Sample.pdf_partial) /\ get_embedding r = []) /\
  cache_usable (get_sections_with_embeddings Sample.pdf_partial) = false /\
  process_pdf Sample.env Sample.pdf_partial = Ok (Sample.pdf_partial, [], []).
Proof.
  split; [discriminate|]. split.
  - eexists. split; [left; reflexivity|]. discriminate.
  - split.
    + eexists. split; [right; left; reflexivity|]. reflexivity.
    + split; reflexivity.
Qed.

(** C8 (amended).  With the model loaded and the database available,
    one iteration of the document loop reuses the cached sections,
    without segmenting, encoding or saving, if and only if the cached
    list is non-empty and each of its sections has a non-empty
    embedding.  Otherwise, when the document has file data, the whole
    document is segmented again, every extracted section is encoded and
    the stored sections are replaced; when it has no file data the
    document is skipped.  Running again on a table whose selected
    documents are all fully embedded after a first run encodes no
    section, leaves the table unchanged and returns the same response,
    card identifiers apart: the same sections with the same scores in the
    same order. *)
Theorem C8_cache_reuse_all_or_nothing :
  (forall e pdf,
     model_ready e = true -> DB_AVAILABLE e = true ->
     (process_pdf e pdf = Ok (pdf, tag pdf (get_sections_with_embeddings pdf), [])
      /\ sections pdf <> []
      <-> fully_embedded pdf))
  /\
  (forall e pdf data,
     model_ready e = true -> DB_AVAILABLE e = true ->
     ~ fully_embedded pdf -> has_file_data pdf = Some data ->
     let extracted := extract_sections_from_pdf e (temp_path e (id pdf)) data in
     let fresh := List.map (fun s => fst (embed_section e s)) extracted in
     process_pdf e pdf
     = Ok (saved pdf fresh, tag pdf fresh,
           Segmented (id pdf)
           :: List.map (fun s => Encoded (default EmptyString (section_text s)))
                extracted
           ++ [Saved (id pdf)])
     /\ forall s, In s extracted -> exists text, section_text s = Some text)
  /\
  (forall e pdf,
     model_ready e = true -> DB_AVAILABLE e = true ->
     ~ fully_embedded pdf -> has_file_data pdf = None ->
     process_pdf e pdf = Ok (pdf, [], []))
  /\
  (forall e db job user pdf_ids k,
     model_ready e = true -> DB_AVAILABLE e = true ->
     let run1 := process_pdfs_with_ml e db job user pdf_ids k in
     let db1 := snd (fst run1) in
     (forall pdf, In pdf db1 -> selected user pdf_ids pdf = true ->
        fully_embedded pdf) ->
     let run2 := process_pdfs_with_ml e db1 job user pdf_ids k in
     snd run2 = [] /\
     snd (fst run2) = db1 /\
     response_outline (fst (fst run2)) = response_outline (fst (fst run1))).
Proof.
  split; [|split; [|split]].
  - intros e pdf Hm Hd. rewrite (process_pdf_step e pdf Hm Hd).
    rewrite <- cache_usable_iff. unfold step. split.
    + intros [Hp Hne].
      destruct (cache_usable (get_sections_with_embeddings pdf)); [reflexivity|].
      exfalso. destruct (has_file_data pdf).
      * injection Hp as _ _ Hev. discriminate.
      * injection Hp as Htag. apply Hne.
        unfold tag, get_sections_with_embeddings in Htag.
        symmetry in Htag. apply map_eq_nil in Htag. apply map_eq_nil in Htag.
        exact Htag.
    + intros Hc. rewrite Hc. split; [reflexivity|].
      apply cache_usable_iff in Hc. apply Hc.
  - intros e pdf data Hm Hd Hnf Hdata extracted fresh. split.
    + rewrite (process_pdf_step e pdf Hm Hd). unfold step.
      destruct (cache_usable (get_sections_with_embeddings pdf)) eqn:Hc.
      { exfalso. apply Hnf. apply cache_usable_iff. exact Hc. }
      rewrite Hdata. unfold fresh_events. fold extracted.
      rewrite (events_of_texts e extracted).
      * reflexivity.
      * intros s Hs. eapply extract_sections_have_text. exact Hs.
    + intros s Hs. eapply extract_sections_have_text. exact Hs.
  - intros e pdf Hm Hd Hnf Hdata.
    rewrite (process_pdf_step e pdf Hm Hd). unfold step.
    destruct (cache_usable (get_sections_with_embeddings pdf)) eqn:Hc.
    { exfalso. apply Hnf. apply cache_usable_iff. exact Hc. }
    rewrite Hdata. reflexivity.
  - intros e db job user pdf_ids k Hm Hd run1 db1 Hfull run2.
    destruct (List.filter (selected user pdf_ids) db) as [|p ps] eqn:Hf.
    + subst run2 db1 run1.
      rewrite (process_pdfs_with_ml_no_selection e db job user pdf_ids k Hm Hd Hf).
      cbn [fst snd].
      rewrite (process_pdfs_with_ml_no_selection e db job user pdf_ids k Hm Hd Hf).
      auto.
    + assert (Hsel : List.filter (selected user pdf_ids) db <> [])
        by (rewrite Hf; discriminate).
      subst run2 db1 run1. revert Hfull.
      rewrite (process_pdfs_with_ml_ready e db job user pdf_ids k Hm Hd Hsel).
      cbn [fst snd]. intros Hfull.
      destruct (rows_again e user pdf_ids db Hfull) as (Hrows & Hev & Hcore).
      assert (Hsel1 : List.filter (selected user pdf_ids)
                        (List.map (row_after e user pdf_ids) db) <> []).
      { rewrite filter_row_after, Hf. discriminate. }
      rewrite (process_pdfs_with_ml_ready e _ job user pdf_ids k Hm Hd Hsel1).
      cbn [fst snd]. rewrite Hrows, Hev.
      split; [reflexivity|]. split; [reflexivity|].
      destruct (flat_map (sections_from e user pdf_ids)
                  (List.map (row_after e user pdf_ids) db)) as [|t1 l1] eqn:E1;
        destruct (flat_map (sections_from e user pdf_ids) db) as [|t0 l0] eqn:E0;
        try discriminate; [reflexivity|].
      destruct (parse_job_to_be_done e job) as [q|msg]; [|reflexivity].
      apply insights_of_core; [|exact Hcore].
      rewrite filter_row_after, map_map. apply map_ext.
      intros pdf. apply row_after_filename.
Qed.

Lemma C8_cache_reuse_all_or_nothing_witness :
  (let e := with_encode Sample.env
              (fun text => Ok [inject_Z (Z.of_nat (length (PyStr.split text))); 1%Q]) in
   let run1 := process_pdfs_with_ml e [Sample.pdf_trip] "a short walk" 7 [1%Z] 5 in
   let db1 := snd (fst run1) in
   let run2 := process_pdfs_with_ml e db1 "a short walk" 7 [1%Z] 5 in
   snd run1 <> [] /\
   snd run2 = [] /\
   snd (fst run2) = db1 /\
   response_outline (fst (fst run2)) = response_outline (fst (fst run1)))
  /\
  process_pdf Sample.env Sample.pdf_cached
  = Ok (Sample.pdf_cached,
        tag Sample.pdf_cached (get_sections_with_embeddings Sample.pdf_cached), [])
  /\
  (exists pdf' secs,
     process_pdf Sample.env Sample.pdf_trip
     = Ok (pdf', secs,
           [Segmented 1;
            Encoded "The path follows the shore.. The path follows the shore.";
            Encoded "Planning the coastal route. The path follows the shore. The path follows the shore.";
            Saved 1]))
  /\
  process_pdf Sample.env Sample.pdf_partial = Ok (Sample.pdf_partial, [], []).
Proof.
  destruct C8_cache_reuse_all_or_nothing as (Hiff & Hfresh & Hskip & H).
  split; [|split; [|split]].
  - cbv zeta. split; [vm_compute; discriminate|].
    apply (H (with_encode Sample.env
                (fun text => Ok [inject_Z (Z.of_nat (length (PyStr.split text))); 1%Q]))
             [Sample.pdf_trip] "a short walk" 7%Z [1%Z] 5%Z).
    + reflexivity.
    + reflexivity.
    + intros pdf Hin _. vm_compute in Hin. destruct Hin as [<-|[]].
      split; [discriminate|].
      intros r [<-|[<-|[]]]; discriminate.
  - apply (Hiff Sample.env Sample.pdf_cached); [reflexivity|reflexivity|].
    split; [discriminate|].
    intros r [<-|[<-|[]]]; discriminate.
  - destruct (Hfresh Sample.env Sample.pdf_trip "%PDF-trip") as [Hrun _].
    + reflexivity.
    + reflexivity.
    + intros [Hne _]. apply Hne. reflexivity.
    + reflexivity.
    + rewrite Hrun. eexists _, _. vm_compute. reflexivity.
  - apply (Hskip Sample.env Sample.pdf_partial); [reflexivity|reflexivity| |reflexivity].
    intros [_ Hall]. apply (Hall (Row (Some "Lost") "body of the other section" 2 1 None)).
    + right. left. reflexivity.
    + reflexivity.
Defined.

End PipelineClaims.

(* ===================================================================== *)
(** ** Ranker: further properties of [get_sections_with_content] *)
(* ===================================================================== *)

Module RankerMore.
Import Ranker RankerOrder RankerFacts.

(** Where a scored candidate comes from. *)
Lemma scored_origin {vec : Type} (encode : string -> vec)
    (cosine_similarity : vec -> vec -> Q)
    (extract_keywords : string -> list (string * Q)) docs req c :
  In c (score_all vec encode cosine_similarity extract_keywords docs req) ->
  exists d, In d docs /\ In (base c) (sections d) /\ document c = filename d.
Proof.
  intros Hc. apply score_all_In in Hc as (d & s & Hd & Hs & Hsc).
  apply score_section_Some in Hsc as (_ & _ & ->). simpl. eauto.
Qed.

(** Raising [k] by one runs the same rounds and at most one more. *)
Lemma select_loop_grow f1 : forall f2 k cands final seen r r',
  select_loop f1 k cands final seen = Some r ->
  select_loop f2 (k + 1) cands final seen = Some r' ->
  (Z.of_nat (length final) <= k)%Z ->
  exists tail, r' = r ++ tail /\ (length tail <= 1)%nat.
Proof.
  induction f1 as [|f1 IH]; intros f2 k cands final seen r r' H1 H2 Hlen.
  - simpl in H1.
    destruct (Z.ltb_spec (Z.of_nat (length final)) k) as [Hlt|Hge];
      destruct cands as [|c0 cands]; simpl in H1; try discriminate;
      injection H1 as <-.
    + destruct f2; simpl in H2;
        rewrite andb_false_r in H2; injection H2 as <-;
        exists []; rewrite app_nil_r; auto.
    + destruct f2; simpl in H2;
        rewrite andb_false_r in H2; injection H2 as <-;
        exists []; rewrite app_nil_r; auto.
    + apply select_loop_spec in H2 as (picked & -> & _ & _ & _ & Hl).
      exists picked. split; [reflexivity|].
      rewrite length_app in Hl. lia.
  - simpl in H1.
    destruct (Z.ltb_spec (Z.of_nat (length final)) k) as [Hlt|Hge];
      destruct cands as [|c0 cands]; simpl in H1.
    + injection H1 as <-.
      destruct f2; simpl in H2;
        rewrite andb_false_r in H2; injection H2 as <-;
        exists []; rewrite app_nil_r; auto.
    + destruct f2 as [|f2]; simpl in H2;
        destruct (Z.ltb_spec (Z.of_nat (length final)) (k + 1)) as [_|Hbad];
        try lia; simpl in H2; try discriminate.
      destruct (fst (scan seen (count_documents final) (c0 :: cands))) as [best|].
      * eapply IH; eauto. rewrite length_app. simpl. lia.
      * injection H1 as <-. injection H2 as <-.
        exists []. rewrite app_nil_r. auto.
    + injection H1 as <-.
      destruct f2; simpl in H2;
        rewrite andb_false_r in H2; injection H2 as <-;
        exists []; rewrite app_nil_r; auto.
    + injection H1 as <-.
      apply select_loop_spec in H2 as (picked & -> & _ & _ & _ & Hl).
      exists picked. split; [reflexivity|].
      rewrite length_app in Hl. lia.
Qed.

(** In the first round nothing is penalised. *)
Lemma penalized_score_first_round c :
  (penalized_score (count_documents []) c == final_score c)%Q.
Proof.
  unfold penalized_score, penalty, doc_count, count_documents. simpl.
  rewrite lookup_empty. simpl. unfold DIVERSITY_PENALTY. ring.
Qed.

(** Sums and means of bounded numbers. *)
Lemma Qsum_bounds (a b : Q) l :
  (forall x, In x l -> (a <= x <= b)%Q) ->
  (a * inject_Z (Z.of_nat (length l)) <= Qsum l
   <= b * inject_Z (Z.of_nat (length l)))%Q.
Proof.
  induction l as [|x l IH]; intros H.
  - simpl. split; ring_simplify; apply Qle_refl.
  - destruct (H x (or_introl eq_refl)) as [Hax Hxb].
    destruct IH as [IH1 IH2]; [intros y Hy; apply H; right; exact Hy|].
    change (Qsum (x :: l)) with (x + Qsum l)%Q.
    assert (E : (inject_Z (Z.of_nat (length (x :: l)))
                 == 1 + inject_Z (Z.of_nat (length l)))%Q).
    { simpl length. rewrite Nat2Z.inj_succ. unfold Z.succ.
      rewrite inject_Z_plus. simpl. ring. }
    rewrite E. split; lra.
Qed.

Lemma Qmean_bounds (a b : Q) l :
  l <> [] ->
  (forall x, In x l -> (a <= x <= b)%Q) ->
  (a <= Qmean l <= b)%Q.
Proof.
  intros Hne H. destruct (Qsum_bounds a b l H) as [H1 H2].
  assert (Hpos : (0 < inject_Z (Z.of_nat (length l)))%Q).
  { destruct l; [congruence|]. simpl length.
    change 0%Q with (inject_Z 0). rewrite <- Zlt_Qlt. lia. }
  unfold Qmean. split.
  - apply Qle_shift_div_l; assumption.
  - apply Qle_shift_div_r; assumption.
Qed.

Lemma dict_set_In {V} k (v : V) d x :
  In x (dict_set k v d) -> x = (k, v) \/ In x d.
Proof.
  induction d as [|[k' v'] d IH]; simpl.
  - intros [<-|[]]. auto.
  - destruct (bool_decide (k' = k)); simpl.
    + intros [<-|H]; auto.
    + intros [<-|H]; auto. apply IH in H as [H|H]; auto.
Qed.

Lemma dict_fold_In {V} (pairs : list (string * V)) : forall d x,
  In x (fold_left (fun d kv => dict_set (fst kv) (snd kv) d) pairs d) ->
  In x d \/ In x pairs.
Proof.
  induction pairs as [|[k v] pairs IH]; intros d x; simpl; [auto|].
  intros H. apply IH in H as [H|H]; [|auto].
  apply dict_set_In in H as [->|H]; auto.
Qed.

(** An entry of a dictionary is one of the pairs it was built from. *)
Lemma dict_of_pairs_In {V} (pairs : list (string * V)) x :
  In x (dict_of_pairs pairs) -> In x pairs.
Proof.
  intros H. apply dict_fold_In in H as [[]|H]. exact H.
Qed.

End RankerMore.

Module RankerExtra.
Import Ranker RankerOrder RankerShape RankerFacts RankerMore.

(** The ranker always returns a list.  It has at most [k] entries (none
    when [k] is zero or negative), no two entries share a title, and
    every entry is a section of one of the input documents, labelled
    with that document's file name, whose title does not contain ".pdf"
    and whose combined text has at least ten words. *)
Theorem ranking_is_bounded_distinct_and_drawn_from_input {vec : Type}
    (encode : string -> vec) (cosine_similarity : vec -> vec -> Q)
    (extract_keywords : string -> list (string * Q)) docs req k :
  exists r,
    get_sections_with_content encode cosine_similarity extract_keywords docs req k
    = Some r /\
    (Z.of_nat (length r) <= Z.max k 0)%Z /\
    List.NoDup (List.map title r) /\
    forall c, In c r ->
      PyStr.contains ".pdf" (title c) = false /\
      (10 <= length (PyStr.split (section_text (base c))))%nat /\
      exists d, In d docs /\ In (base c) (sections d) /\ document c = filename d.
Proof.
  unfold get_sections_with_content.
  destruct (diversity_rank_total
              (score_all vec encode cosine_similarity extract_keywords docs req) k)
    as [r Hr].
  exists r. split; [exact Hr|].
  apply diversity_rank_spec in Hr as (Hsub & Hnd & Hlen).
  split; [exact Hlen|]. split; [exact Hnd|].
  intros c Hc. apply Hsub in Hc.
  destruct (scored_passed_filters encode cosine_similarity extract_keywords
              docs req c Hc) as [H1 H2].
  split; [exact H1|]. split; [exact H2|].
  eapply scored_origin. exact Hc.
Qed.

(** Asking for one more result never changes the results already
    returned: the list for [k + 1] is the list for [k], followed by at
    most one more entry. *)
Theorem ranking_for_larger_k_extends_the_ranking {vec : Type}
    (encode : string -> vec) (cosine_similarity : vec -> vec -> Q)
    (extract_keywords : string -> list (string * Q)) docs req k :
  (0 <= k)%Z ->
  exists r tail,
    get_sections_with_content encode cosine_similarity extract_keywords docs req k
    = Some r /\
    get_sections_with_content encode cosine_similarity extract_keywords docs req
      (k + 1) = Some (r ++ tail) /\
    (length tail <= 1)%nat.
Proof.
  intros Hk. unfold get_sections_with_content.
  set (all := score_all vec encode cosine_similarity extract_keywords docs req).
  destruct (diversity_rank_total all k) as [r Hr].
  destruct (diversity_rank_total all (k + 1)) as [r' Hr'].
  exists r. unfold diversity_rank in *.
  destruct all as [|c0 l].
  - injection Hr as <-. injection Hr' as <-. exists []. auto.
  - destruct (select_loop_grow _ _ _ _ _ _ _ _ Hr Hr') as (tail & -> & Ht);
      [simpl; lia|].
    exists tail. auto.
Qed.

Lemma ranking_for_larger_k_extends_the_ranking_witness :
  exists r tail,
    get_sections_with_content Sample.encode Sample.close_cosine Sample.one_theme
      [Sample.guide] Sample.req 2 = Some r /\
    get_sections_with_content Sample.encode Sample.close_cosine Sample.one_theme
      [Sample.guide] Sample.req (2 + 1) = Some (r ++ tail) /\
    (length tail <= 1)%nat.
Proof.
  apply (ranking_for_larger_k_extends_the_ranking Sample.encode
           Sample.close_cosine Sample.one_theme [Sample.guide] Sample.req 2).
  lia.
Defined.

(** With [k >= 1] and at least one candidate scoring above -1, the
    first entry of the ranking is a candidate of highest final score. *)
Theorem first_result_has_the_highest_score {vec : Type}
    (encode : string -> vec) (cosine_similarity : vec -> vec -> Q)
    (extract_keywords : string -> list (string * Q)) docs req k c0 :
  (1 <= k)%Z ->
  In c0 (score_all vec encode cosine_similarity extract_keywords docs req) ->
  (-1 < final_score c0)%Q ->
  exists top rest,
    get_sections_with_content encode cosine_similarity extract_keywords docs req k
    = Some (top :: rest) /\
    forall c,
      In c (score_all vec encode cosine_similarity extract_keywords docs req) ->
      (final_score c <= final_score top)%Q.
Proof.
  intros Hk Hin Hgt. unfold get_sections_with_content.
  set (all := score_all vec encode cosine_similarity extract_keywords docs req) in *.
  destruct (diversity_rank_total all k) as [r Hr]. rewrite Hr.
  unfold diversity_rank in Hr.
  destruct all as [|x l] eqn:Hall; [contradiction|].
  assert (Hx : In x (sorted_desc (x :: l)))
    by (apply sorted_desc_In; left; reflexivity).
  assert (Hin' : In c0 (sorted_desc (x :: l)))
    by (apply sorted_desc_In; exact Hin).
  assert (Hall' : forall c, In c (x :: l) -> In c (sorted_desc (x :: l)))
    by (intros c Hc; apply sorted_desc_In; exact Hc).
  remember (sorted_desc (x :: l)) as cands eqn:Hcands. clear Hcands.
  destruct (Z.to_nat k) as [|fuel] eqn:Hfuel; [lia|].
  simpl select_loop in Hr.
  assert (Hlt : (Z.of_nat 0 <? k)%Z = true) by (apply Z.ltb_lt; simpl; lia).
  destruct cands as [|y cands]; [contradiction|].
  simpl length in Hr. rewrite Hlt in Hr. simpl andb in Hr. cbv iota in Hr.
  destruct (scan_picks_first_maximum ∅ (count_documents [])
              (y :: cands) c0) as (b & l1 & l2 & Hs & _ & _ & Hmax & _).
  - exact Hin'.
  - apply not_elem_of_empty.
  - rewrite penalized_score_first_round. lra.
  - rewrite Hs in Hr.
    apply select_loop_spec in Hr as (picked & -> & _).
    exists b, picked. split; [reflexivity|].
    intros c Hc. rewrite <- !penalized_score_first_round.
    apply Hmax; [apply Hall'; exact Hc|apply not_elem_of_empty].
Qed.

Lemma first_result_has_the_highest_score_witness :
  exists top rest,
    get_sections_with_content Sample.encode Sample.cosine_similarity
      Sample.extract_keywords [Sample.doc_a] Sample.req 5 = Some (top :: rest) /\
    forall c,
      In c (score_all nat Sample.encode Sample.cosine_similarity
              Sample.extract_keywords [Sample.doc_a] Sample.req) ->
      (final_score c <= final_score top)%Q.
Proof.
  apply (first_result_has_the_highest_score Sample.encode
           Sample.cosine_similarity Sample.extract_keywords [Sample.doc_a]
           Sample.req 5
           (Scored (Section_ "Coastal walks" Sample.long_content 1) "a.pdf"
              (8900 # 154000))).
  - lia.
  - vm_compute. left. reflexivity.
  - vm_compute. reflexivity.
Defined.

(** When every cosine similarity lies in [-1, 1] and every theme weight
    in [0, 1], every final score lies in [-1, 1]. *)
Theorem final_score_is_between_minus_one_and_one {vec : Type}
    (encode : string -> vec) (cosine_similarity : vec -> vec -> Q)
    (extract_keywords : string -> list (string * Q)) docs req c :
  (forall a b, (-1 <= cosine_similarity a b <= 1)%Q) ->
  (forall t w, In (t, w) (extract_keywords (combined_text req)) ->
               (0 <= w <= 1)%Q) ->
  In c (score_all vec encode cosine_similarity extract_keywords docs req) ->
  (-1 <= final_score c <= 1)%Q.
Proof.
  intros Hcos Hw Hc.
  apply score_all_In in Hc as (d & s & _ & _ & Hs).
  apply score_section_Some in Hs as (_ & _ & ->). simpl.
  rewrite (thematic_score_of_reference vec encode cosine_similarity
             extract_keywords _ _
             (_extract_dynamic_themes_NoDup extract_keywords (combined_text req))).
  set (se := encode (section_text s)).
  set (themes := _extract_dynamic_themes extract_keywords (combined_text req)).
  assert (Ht : (-1 <= Reference.thematic_score encode cosine_similarity themes se
                <= 1)%Q).
  { unfold Reference.thematic_score. destruct themes as [|tw themes'] eqn:E.
    - split; lra.
    - rewrite <- E. apply Qmean_bounds.
      + rewrite E. discriminate.
      + intros x Hx. apply in_map_iff in Hx as ([t w] & <- & Htw). simpl.
        assert (Hin : In (t, w) (extract_keywords (combined_text req))).
        { subst themes. unfold _extract_dynamic_themes in Htw.
          destruct (extract_keywords (combined_text req)) as [|p ps] eqn:Ek;
            [contradiction|].
          apply dict_of_pairs_In. exact Htw. }
        specialize (Hw t w Hin). specialize (Hcos se (encode t)).
        split; nra. }
  specialize (Hcos se (embedding req)). split; lra.
Qed.

Lemma final_score_is_between_minus_one_and_one_witness :
  (-1 <= final_score (Scored (Section_ "Coastal walks" Sample.long_content 1)
                        "a.pdf" (8900 # 154000)) <= 1)%Q.
Proof.
  apply (final_score_is_between_minus_one_and_one Sample.encode
           Sample.cosine_similarity Sample.extract_keywords [Sample.doc_a]
           Sample.req).
  - intros a b. unfold Sample.cosine_similarity.
    unfold Qle. simpl. split; lia.
  - intros t w Hin. vm_compute in Hin. destruct Hin as [[= _ <-]|[]].
    split; vm_compute; discriminate.
  - vm_compute. left. reflexivity.
Defined.

(** The sections the filters reject have no influence on the ranking:
    removing them from the input documents beforehand gives the same
    result, for every model and every [k]. *)
Theorem rejected_sections_do_not_influence_the_ranking {vec : Type}
    (encode : string -> vec) (cosine_similarity : vec -> vec -> Q)
    (extract_keywords : string -> list (string * Q)) docs req k :
  get_sections_with_content encode cosine_similarity extract_keywords
    (List.map keep_accepted docs) req k
  = get_sections_with_content encode cosine_similarity extract_keywords docs req k.
Proof.
  unfold get_sections_with_content. f_equal. unfold score_all.
  induction docs as [|d docs IH]; [reflexivity|].
  simpl. rewrite IH. f_equal. clear IH.
  induction (sections d) as [|s l IHl]; [reflexivity|].
  simpl. destruct (accepted s) eqn:E.
  - simpl. rewrite IHl. reflexivity.
  - rewrite IHl.
    replace (score_section vec encode cosine_similarity req _ _ d s)
      with (@None scored); [reflexivity|].
    unfold score_section. unfold accepted in E.
    destruct (PyStr.contains ".pdf" (section_title s)); [reflexivity|].
    cbn [negb andb] in E. apply Nat.leb_gt in E.
    cbv zeta. apply Nat.ltb_lt in E. rewrite E. reflexivity.
Qed.

End RankerExtra.

(* ===================================================================== *)
(** ** Python strings: stripping and splitting *)
(* ===================================================================== *)

Module PyStrFacts.
Import SegmenterRun.

Lemma lstrip_headed_id s : headed s -> PyStr.lstrip s = s.
Proof. destruct s as [|c s]; simpl; [auto|]. intros ->. reflexivity. Qed.

Lemma rstrip_idem s : PyStr.rstrip (PyStr.rstrip s) = PyStr.rstrip s.
Proof.
  induction s as [|c s IH]; [reflexivity|].
  simpl. destruct (PyStr.rstrip s) as [|a r] eqn:E.
  - destruct (PyStr.isspace c) eqn:Ec; [reflexivity|].
    simpl. rewrite Ec. reflexivity.
  - change (PyStr.rstrip (String c (String a r)))
      with (match PyStr.rstrip (String a r) with
            | EmptyString =>
                if PyStr.isspace c then EmptyString else String c EmptyString
            | String x y => String c (String x y)
            end).
    rewrite IH. reflexivity.
Qed.

(** [s.strip().strip() == s.strip()] *)
Lemma strip_idem s : PyStr.strip (PyStr.strip s) = PyStr.strip s.
Proof.
  unfold PyStr.strip at 1.
  rewrite (lstrip_headed_id (PyStr.strip s)) by apply SegmenterFacts.strip_headed.
  unfold PyStr.strip. apply rstrip_idem.
Qed.

Lemma cat_cons x a b : PyStr.cat (String x a) b = String x (PyStr.cat a b).
Proof. reflexivity. Qed.

Lemma cat_empty_l a : PyStr.cat EmptyString a = a.
Proof. reflexivity. Qed.

Lemma cat_assoc a b c : PyStr.cat (PyStr.cat a b) c = PyStr.cat a (PyStr.cat b c).
Proof.
  induction a as [|x a IH]; [reflexivity|].
  rewrite !cat_cons, IH. reflexivity.
Qed.

Lemma cat_empty_r a : PyStr.cat a EmptyString = a.
Proof.
  induction a as [|x a IH]; [reflexivity|].
  rewrite cat_cons, IH. reflexivity.
Qed.

(** Splitting across a white-space character. *)
Lemma split_go_space cur s c t :
  PyStr.isspace c = true ->
  PyStr.split_go cur (PyStr.cat s (String c t))
  = PyStr.split_go cur s ++ PyStr.split_go EmptyString t.
Proof.
  intros Hc. revert cur. induction s as [|a s IH]; intros cur.
  - rewrite cat_empty_l. simpl. rewrite Hc. destruct cur; reflexivity.
  - rewrite cat_cons. simpl. destruct (PyStr.isspace a).
    + destruct cur; rewrite IH; reflexivity.
    + apply IH.
Qed.

Lemma split_lstrip s :
  PyStr.split_go EmptyString (PyStr.lstrip s) = PyStr.split_go EmptyString s.
Proof.
  induction s as [|c s IH]; [reflexivity|].
  simpl. destruct (PyStr.isspace c) eqn:E; [exact IH|].
  simpl. rewrite E. reflexivity.
Qed.

Lemma split_rstrip s : forall cur,
  PyStr.split_go cur (PyStr.rstrip s) = PyStr.split_go cur s.
Proof.
  induction s as [|c s IH]; intros cur; [reflexivity|].
  simpl. destruct (PyStr.rstrip s) as [|a r] eqn:E.
  - destruct (PyStr.isspace c) eqn:Ec.
    + rewrite <- (IH EmptyString). destruct cur; reflexivity.
    + simpl. rewrite Ec. apply IH.
  - simpl PyStr.split_go at 1. destruct (PyStr.isspace c).
    + destruct cur; rewrite <- IH; reflexivity.
    + apply IH.
Qed.

(** [s.strip().split() == s.split()] *)
Lemma split_strip s : PyStr.split (PyStr.strip s) = PyStr.split s.
Proof.
  unfold PyStr.split, PyStr.strip. rewrite split_rstrip. apply split_lstrip.
Qed.

(** [(a + " ").split() == a.split()] *)
Lemma split_trailing_space a : PyStr.split (PyStr.cat a " ") = PyStr.split a.
Proof.
  unfold PyStr.split. rewrite split_go_space by reflexivity.
  simpl. apply app_nil_r.
Qed.

(** [(a + " " + t).split() == a.split() + t.split()] *)
Lemma split_after_space a t :
  PyStr.split (PyStr.cat (PyStr.cat a " ") t) = PyStr.split a ++ PyStr.split t.
Proof.
  rewrite cat_assoc. unfold PyStr.split.
  change (PyStr.cat " " t) with (String " " t).
  apply split_go_space. reflexivity.
Qed.

End PyStrFacts.

(* ===================================================================== *)
(** ** Segmenter: further properties of [extract_text_with_structure] *)
(* ===================================================================== *)

Module SegmenterMore.
Import Segmenter SegmenterRun SegmenterShape SegmenterFacts PyStrFacts.

(** *** Shape of the sections *)

Lemma flush_shaped st : shaped st -> Forall well_formed (flush st).
Proof.
  intros (Hsec & Hh & Ht & Hne & Hp). unfold flush.
  destruct (PyStr.truthy (PyStr.strip (current_section_content st))) eqn:E;
    [|exact Hsec].
  apply Forall_app. split; [exact Hsec|]. constructor; [|constructor].
  rewrite strip_truthy_headed in E by exact Hh.
  apply truthy_neq in E. destruct (Ht E) as [t Et].
  unfold well_formed. simpl. repeat split.
  - exists t. split; [exact Et|]. apply Hne. exact Et.
  - apply truthy_neq. rewrite strip_truthy_headed by exact Hh.
    apply truthy_neq. exact E.
  - apply strip_idem.
  - exact Hp.
Qed.

Lemma process_line_shaped thr n st l :
  (1 <= n)%nat -> shaped st -> shaped (process_line thr n st l).
Proof.
  intros Hn Hst.
  destruct (chars l) as [|c cs] eqn:Hc.
  { rewrite process_line_skip by auto. exact Hst. }
  destruct (PyStr.strip (text l)) as [|a r] eqn:Hs.
  { rewrite process_line_skip by auto. exact Hst. }
  assert (Hne : PyStr.strip (text l) <> EmptyString) by (rewrite Hs; discriminate).
  destruct Hst as (Hsec & Hh & Htitle & Hnonempty & Hp).
  assert (Hseed : exists t, seeded st (PyStr.strip (text l)) = Some t /\ t <> EmptyString).
  { unfold seeded. destruct (current_section_title st) as [t|] eqn:Et.
    - exists t. split; [reflexivity|]. apply Hnonempty. reflexivity.
    - eexists. split; [reflexivity|exact Hne]. }
  destruct Hseed as (t & Hseed & Ht).
  destruct (is_title thr c (PyStr.strip (text l))) eqn:Hi.
  - rewrite (process_line_title thr n st l c cs Hc Hne Hi).
    unfold shaped. simpl. repeat split; auto.
    + apply flush_shaped. unfold shaped. simpl. repeat split; auto.
      * intros _. eauto.
      * intros t' Et'. rewrite Hseed in Et'. injection Et' as <-. exact Ht.
    + congruence.
    + intros t' [= <-]. exact Hne.
  - rewrite (process_line_body thr n st l c cs Hc Hne Hi).
    unfold shaped. simpl. repeat split; auto.
    + pose proof (process_line_headed thr n st l Hh) as H.
      rewrite (process_line_body thr n st l c cs Hc Hne Hi) in H. exact H.
    + intros _. eauto.
    + intros t' Et'. rewrite Hseed in Et'. injection Et' as <-. exact Ht.
Qed.

Lemma fold_shaped thr n ls : forall st,
  (1 <= n)%nat -> shaped st -> shaped (fold_left (process_line thr n) ls st).
Proof.
  induction ls as [|l ls IH]; intros st Hn Hst; simpl; [exact Hst|].
  apply IH; [exact Hn|]. apply process_line_shaped; assumption.
Qed.

Lemma process_pages_shaped thr pages : forall n st,
  (1 <= n)%nat -> shaped st ->
  match process_pages thr n st pages with
  | inl st' => shaped st'
  | inr (secs, _) => Forall well_formed secs
  end.
Proof.
  induction pages as [|p pages IH]; intros n st Hn Hst; simpl; [exact Hst|].
  destruct (extract_text_lines p) as [ls|e].
  - apply IH; [lia|]. apply fold_shaped; assumption.
  - apply Hst.
Qed.

Lemma shaped_init : shaped (State [] None EmptyString 1).
Proof.
  unfold shaped. simpl. repeat split; auto; congruence.
Qed.

(** *** The page and line loops keep an invariant *)

(** [I thr n done st]: the state [st] after the lines [done], while page
    [n] is being read. *)
Section Loop.
Variable I : Q -> nat -> list line -> state -> Prop.
Hypothesis I_mono : forall thr n m done st,
  (n <= m)%nat -> I thr n done st -> I thr m done st.
Hypothesis I_step : forall thr n done st l,
  (1 <= n)%nat -> I thr n done st ->
  I thr n (done ++ [l]) (process_line thr n st l).

Lemma loop_lines thr n ls : forall done st,
  (1 <= n)%nat -> I thr n done st ->
  I thr n (done ++ ls) (fold_left (process_line thr n) ls st).
Proof.
  induction ls as [|l ls IH]; intros done st Hn Hst; simpl.
  - rewrite app_nil_r. exact Hst.
  - replace (done ++ l :: ls) with ((done ++ [l]) ++ ls)
      by (rewrite <- app_assoc; reflexivity).
    apply IH; [exact Hn|]. apply I_step; assumption.
Qed.

Lemma loop_pages thr pages : forall n done st,
  (1 <= n)%nat -> I thr (Nat.max 1 (n - 1)) done st ->
  match process_pages thr n st pages with
  | inl st' =>
      I thr (Nat.max 1 (n - 1 + length pages))
        (done ++ flat_map lines_of pages) st'
  | inr (secs, _) =>
      exists st' read more,
        flat_map lines_of pages = read ++ more /\
        I thr (Nat.max 1 (n - 1 + length pages)) (done ++ read) st' /\
        secs = st_sections st'
  end.
Proof.
  induction pages as [|p pages IH]; intros n done st Hn Hst.
  - simpl. rewrite app_nil_r, Nat.add_0_r. exact Hst.
  - simpl process_pages. simpl flat_map. unfold lines_of at 1 3.
    destruct (extract_text_lines p) as [ls|e].
    + assert (Hst' : I thr (Nat.max 1 (S n - 1)) (done ++ ls)
                       (fold_left (process_line thr n) ls st)).
      { replace (Nat.max 1 (S n - 1)) with n by lia.
        apply loop_lines; [exact Hn|].
        apply (I_mono thr (Nat.max 1 (n - 1))); [lia|exact Hst]. }
      specialize (IH (S n) (done ++ ls) _ ltac:(lia) Hst').
      replace (Nat.max 1 (S n - 1 + length pages))
        with (Nat.max 1 (n - 1 + length (p :: pages))) in IH
        by (simpl length; lia).
      destruct (process_pages thr (S n) _ pages) as [st'|[secs e]].
      * rewrite app_assoc. exact IH.
      * destruct IH as (st' & read & more & Hsplit & Hi & Hsecs).
        exists st', (ls ++ read), more. repeat split.
        -- rewrite Hsplit. apply app_assoc.
        -- rewrite app_assoc. exact Hi.
        -- exact Hsecs.
    + exists st, [], (flat_map lines_of pages). repeat split.
      rewrite app_nil_r.
      apply (I_mono thr (Nat.max 1 (n - 1))); [lia|exact Hst].
Qed.

(** The three ways [extract_text_with_structure] ends on a document
    that opens. *)
Lemma extract_inv file_path pages :
  (forall thr, I thr 1 [] (State [] None EmptyString 1)) ->
  let secs := sections (extract_text_with_structure (Ok pages) file_path) in
  (pages = [] /\ secs = []) \/
  (pages <> [] /\ exists e, secs = [error_section file_path e]) \/
  (exists first rest m st' read more,
      pages = first :: rest /\
      _get_median_font_size first = Ok m /\
      flat_map lines_of pages = read ++ more /\
      I (m * 1.15)%Q (length pages) read st' /\
      ((secs = flush st' /\ more = []) \/
       (secs = st_sections st' /\ secs <> []))).
Proof.
  intros Hinit secs. subst secs.
  destruct pages as [|first rest]; [left; split; reflexivity|].
  right. unfold extract_text_with_structure.
  destruct (_get_median_font_size first) as [m|e] eqn:Hm.
  2:{ left. split; [discriminate|]. exists e. reflexivity. }
  pose proof (loop_pages (m * 1.15)%Q (first :: rest) 1 [] _
                ltac:(lia) (Hinit _)) as H.
  replace (Nat.max 1 (1 - 1 + length (first :: rest)))
    with (length (first :: rest)) in H by (simpl length; lia).
  destruct (process_pages (m * 1.15)%Q 1 _ (first :: rest)) as [st'|[secs e]].
  - right. exists first, rest, m, st', (flat_map lines_of (first :: rest)), [].
    split; [reflexivity|]. split; [exact Hm|].
    split; [rewrite app_nil_r; reflexivity|]. split; [exact H|].
    left. split; reflexivity.
  - destruct H as (st' & read & more & Hsplit & Hi & Hsecs).
    destruct secs as [|s0 secs'].
    + left. split; [discriminate|]. exists e. reflexivity.
    + right. exists first, rest, m, st', read, more.
      split; [reflexivity|]. split; [exact Hm|].
      split; [exact Hsplit|]. split; [exact Hi|].
      right. simpl. split; [exact Hsecs|discriminate].
Qed.

End Loop.

(** *** Page numbers *)

Lemma StronglySorted_snoc (l : list nat) x :
  StronglySorted le l -> Forall (fun y => y <= x)%nat l ->
  StronglySorted le (l ++ [x]).
Proof.
  induction l as [|a l IH]; intros Hs Hall; simpl.
  - constructor; constructor.
  - inversion Hs; subst. inversion Hall; subst.
    constructor; [apply IH; assumption|].
    apply Forall_app. split; [assumption|]. constructor; [assumption|constructor].
Qed.

Lemma flush_paged n secs t c p :
  paged n (State secs t c p) ->
  StronglySorted le (List.map page_number (flush (State secs t c p))) /\
  Forall (fun s => 1 <= page_number s <= p)%nat (flush (State secs t c p)).
Proof.
  intros (Hs & Hall & Hp). simpl in *. unfold flush. simpl.
  destruct (PyStr.truthy (PyStr.strip c)); [|split; assumption].
  split.
  - rewrite List.map_app. simpl. apply StronglySorted_snoc; [exact Hs|].
    apply List.Forall_forall. intros y Hy. apply in_map_iff in Hy.
    destruct Hy as (s & <- & Hin).
    rewrite List.Forall_forall in Hall. apply Hall in Hin. lia.
  - apply Forall_app. split; [exact Hall|].
    constructor; [simpl; lia|constructor].
Qed.

Lemma process_line_paged thr n st l :
  (1 <= n)%nat -> paged n st -> paged n (process_line thr n st l).
Proof.
  intros Hn Hst.
  destruct (chars l) as [|c cs] eqn:Hc.
  { rewrite process_line_skip by auto. exact Hst. }
  destruct (PyStr.strip (text l)) as [|a r] eqn:Hs.
  { rewrite process_line_skip by auto. exact Hst. }
  assert (Hne : PyStr.strip (text l) <> EmptyString) by (rewrite Hs; discriminate).
  destruct (is_title thr c (PyStr.strip (text l))) eqn:Hi.
  - rewrite (process_line_title thr n st l c cs Hc Hne Hi).
    destruct st as [secs t cont p].
    destruct (flush_paged n secs (seeded (State secs t cont p) (PyStr.strip (text l)))
                cont p Hst) as [H1 H2].
    destruct Hst as (_ & _ & Hp). simpl in Hp.
    unfold paged. simpl. repeat split; auto; try lia.
    eapply List.Forall_impl; [|exact H2]. simpl. intros s Hs'. lia.
  - rewrite (process_line_body thr n st l c cs Hc Hne Hi). exact Hst.
Qed.

(** *** Sections and title lines *)

Lemma titled_more thr done more o :
  titled thr done o -> titled thr (done ++ more) o.
Proof.
  intros (l & Hin & Ht & Ho). exists l. repeat split; auto.
  apply in_or_app. left. exact Hin.
Qed.

Lemma tail_snoc {A} (l : list A) x : l <> [] -> tail (l ++ [x]) = tail l ++ [x].
Proof. destruct l; [congruence|reflexivity]. Qed.

Lemma flush_follows thr done secs t c p :
  follows thr done (State secs t c p) ->
  (length (flush (State secs t c p))
   <= S (length (List.filter (title_line thr) done)))%nat /\
  Forall (fun s => titled thr done (section_title s))
         (tail (flush (State secs t c p))).
Proof.
  intros (Hlen & Hall & Hcur). simpl in *. unfold flush. simpl.
  destruct (PyStr.truthy (PyStr.strip c)); [|split; [lia|exact Hall]].
  split; [rewrite length_app; simpl; lia|].
  destruct secs as [|s0 secs]; [constructor|].
  rewrite tail_snoc by discriminate.
  apply Forall_app. split; [exact Hall|].
  constructor; [|constructor]. simpl. apply Hcur. discriminate.
Qed.

Lemma title_line_processed thr l :
  title_line thr l = true ->
  exists c cs, chars l = c :: cs /\ PyStr.strip (text l) <> EmptyString /\
               is_title thr c (PyStr.strip (text l)) = true.
Proof.
  unfold title_line. destruct (chars l) as [|c cs]; [discriminate|].
  intros H. exists c, cs. repeat split; auto.
  intros E. rewrite E in H. unfold is_title, is_short_line in H.
  simpl in H. rewrite andb_false_r in H. discriminate.
Qed.

Lemma filter_snoc_length {A} (f : A -> bool) l x :
  (length (List.filter f l) <= length (List.filter f (l ++ [x])))%nat.
Proof. rewrite List.filter_app, length_app. lia. Qed.

Lemma process_line_follows thr n done st l :
  follows thr done st -> follows thr (done ++ [l]) (process_line thr n st l).
Proof.
  intros Hst.
  assert (Hweak : follows thr (done ++ [l]) st).
  { destruct Hst as (Hlen & Hall & Hcur). repeat split.
    - pose proof (filter_snoc_length (title_line thr) done l). lia.
    - eapply List.Forall_impl; [|exact Hall]. intros s. apply titled_more.
    - intros H. apply titled_more. auto. }
  destruct (chars l) as [|c cs] eqn:Hc.
  { rewrite process_line_skip by auto. exact Hweak. }
  destruct (PyStr.strip (text l)) as [|a r] eqn:Hs.
  { rewrite process_line_skip by auto. exact Hweak. }
  assert (Hne : PyStr.strip (text l) <> EmptyString) by (rewrite Hs; discriminate).
  destruct (is_title thr c (PyStr.strip (text l))) eqn:Hi.
  - rewrite (process_line_title thr n st l c cs Hc Hne Hi).
    assert (Htl : title_line thr l = true).
    { unfold title_line. rewrite Hc. exact Hi. }
    destruct st as [secs t cont p].
    assert (Hst1 : follows thr done
              (State secs (seeded (State secs t cont p) (PyStr.strip (text l)))
                 cont p)).
    { destruct Hst as (Hlen & Hall & Hcur). repeat split; auto.
      simpl. intros H. specialize (Hcur H). simpl in Hcur.
      destruct Hcur as (l0 & ? & ? & ->). unfold seeded. simpl.
      exists l0. auto. }
    destruct (flush_follows _ _ _ _ _ _ Hst1) as [H1 H2].
    unfold follows. simpl. repeat split.
    + rewrite List.filter_app, length_app. simpl. rewrite Htl. simpl. lia.
    + eapply List.Forall_impl; [|exact H2]. intros s. apply titled_more.
    + intros _. exists l. repeat split; auto. apply in_or_app. right. left.
      reflexivity.
  - rewrite (process_line_body thr n st l c cs Hc Hne Hi).
    destruct Hweak as (Hlen & Hall & Hcur). repeat split; auto.
    simpl. intros H. specialize (Hcur H).
    destruct Hcur as (l0 & ? & ? & E). unfold seeded. rewrite E.
    exists l0. auto.
Qed.

(** *** The words of the body text *)

Lemma words_of_flush st :
  words_of (flush st)
  = words_of (st_sections st) ++ PyStr.split (current_section_content st).
Proof.
  unfold flush, words_of.
  destruct (PyStr.truthy (PyStr.strip (current_section_content st))) eqn:E.
  - rewrite flat_map_app. simpl. rewrite app_nil_r, split_strip. reflexivity.
  - rewrite <- (split_strip (current_section_content st)).
    destruct (PyStr.strip (current_section_content st)); [|discriminate].
    simpl. rewrite app_nil_r. reflexivity.
Qed.

Lemma split_spaced c t :
  spaced c ->
  PyStr.split (PyStr.cat c (PyStr.cat t " ")) = PyStr.split c ++ PyStr.split t.
Proof.
  intros [->|[a ->]].
  - rewrite cat_empty_l. apply split_trailing_space.
  - rewrite split_after_space, !split_trailing_space. reflexivity.
Qed.

Lemma process_line_conserved thr n done st l :
  conserved thr done st ->
  conserved thr (done ++ [l]) (process_line thr n st l).
Proof.
  intros [Hsp Hw]. unfold conserved.
  rewrite flat_map_app. simpl flat_map. rewrite app_nil_r.
  unfold body_words.
  destruct (chars l) as [|c cs] eqn:Hc.
  { rewrite process_line_skip by auto. rewrite app_nil_r. auto. }
  destruct (PyStr.strip (text l)) as [|a r] eqn:Hs.
  { rewrite process_line_skip by auto.
    destruct (is_title thr c EmptyString); rewrite app_nil_r; auto. }
  assert (Hne : PyStr.strip (text l) <> EmptyString) by (rewrite Hs; discriminate).
  rewrite <- Hs.
  destruct (is_title thr c (PyStr.strip (text l))) eqn:Hi.
  - rewrite (process_line_title thr n st l c cs Hc Hne Hi). simpl.
    split; [left; reflexivity|].
    rewrite words_of_flush. simpl. rewrite !app_nil_r. exact Hw.
  - rewrite (process_line_body thr n st l c cs Hc Hne Hi). simpl.
    split.
    + right. exists (PyStr.cat (current_section_content st)
                               (PyStr.strip (text l))).
      rewrite cat_assoc. reflexivity.
    + rewrite split_spaced by exact Hsp. rewrite app_assoc, Hw. reflexivity.
Qed.

(** *** The file name *)

Lemma occurs_cat c a b :
  occurs c (PyStr.cat a b) <-> occurs c a \/ occurs c b.
Proof.
  induction a as [|x a IH].
  - rewrite cat_empty_l. simpl. tauto.
  - rewrite cat_cons. simpl. rewrite IH. tauto.
Qed.

Lemma last_field_suffix sep s : forall acc,
  exists prefix,
    PyStr.cat acc s = PyStr.cat prefix (last_field sep acc s).
Proof.
  induction s as [|c s IH]; intros acc; simpl.
  - exists EmptyString. rewrite cat_empty_r. reflexivity.
  - destruct (bool_decide (c = sep)).
    + destruct (IH EmptyString) as [p Hp]. rewrite cat_empty_l in Hp.
      exists (PyStr.cat acc (String c p)).
      rewrite cat_assoc, cat_cons, <- Hp. reflexivity.
    + destruct (IH (PyStr.cat acc (String c EmptyString))) as [p Hp].
      exists p. rewrite <- Hp, cat_assoc. reflexivity.
Qed.

Lemma last_field_occurs c sep s : forall acc,
  occurs c (last_field sep acc s) -> occurs c acc \/ (c <> sep /\ occurs c s).
Proof.
  induction s as [|x s IH]; intros acc; simpl; [auto|].
  destruct (bool_decide (x = sep)) eqn:E.
  - intros H. apply IH in H. simpl in H. right. destruct H as [[]|[? ?]]. auto.
  - apply bool_decide_eq_false in E. intros H. apply IH in H.
    destruct H as [H|[? ?]]; [|auto].
    apply occurs_cat in H. simpl in H.
    destruct H as [H|[H|[]]]; [auto|]. right. split; [congruence|auto].
Qed.

(** [s.split(sep)[-1]] is [s] when [sep] does not occur in it, and
    otherwise what follows the last [sep]. *)
Lemma last_field_cut sep s : forall acc,
  (~ occurs sep s /\ last_field sep acc s = PyStr.cat acc s) \/
  (exists p,
      s = PyStr.cat p (String sep (last_field sep acc s)) /\
      ~ occurs sep (last_field sep acc s)).
Proof.
  induction s as [|c s IH]; intros acc.
  - left. split; [intros []|]. simpl. rewrite cat_empty_r. reflexivity.
  - simpl. destruct (bool_decide (c = sep)) eqn:E.
    + apply bool_decide_eq_true in E. subst c. right.
      destruct (IH EmptyString) as [[Hno Heq]|(p & Hp & Hno)].
      * rewrite cat_empty_l in Heq. exists EmptyString.
        rewrite Heq, cat_empty_l. auto.
      * exists (String sep p). rewrite cat_cons, <- Hp. auto.
    + apply bool_decide_eq_false in E.
      destruct (IH (PyStr.cat acc (String c EmptyString)))
        as [[Hno Heq]|(p & Hp & Hno)].
      * left. split; [intros [H|H]; auto|].
        rewrite Heq, cat_assoc. reflexivity.
      * right. exists (String c p). rewrite cat_cons, <- Hp. auto.
Qed.

Lemma cat_snoc p c r :
  PyStr.cat p (String c r) = PyStr.cat (PyStr.cat p (String c EmptyString)) r.
Proof. rewrite cat_assoc. reflexivity. Qed.

End SegmenterMore.

Module SegmenterExtra.
Import Segmenter SegmenterRun SegmenterShape SegmenterFacts PyStrFacts SegmenterMore.

(** Every section the segmenter returns is either the error section of
    the [except] handler or a section with a non-empty title, a
    non-empty content without leading or trailing white space, and a
    page number of at least 1: an empty or blank section is never
    emitted, whatever the document and whatever fails while reading
    it. *)
Theorem sections_are_titled_and_trimmed :
  forall (opened : result (list page)) (file_path : string),
    Forall (fun s => well_formed s \/ exists e, s = error_section file_path e)
           (sections (extract_text_with_structure opened file_path)).
Proof.
  intros [pages|e] file_path.
  2:{ constructor; [|constructor]. right. exists e. reflexivity. }
  destruct (extract_inv (fun _ _ _ st => shaped st)
              ltac:(auto)
              ltac:(intros; apply process_line_shaped; assumption)
              file_path pages ltac:(intros; apply shaped_init))
    as [[_ ->]|[(_ & e & ->)|H]].
  - constructor.
  - constructor; [|constructor]. right. exists e. reflexivity.
  - destruct H as (first & rest & m & st' & read & more & _ & _ & _ & Hst & Hs).
    assert (Hwf : Forall well_formed
              (sections (extract_text_with_structure (Ok pages) file_path))).
    { destruct Hs as [[-> _]|[-> _]].
      - apply flush_shaped. exact Hst.
      - apply Hst. }
    eapply List.Forall_impl; [|exact Hwf]. intros s. auto.
Qed.

(** The sections of a document come out in non-decreasing order of
    page number, and every page number lies between 1 and the number
    of pages of the document. *)
Theorem section_pages_are_ordered_and_in_range :
  forall (pages : list page) (file_path : string),
    let secs := sections (extract_text_with_structure (Ok pages) file_path) in
    StronglySorted le (List.map page_number secs) /\
    Forall (fun s => 1 <= page_number s <= length pages)%nat secs.
Proof.
  intros pages file_path secs. subst secs.
  destruct (extract_inv (fun _ n _ st => paged n st)
              ltac:(intros thr n m done st Hnm (H1 & H2 & H3);
                    repeat split; auto; lia)
              ltac:(intros; apply process_line_paged; assumption)
              file_path pages
              ltac:(intros; repeat split; simpl; auto; constructor))
    as [[_ ->]|[(Hne & e & ->)|H]].
  - split; constructor.
  - split; [repeat constructor|].
    constructor; [|constructor]. simpl.
    destruct pages; [congruence|simpl; lia].
  - destruct H as (first & rest & m & st' & read & more & _ & _ & _ & Hst & Hs).
    destruct Hs as [[-> _]|[-> _]].
    + destruct st' as [secs t c p].
      destruct (flush_paged _ _ _ _ _ Hst) as [H1 H2].
      split; [exact H1|].
      destruct Hst as (_ & _ & Hp). simpl in Hp.
      eapply List.Forall_impl; [|exact H2]. simpl. intros s ?. lia.
    + destruct Hst as (H1 & H2 & H3). split; [exact H1|].
      eapply List.Forall_impl; [|exact H2]. simpl. intros s ?. lia.
Qed.

(** The file name recorded for a document is the part of the path
    after its last slash or backslash: the path is the name preceded by
    nothing or by a prefix that ends with a slash or a backslash, and
    the name contains neither separator. *)
Theorem filename_is_the_last_path_component :
  forall (opened : result (list page)) (file_path : string),
    let name := filename (extract_text_with_structure opened file_path) in
    (exists prefix,
        file_path = PyStr.cat prefix name /\
        (prefix = EmptyString \/
         exists p, prefix = PyStr.cat p "/" \/ prefix = PyStr.cat p "\")) /\
    ~ occurs "/" name /\ ~ occurs "\" name.
Proof.
  intros opened file_path name.
  assert (E : name = doc_filename_of file_path).
  { subst name. unfold extract_text_with_structure.
    destruct opened as [[|first rest]|e]; try reflexivity.
    destruct (_get_median_font_size first); [|reflexivity].
    destruct (process_pages _ _ _ _) as [?|[? ?]]; reflexivity. }
  rewrite E. clear E name. unfold doc_filename_of.
  destruct (last_field_cut "\" file_path EmptyString)
    as [[Hno1 Heq1]|(p1 & Hp1 & Hno1)].
  - rewrite cat_empty_l in Heq1. rewrite Heq1.
    destruct (last_field_cut "/" file_path EmptyString)
      as [[Hno2 Heq2]|(p2 & Hp2 & Hno2)].
    + rewrite cat_empty_l in Heq2. rewrite Heq2.
      split; [exists EmptyString; auto|]. auto.
    + split; [|split; [exact Hno2|]].
      * exists (PyStr.cat p2 "/"). split; [|right; exists p2; auto].
        rewrite <- cat_snoc. exact Hp2.
      * intros H. apply Hno1. rewrite Hp2. apply occurs_cat. right. right.
        exact H.
  - set (r1 := last_field "\" EmptyString file_path) in *.
    destruct (last_field_cut "/" r1 EmptyString)
      as [[Hno2 Heq2]|(p2 & Hp2 & Hno2)].
    + rewrite cat_empty_l in Heq2. rewrite Heq2.
      split; [|split; [exact Hno2|exact Hno1]].
      exists (PyStr.cat p1 "\"). split; [|right; exists p1; auto].
      rewrite <- cat_snoc. exact Hp1.
    + split; [|split; [exact Hno2|]].
      * exists (PyStr.cat (PyStr.cat p1 (String "\" p2)) "/").
        split; [|right; eexists; left; reflexivity].
        rewrite <- cat_snoc, cat_assoc, cat_cons, <- Hp2. exact Hp1.
      * intros H. apply Hno1. rewrite Hp2. apply occurs_cat. right. right.
        exact H.
Qed.

(** A document yields at most one section more than it has title
    lines, and every section after the first one is headed by the text
    of one of its title lines. *)
Theorem sections_follow_the_title_lines :
  forall (first : page) (rest : list page) (file_path : string) (m : Q),
    _get_median_font_size first = Ok m ->
    let thr := (m * 1.15)%Q in
    let lines := flat_map lines_of (first :: rest) in
    let secs :=
      sections (extract_text_with_structure (Ok (first :: rest)) file_path) in
    (length secs <= S (length (List.filter (title_line thr) lines)))%nat /\
    Forall (fun s => titled thr lines (section_title s)) (tail secs).
Proof.
  intros first rest file_path m Hm thr lines secs. subst thr lines secs.
  destruct (extract_inv (fun thr _ => follows thr)
              ltac:(intros thr n m' done st _ H; exact H)
              ltac:(intros; apply process_line_follows; assumption)
              file_path (first :: rest)
              ltac:(intros; repeat split; simpl; auto; congruence))
    as [[? _]|[(_ & e & ->)|H]]; [discriminate| |].
  - simpl. split; [lia|constructor].
  - destruct H as (f & r & m' & st' & read & more & E & Hm' & Hsplit & Hst & Hs).
    injection E as <- <-. rewrite Hm in Hm'. injection Hm' as <-.
    rewrite Hsplit.
    assert (Hcount : (length (List.filter (title_line (m * 1.15)%Q) read)
                      <= length (List.filter (title_line (m * 1.15)%Q)
                                   (read ++ more)))%nat).
    { rewrite List.filter_app, length_app. lia. }
    destruct Hs as [[-> _]|[-> _]].
    + destruct st' as [secs t c p].
      destruct (flush_follows _ _ _ _ _ _ Hst) as [H1 H2]. split; [lia|].
      eapply List.Forall_impl; [|exact H2]. intros s. apply titled_more.
    + destruct Hst as (H1 & H2 & _). split; [lia|].
      eapply List.Forall_impl; [|exact H2]. intros s. apply titled_more.
Qed.

Lemma sections_follow_the_title_lines_witness :
  let pages := [Sample.page1; Sample.page2_fine] in
  let secs := sections (extract_text_with_structure (Ok pages) "docs/guide.pdf") in
  _get_median_font_size Sample.page1 = Ok 10%Q /\
  (length secs
   <= S (length (List.filter (title_line (10 * 1.15)%Q)
                   (flat_map lines_of pages))))%nat /\
  Forall (fun s => titled (10 * 1.15)%Q (flat_map lines_of pages)
                     (section_title s)) (tail secs).
Proof.
  split; [reflexivity|].
  apply (sections_follow_the_title_lines Sample.page1 [Sample.page2_fine]
           "docs/guide.pdf" 10%Q).
  reflexivity.
Defined.

(** When every page can be read, segmentation loses and invents no
    body text: the words of the sections, in order, are the words of
    the lines that are not title lines, in order. *)
Theorem body_words_are_conserved :
  forall (first : page) (rest : list page) (file_path : string) (m : Q),
    _get_median_font_size first = Ok m ->
    Forall extracts (first :: rest) ->
    words_of (sections (extract_text_with_structure (Ok (first :: rest))
                          file_path))
    = flat_map (body_words (m * 1.15)%Q) (flat_map lines_of (first :: rest)).
Proof.
  intros first rest file_path m Hm Hall.
  unfold extract_text_with_structure. rewrite Hm.
  rewrite process_pages_ok by exact Hall.
  pose proof (loop_pages (fun thr _ => conserved thr)
                ltac:(intros thr n m' done st _ H; exact H)
                ltac:(intros; apply process_line_conserved; assumption)
                (m * 1.15)%Q (first :: rest) 1 [] (State [] None EmptyString 1)
                ltac:(lia)
                ltac:(split; [left; reflexivity|reflexivity])) as H.
  rewrite process_pages_ok in H by exact Hall.
  destruct H as [_ H]. simpl sections. rewrite words_of_flush. exact H.
Qed.

Lemma body_words_are_conserved_witness :
  let pages := [Sample.page1; Sample.page2_fine] in
  _get_median_font_size Sample.page1 = Ok 10%Q /\
  Forall extracts pages /\
  words_of (sections (extract_text_with_structure (Ok pages) "docs/guide.pdf"))
  = flat_map (body_words (10 * 1.15)%Q) (flat_map lines_of pages).
Proof.
  split; [reflexivity|].
  split; [repeat constructor; eexists; reflexivity|].
  apply (body_words_are_conserved Sample.page1 [Sample.page2_fine]
           "docs/guide.pdf" 10%Q).
  - reflexivity.
  - repeat constructor; eexists; reflexivity.
Defined.

End SegmenterExtra.

(* ===================================================================== *)
(** ** Pipeline: further properties of [process_pdfs_with_ml] *)
(* ===================================================================== *)

Module PipelineMore.
Import Pipeline PipelineRun PipelineShape PipelineFacts PyStrFacts.

(** *** Strings: [len], slices *)

Lemma len_cat a b : PyStr.len (PyStr.cat a b) = (PyStr.len a + PyStr.len b)%nat.
Proof.
  induction a as [|x a IH]; [reflexivity|].
  rewrite cat_cons. simpl. f_equal. exact IH.
Qed.

Lemma len_take n : forall s,
  PyStr.len (PyStr.take n s) = Nat.min n (PyStr.len s).
Proof.
  induction n as [|n IH]; intros [|c s]; simpl; auto.
Qed.

Lemma take_all n : forall s, (PyStr.len s <= n)%nat -> PyStr.take n s = s.
Proof.
  induction n as [|n IH]; intros [|c s]; simpl; auto; try lia.
  intros H. f_equal. apply IH. lia.
Qed.

Lemma take_cat_take n : forall s t,
  (n <= PyStr.len s)%nat ->
  PyStr.take n (PyStr.cat (PyStr.take n s) t) = PyStr.take n s.
Proof.
  induction n as [|n IH]; intros [|c s] t H; try reflexivity.
  - simpl in H. lia.
  - cbn [PyStr.take]. rewrite cat_cons. cbn [PyStr.take]. f_equal.
    apply IH. simpl in H. lia.
Qed.

Lemma truncate_bound c : (PyStr.len (truncate c) <= 303)%nat.
Proof.
  unfold truncate. destruct (300 <? PyStr.len c)%nat eqn:E.
  - rewrite len_cat, len_take. change (PyStr.len "...") with 3%nat. lia.
  - apply Nat.ltb_ge in E. lia.
Qed.

(** *** Sorting and slicing *)

Lemma insert_desc_sorted x l :
  StronglySorted scored_desc l -> StronglySorted scored_desc (insert_desc x l).
Proof.
  induction l as [|y l IH]; intros Hs; simpl.
  - repeat constructor.
  - inversion Hs as [|? ? Hl Hy]; subst.
    destruct (Qltb (relevance_score x) (relevance_score y)) eqn:E.
    + constructor; [apply IH; exact Hl|].
      apply List.Forall_forall. intros z Hz. apply ranked_insert_In in Hz.
      destruct Hz as [->|Hz].
      * apply Qltb_lt in E. unfold scored_desc. lra.
      * rewrite List.Forall_forall in Hy. apply Hy. exact Hz.
    + apply Qltb_ge in E. constructor; [exact Hs|].
      constructor; [exact E|].
      eapply List.Forall_impl; [|exact Hy]. unfold scored_desc. intros z Hz. lra.
Qed.

Lemma sorted_desc_sorted l : StronglySorted scored_desc (sorted_desc l).
Proof.
  induction l as [|x l IH]; simpl; [constructor|].
  apply insert_desc_sorted. exact IH.
Qed.

Lemma firstn_sorted {A} (R : A -> A -> Prop) n : forall l,
  StronglySorted R l -> StronglySorted R (firstn n l).
Proof.
  induction n as [|n IH]; intros [|x l] Hs; simpl; try constructor.
  - inversion Hs; subst. apply IH. assumption.
  - inversion Hs as [|? ? _ Hx]; subst.
    apply List.Forall_forall. intros y Hy.
    rewrite List.Forall_forall in Hx. apply Hx.
    rewrite <- (firstn_skipn n l). apply in_or_app. left. exact Hy.
Qed.

Lemma take_upto_In {A} k (l : list A) x : In x (take_upto k l) -> In x l.
Proof.
  unfold take_upto. destruct (0 <=? k)%Z; intros H.
  - rewrite <- (firstn_skipn (Z.to_nat k) l). apply in_or_app. left. exact H.
  - rewrite <- (firstn_skipn (length l - Z.to_nat (- k)) l).
    apply in_or_app. left. exact H.
Qed.

Lemma take_upto_sorted {A} (R : A -> A -> Prop) k l :
  StronglySorted R l -> StronglySorted R (take_upto k l).
Proof. unfold take_upto. destruct (0 <=? k)%Z; apply firstn_sorted. Qed.

Lemma sorted_desc_length l : length (sorted_desc l) = length l.
Proof.
  induction l as [|x l IH]; simpl; [reflexivity|].
  rewrite <- IH. generalize (sorted_desc l). intros m.
  induction m as [|y m IHm]; simpl; [reflexivity|].
  destruct (Qltb (relevance_score x) (relevance_score y)); simpl; auto.
Qed.

(** *** The cards *)

Lemma enumerate_from_length {A} (l : list A) : forall n,
  length (enumerate_from n l) = length l.
Proof. induction l as [|x l IH]; intros n; simpl; auto. Qed.

Local Abbreviation card_of := (fun rs : nat * scored => insight_card_of (fst rs) (snd rs)).

Lemma cards_ranks l : forall n,
  List.map importanceRank (List.map card_of (enumerate_from n l))
  = seq (n + 1) (length l).
Proof.
  induction l as [|x l IH]; intros n; simpl; [reflexivity|].
  f_equal. rewrite IH. reflexivity.
Qed.

Lemma cards_In c l : forall n,
  In c (List.map card_of (enumerate_from n l)) ->
  exists i s, In s l /\ c = insight_card_of i s.
Proof.
  induction l as [|x l IH]; intros n; simpl; [contradiction|].
  intros [<-|H].
  - exists n, x. auto.
  - destruct (IH _ H) as (i & s & Hs & ->). exists i, s. auto.
Qed.

Lemma cards_sorted l : forall n,
  StronglySorted scored_desc l ->
  StronglySorted by_relevance (List.map card_of (enumerate_from n l)).
Proof.
  induction l as [|x l IH]; intros n Hs; simpl; [constructor|].
  inversion Hs as [|? ? Hl Hx]; subst.
  constructor; [apply IH; exact Hl|].
  apply List.Forall_forall. intros c Hc.
  apply cards_In in Hc. destruct Hc as (i & s & Hin & ->).
  rewrite List.Forall_forall in Hx. apply (Hx s Hin).
Qed.

(** A response with cards is built from the scored sections of a
    non-empty list of sections. *)
Lemma insights_inv e db job user pdf_ids k cards meta :
  fst (fst (process_pdfs_with_ml e db job user pdf_ids k)) = Insights cards meta ->
  exists q scored_sections,
    flat_map (sections_from e user pdf_ids) db <> [] /\
    score_sections e q (flat_map (sections_from e user pdf_ids) db)
    = Ok scored_sections /\
    cards = cards_of (take_upto k (sorted_desc scored_sections)) /\
    meta = Metadata (clock_timestamp e) job
             (List.map original_filename (List.filter (selected user pdf_ids) db))
             (clock_elapsed e)
             (length (flat_map (sections_from e user pdf_ids) db))
             (length cards).
Proof.
  intros H.
  destruct (model_ready e) eqn:Hm.
  2:{ unfold process_pdfs_with_ml in H. rewrite Hm in H. discriminate. }
  destruct (DB_AVAILABLE e) eqn:Hd.
  2:{ unfold process_pdfs_with_ml in H. rewrite Hm, Hd in H. discriminate. }
  destruct (List.filter (selected user pdf_ids) db) as [|p ps] eqn:Hf.
  { rewrite process_pdfs_with_ml_no_selection in H by assumption. discriminate. }
  rewrite process_pdfs_with_ml_ready in H by (auto; rewrite Hf; discriminate).
  cbn [fst] in H. rewrite Hf in H.
  destruct (flat_map (sections_from e user pdf_ids) db) as [|t ts] eqn:Hs;
    [discriminate|].
  destruct (parse_job_to_be_done e job) as [q|msg]; [|discriminate].
  unfold insights_of in H.
  destruct (score_sections e q (t :: ts)) as [sl|msg] eqn:Hsl; [|discriminate].
  injection H as <- <-.
  exists q, sl. split; [discriminate|]. auto.
Qed.

(** Where the sections of a run come from. *)
Lemma sections_from_In e user pdf_ids pdf t :
  In t (sections_from e user pdf_ids pdf) ->
  selected user pdf_ids pdf = true /\
  source_pdf t = original_filename pdf /\ pdf_id t = id pdf.
Proof.
  unfold sections_from. destruct (selected user pdf_ids pdf); [|contradiction].
  unfold step. intros H. split; [reflexivity|].
  destruct (cache_usable (get_sections_with_embeddings pdf)).
  - cbn [fst snd] in H. unfold tag in H. apply in_map_iff in H.
    destruct H as (s & <- & _). auto.
  - destruct (has_file_data pdf) as [data|]; cbn [fst snd] in H; [|contradiction].
    unfold tag in H. apply in_map_iff in H. destruct H as (s & <- & _). auto.
Qed.

Lemma selected_true user pdf_ids pdf :
  selected user pdf_ids pdf = true <-> id pdf ∈ pdf_ids /\ user_id pdf = user.
Proof.
  unfold selected. rewrite andb_true_iff, !bool_decide_eq_true. reflexivity.
Qed.

(** *** The rows *)

Lemma row_after_kept e user pdf_ids pdf :
  row_kept user pdf_ids pdf (row_after e user pdf_ids pdf).
Proof.
  unfold row_kept, row_after. destruct (selected user pdf_ids pdf).
  2:{ repeat split; auto. }
  unfold step. destruct (cache_usable (get_sections_with_embeddings pdf)).
  { cbn [fst]. repeat split; auto; intros; discriminate. }
  destruct (has_file_data pdf); cbn [fst].
  - unfold saved. simpl.
    repeat split; auto; intros; discriminate.
  - repeat split; auto; intros; discriminate.
Qed.

Lemma row_kept_refl user pdf_ids pdf : row_kept user pdf_ids pdf pdf.
Proof. unfold row_kept. repeat split; auto. Qed.

(** *** The extracted sections *)

Lemma extract_one_In x i seg :
  In x (extract_one (i, seg)) ->
  section_index x = i /\
  (10 <= length (PyStr.split (combined_text seg)))%nat /\
  x = Section_ (Segmenter.section_title seg) (Segmenter.content seg)
        (Segmenter.page_number seg) i (Some (combined_text seg)) [].
Proof.
  unfold extract_one. cbn [fst snd]. fold (combined_text seg).
  destruct (10 <=? length (PyStr.split (combined_text seg)))%nat eqn:E;
    [|contradiction].
  intros [<-|[]]. apply Nat.leb_le in E. auto.
Qed.

Lemma extract_enumerated secs : forall n,
  StronglySorted lt
    (List.map section_index (flat_map extract_one (enumerate_from n secs))) /\
  Forall (fun x =>
            (n <= section_index x)%nat /\
            exists seg,
              nth_error secs (section_index x - n) = Some seg /\
              (10 <= length (PyStr.split (combined_text seg)))%nat /\
              x = Section_ (Segmenter.section_title seg) (Segmenter.content seg)
                    (Segmenter.page_number seg) (section_index x)
                    (Some (combined_text seg)) [])
         (flat_map extract_one (enumerate_from n secs)).
Proof.
  induction secs as [|s secs IH]; intros n; simpl.
  - split; constructor.
  - destruct (IH (S n)) as [Hs Hall].
    assert (Hrest : Forall (fun x =>
              (n <= section_index x)%nat /\
              exists seg,
                nth_error (s :: secs) (section_index x - n) = Some seg /\
                (10 <= length (PyStr.split (combined_text seg)))%nat /\
                x = Section_ (Segmenter.section_title seg) (Segmenter.content seg)
                      (Segmenter.page_number seg) (section_index x)
                      (Some (combined_text seg)) [])
              (flat_map extract_one (enumerate_from (S n) secs))).
    { eapply List.Forall_impl; [|exact Hall]. cbv beta.
      intros x (Hn & seg & Hnth & Hrest'). split; [lia|].
      exists seg. split; [|exact Hrest'].
      replace (section_index x - n)%nat with (S (section_index x - S n)) by lia.
      exact Hnth. }
    destruct (extract_one (n, s)) as [|x [|? ?]] eqn:E.
    + split; [exact Hs|exact Hrest].
    + assert (Hx : In x (extract_one (n, s))) by (rewrite E; left; reflexivity).
      apply extract_one_In in Hx. destruct Hx as (Hi & Hw & Hx).
      split.
      * simpl. constructor; [exact Hs|].
        apply List.Forall_forall. intros j Hj. apply in_map_iff in Hj.
        destruct Hj as (y & <- & Hy).
        rewrite List.Forall_forall in Hall. destruct (Hall y Hy) as [Hle _]. lia.
      * simpl. constructor; [|exact Hrest].
        split; [lia|]. exists s. rewrite Hi, Nat.sub_diag. simpl.
        auto.
    + exfalso. unfold extract_one in E.
      destruct (10 <=? _)%nat; discriminate.
Qed.

Lemma extract_sections_from_pdf_eq e pdf_path data :
  extract_sections_from_pdf e pdf_path data
  = flat_map extract_one
      (enumerate (Segmenter.sections
         (Segmenter.extract_text_with_structure (pdfplumber_open e data) pdf_path))).
Proof. reflexivity. Qed.

Lemma extract_sections_text_long e pdf_path data s :
  In s (extract_sections_from_pdf e pdf_path data) ->
  exists text, section_text s = Some text /\
               (10 <= length (PyStr.split text))%nat.
Proof.
  rewrite extract_sections_from_pdf_eq. intros H.
  apply in_flat_map in H. destruct H as ([i seg] & _ & H).
  apply extract_one_In in H. destruct H as (_ & Hw & ->).
  eexists. split; [reflexivity|exact Hw].
Qed.

(** *** The events *)

Lemma fresh_events_allowed e db user pdf_ids pdf data :
  Forall (allowed db user pdf_ids) (fresh_events e pdf data).
Proof.
  unfold fresh_events.
  rewrite events_of_texts by (intros s Hs; eapply extract_sections_have_text; exact Hs).
  apply List.Forall_forall. intros ev Hev. apply in_map_iff in Hev.
  destruct Hev as (s & <- & Hs).
  apply extract_sections_text_long in Hs. destruct Hs as (text & -> & Hw).
  exact Hw.
Qed.

Lemma events_from_allowed e db user pdf_ids pdf :
  In pdf db -> Forall (allowed db user pdf_ids) (events_from e user pdf_ids pdf).
Proof.
  intros Hin. unfold events_from.
  destruct (selected user pdf_ids pdf) eqn:Hsel; [|constructor].
  apply selected_true in Hsel. destruct Hsel as [Hid Hu].
  unfold step. destruct (cache_usable (get_sections_with_embeddings pdf));
    [constructor|].
  destruct (has_file_data pdf) as [data|]; cbn [snd]; [|constructor].
  constructor; [exists pdf; auto|].
  apply Forall_app. split; [apply fresh_events_allowed|].
  constructor; [exists pdf; auto|constructor].
Qed.

End PipelineMore.

Module PipelineExtra.
Import Pipeline PipelineRun PipelineShape PipelineFacts PyStrFacts PipelineMore.

(** The cards of a response are numbered 1, 2, ... in the order
    returned, their relevance scores never increase along the list,
    and the metadata count them: [top_insights_returned] is the number
    of cards, which for [k >= 0] is the smaller of [k] and
    [total_sections_processed], and at least one section was
    processed. *)
Theorem cards_are_ranked_by_relevance :
  forall e db job user pdf_ids k cards meta,
    fst (fst (process_pdfs_with_ml e db job user pdf_ids k)) = Insights cards meta ->
    List.map importanceRank cards = seq 1 (length cards) /\
    StronglySorted by_relevance cards /\
    top_insights_returned meta = length cards /\
    (1 <= total_sections_processed meta)%nat /\
    ((0 <= k)%Z ->
     length cards = Nat.min (Z.to_nat k) (total_sections_processed meta)).
Proof.
  intros e db job user pdf_ids k cards meta H.
  apply insights_inv in H. destruct H as (q & sl & Hne & Hsl & -> & ->).
  cbn [top_insights_returned total_sections_processed].
  unfold cards_of, enumerate.
  split; [rewrite cards_ranks, !length_map, enumerate_from_length; reflexivity|].
  split; [apply cards_sorted, take_upto_sorted, sorted_desc_sorted|].
  split; [reflexivity|].
  split; [destruct (flat_map _ db); [congruence|simpl; lia]|].
  intros Hk. rewrite length_map, enumerate_from_length. unfold take_upto.
  destruct (0 <=? k)%Z eqn:E; [|apply Z.leb_gt in E; lia].
  destruct (score_sections_spec e q _ sl Hsl) as [Hmap _].
  rewrite length_firstn, sorted_desc_length, <- Hmap, length_map. reflexivity.
Qed.

Lemma cards_are_ranked_by_relevance_witness :
  match fst (fst (process_pdfs_with_ml Sample.env
                    [Sample.pdf_note; Sample.pdf_cached] "a walk" 7
                    [5%Z; 4%Z] 2)) with
  | Error _ => False
  | Insights cards meta =>
      List.map importanceRank cards = seq 1 (length cards) /\
      StronglySorted by_relevance cards /\
      top_insights_returned meta = length cards /\
      (1 <= total_sections_processed meta)%nat /\
      ((0 <= 2)%Z ->
       length cards = Nat.min (Z.to_nat 2) (total_sections_processed meta))
  end.
Proof.
  destruct (fst (fst (process_pdfs_with_ml Sample.env
                        [Sample.pdf_note; Sample.pdf_cached] "a walk" 7
                        [5%Z; 4%Z] 2))) as [msg|cards meta] eqn:E.
  - vm_compute in E. discriminate E.
  - exact (cards_are_ranked_by_relevance Sample.env
             [Sample.pdf_note; Sample.pdf_cached] "a walk" 7 [5%Z; 4%Z] 2
             cards meta E).
Defined.

(** Every card of a response is built from a section of a stored
    document that the caller selected and owns: its [pdfName] is that
    document's file name and its identifier starts with that
    document's id.  Its content has at most 303 characters. *)
Theorem cards_come_from_the_selected_documents_of_the_user :
  forall e db job user pdf_ids k cards meta,
    fst (fst (process_pdfs_with_ml e db job user pdf_ids k)) = Insights cards meta ->
    Forall (fun c =>
              (exists pdf idx,
                  In pdf db /\ id pdf ∈ pdf_ids /\ user_id pdf = user /\
                  pdfName c = original_filename pdf /\
                  card_id c
                  = PyStr.cat "insight-"
                      (PyStr.cat (str_of_Z (id pdf))
                         (PyStr.cat "-" (str_of_Z (Z.of_nat idx))))) /\
              (PyStr.len (card_content c) <= 303)%nat)
           cards.
Proof.
  intros e db job user pdf_ids k cards meta H.
  apply insights_inv in H. destruct H as (q & sl & Hne & Hsl & -> & _).
  destruct (score_sections_spec e q _ sl Hsl) as [Hmap _].
  apply List.Forall_forall. intros c Hc. unfold cards_of, enumerate in Hc.
  apply cards_In in Hc. destruct Hc as (i & s & Hs & ->).
  apply take_upto_In in Hs. apply (proj1 (ranked_sorted_In _ _)) in Hs.
  assert (Ht : In (tsec s) (flat_map (sections_from e user pdf_ids) db)).
  { rewrite <- Hmap. apply in_map. exact Hs. }
  apply in_flat_map in Ht. destruct Ht as (pdf & Hpdf & Ht).
  apply sections_from_In in Ht. destruct Ht as (Hsel & Hname & Hid).
  apply selected_true in Hsel. destruct Hsel as [Hin Hu].
  split; [|apply truncate_bound].
  exists pdf, (section_index (sec (tsec s))). unfold insight_card_of.
  cbn [pdfName card_id]. rewrite Hname, Hid. auto.
Qed.

Lemma cards_come_from_the_selected_documents_of_the_user_witness :
  match fst (fst (process_pdfs_with_ml Sample.env
                    [Sample.pdf_note; Sample.pdf_cached] "a walk" 7
                    [5%Z] 5)) with
  | Error _ => False
  | Insights cards meta =>
      Forall (fun c =>
                (exists pdf idx,
                    In pdf [Sample.pdf_note; Sample.pdf_cached] /\
                    id pdf ∈ [5%Z] /\ user_id pdf = 7%Z /\
                    pdfName c = original_filename pdf /\
                    card_id c
                    = PyStr.cat "insight-"
                        (PyStr.cat (str_of_Z (id pdf))
                           (PyStr.cat "-" (str_of_Z (Z.of_nat idx))))) /\
                (PyStr.len (card_content c) <= 303)%nat)
             cards
  end.
Proof.
  destruct (fst (fst (process_pdfs_with_ml Sample.env
                        [Sample.pdf_note; Sample.pdf_cached] "a walk" 7
                        [5%Z] 5))) as [msg|cards meta] eqn:E.
  - vm_compute in E. discriminate E.
  - exact (cards_come_from_the_selected_documents_of_the_user Sample.env
             [Sample.pdf_note; Sample.pdf_cached] "a walk" 7 [5%Z] 5
             cards meta E).
Defined.

(** The card content is the section content cut to 300 characters: a
    content of at most 300 characters is shown whole, a longer one is
    its first 300 characters followed by three dots, 303 characters in
    all. *)
Theorem card_content_is_cut_at_300_characters :
  forall content : string,
    (PyStr.len (truncate content) <= 303)%nat /\
    PyStr.take 300 (truncate content) = PyStr.take 300 content /\
    ((PyStr.len content <= 300)%nat -> truncate content = content) /\
    ((300 < PyStr.len content)%nat ->
     PyStr.len (truncate content) = 303%nat /\
     exists shown, truncate content = PyStr.cat shown "..." /\
                   PyStr.len shown = 300%nat).
Proof.
  intros content. split; [apply truncate_bound|].
  unfold truncate. destruct (300 <? PyStr.len content)%nat eqn:E.
  - apply Nat.ltb_lt in E. split; [apply take_cat_take; lia|].
    split; [lia|]. intros _.
    assert (Hlen : PyStr.len (PyStr.cat (PyStr.take 300 content) "...") = 303%nat).
    { rewrite len_cat, len_take. change (PyStr.len "...") with 3%nat. lia. }
    split; [exact Hlen|].
    eexists. split; [reflexivity|]. rewrite len_take. lia.
  - apply Nat.ltb_ge in E. split; [reflexivity|].
    split; [reflexivity|]. lia.
Qed.

(** A run never adds, removes or reorders stored documents and never
    changes the id, the owner, the file name or the file data of one;
    a document of another user, or one the caller did not select, is
    left exactly as it was; a document the run changed is marked
    ["completed"]. *)
Theorem run_keeps_the_rows_of_other_documents :
  forall e db job user pdf_ids k,
    Forall2 (row_kept user pdf_ids) db
      (snd (fst (process_pdfs_with_ml e db job user pdf_ids k))).
Proof.
  intros e db job user pdf_ids k.
  assert (Hrefl : Forall2 (row_kept user pdf_ids) db db).
  { induction db; constructor; auto using row_kept_refl. }
  destruct (model_ready e) eqn:Hm.
  2:{ unfold process_pdfs_with_ml. rewrite Hm. exact Hrefl. }
  destruct (DB_AVAILABLE e) eqn:Hd.
  2:{ unfold process_pdfs_with_ml. rewrite Hm, Hd. exact Hrefl. }
  destruct (List.filter (selected user pdf_ids) db) as [|p ps] eqn:Hf.
  { rewrite process_pdfs_with_ml_no_selection by assumption. exact Hrefl. }
  rewrite process_pdfs_with_ml_ready by (auto; rewrite Hf; discriminate).
  cbn [fst snd]. clear. induction db as [|pdf db IH]; simpl; constructor; auto.
  apply row_after_kept.
Qed.

(** What is saved for a document is what is read back on the next
    run: the sections in the same order, each with its title, content,
    page number and embedding (an empty embedding is stored as NULL
    and read back empty), numbered 0, 1, ... by position; the document
    is then served from the cache exactly when it has a section and
    every section has a non-empty embedding. *)
Theorem saved_sections_are_read_back :
  forall e pdf sections_data pdf',
    save_embeddings_to_db e pdf sections_data = Ok pdf' ->
    get_sections_with_embeddings pdf'
    = List.map reloaded (enumerate sections_data) /\
    cache_usable (get_sections_with_embeddings pdf')
    = nonempty sections_data
      && forallb (fun s => nonempty (embedding s)) sections_data /\
    processing_status pdf' = "completed".
Proof.
  intros e pdf l pdf' H. unfold save_embeddings_to_db in H.
  destruct (DB_AVAILABLE e); [|discriminate]. simpl in H. injection H as <-.
  assert (E : get_sections_with_embeddings
                (Pdf (id pdf) (user_id pdf) (original_filename pdf) (file_data pdf)
                   (List.map (fun ix =>
                      add_section (section_title (snd ix)) (content (snd ix))
                        (page_number (snd ix)) (fst ix) (embedding (snd ix)))
                      (enumerate l)) "completed")
              = List.map reloaded (enumerate l)).
  { unfold get_sections_with_embeddings. cbn [sections]. rewrite map_map.
    apply map_ext. intros [i s]. cbn [fst snd].
    rewrite get_embedding_add_section. reflexivity. }
  rewrite E. clear E. split; [reflexivity|]. split; [|reflexivity].
  unfold cache_usable, enumerate. f_equal.
  - destruct l; reflexivity.
  - generalize 0%nat. induction l as [|s l IH]; intros n; simpl; [reflexivity|].
    rewrite IH. reflexivity.
Qed.

Lemma saved_sections_are_read_back_witness :
  let l := [Section_ (Some "Kept") "body" 3 7 (Some "Kept. body") [1%Q; 2%Q];
            Section_ (Some "Lost") "text" 4 9 (Some "Lost. text") []] in
  let pdf' := saved Sample.pdf_trip l in
  save_embeddings_to_db Sample.env Sample.pdf_trip l = Ok pdf' /\
  get_sections_with_embeddings pdf' = List.map reloaded (enumerate l) /\
  cache_usable (get_sections_with_embeddings pdf')
  = nonempty l && forallb (fun s => nonempty (embedding s)) l /\
  processing_status pdf' = "completed".
Proof.
  split; [reflexivity|].
  apply (saved_sections_are_read_back Sample.env Sample.pdf_trip).
  reflexivity.
Defined.

(** The sections handed to the encoder keep the position they have in
    the segmenter's output as [section_index] (so the indices
    increase, with a gap wherever a section was dropped), copy its
    title, content and page number, start without an embedding, and
    carry a combined text of at least ten words. *)
Theorem extracted_sections_keep_their_position :
  forall e pdf_path data,
    let document :=
      Segmenter.extract_text_with_structure (pdfplumber_open e data) pdf_path in
    let l := extract_sections_from_pdf e pdf_path data in
    StronglySorted lt (List.map section_index l) /\
    Forall (taken_from (Segmenter.sections document)) l.
Proof.
  intros e pdf_path data document l. subst document l.
  rewrite extract_sections_from_pdf_eq. unfold enumerate.
  destruct (extract_enumerated
              (Segmenter.sections
                 (Segmenter.extract_text_with_structure
                    (pdfplumber_open e data) pdf_path)) 0) as [Hs Hall].
  split; [exact Hs|].
  eapply List.Forall_impl; [|exact Hall]. cbv beta.
  intros x (_ & seg & Hnth & Hw & Hx). exists seg.
  rewrite Nat.sub_0_r in Hnth. auto.
Qed.

(** Whatever the outcome of a run, the encoder is only ever given
    section texts of at least ten words, and only documents that the
    caller selected and owns are segmented or saved. *)
Theorem run_only_touches_selected_documents :
  forall e db job user pdf_ids k,
    Forall (allowed db user pdf_ids)
      (snd (process_pdfs_with_ml e db job user pdf_ids k)).
Proof.
  intros e db job user pdf_ids k.
  destruct (model_ready e) eqn:Hm.
  2:{ unfold process_pdfs_with_ml. rewrite Hm. constructor. }
  destruct (DB_AVAILABLE e) eqn:Hd.
  2:{ unfold process_pdfs_with_ml. rewrite Hm, Hd. constructor. }
  destruct (List.filter (selected user pdf_ids) db) as [|p ps] eqn:Hf.
  { rewrite process_pdfs_with_ml_no_selection by assumption. constructor. }
  rewrite process_pdfs_with_ml_ready by (auto; rewrite Hf; discriminate).
  cbn [snd]. apply List.Forall_forall. intros ev Hev.
  apply in_flat_map in Hev. destruct Hev as (pdf & Hpdf & Hev).
  pose proof (events_from_allowed e db user pdf_ids pdf Hpdf) as H.
  rewrite List.Forall_forall in H. apply H. exact Hev.
Qed.

(** What a run stores, and which documents it segments and which texts
    it encodes for them, depend neither on the job nor on [k]: the
    stored sections are brought up to date even when the response is
    an error about the job.  Whether the response is an error does not
    depend on [k]. *)
Theorem stored_sections_do_not_depend_on_the_job :
  forall e db user pdf_ids job job' k k',
    snd (fst (process_pdfs_with_ml e db job user pdf_ids k))
    = snd (fst (process_pdfs_with_ml e db job' user pdf_ids k')) /\
    snd (process_pdfs_with_ml e db job user pdf_ids k)
    = snd (process_pdfs_with_ml e db job' user pdf_ids k') /\
    is_error (fst (fst (process_pdfs_with_ml e db job user pdf_ids k)))
    = is_error (fst (fst (process_pdfs_with_ml e db job user pdf_ids k'))).
Proof.
  intros e db user pdf_ids job job' k k'.
  split; [|split]; [| |rewrite !process_pdfs_with_ml_is_error; reflexivity].
  - destruct (model_ready e) eqn:Hm.
    2:{ unfold process_pdfs_with_ml. rewrite Hm. reflexivity. }
    destruct (DB_AVAILABLE e) eqn:Hd.
    2:{ unfold process_pdfs_with_ml. rewrite Hm, Hd. reflexivity. }
    destruct (List.filter (selected user pdf_ids) db) as [|p ps] eqn:Hf.
    { rewrite !process_pdfs_with_ml_no_selection by assumption. reflexivity. }
    rewrite !process_pdfs_with_ml_ready by (auto; rewrite Hf; discriminate).
    reflexivity.
  - destruct (model_ready e) eqn:Hm.
    2:{ unfold process_pdfs_with_ml. rewrite Hm. reflexivity. }
    destruct (DB_AVAILABLE e) eqn:Hd.
    2:{ unfold process_pdfs_with_ml. rewrite Hm, Hd. reflexivity. }
    destruct (List.filter (selected user pdf_ids) db) as [|p ps] eqn:Hf.
    { rewrite !process_pdfs_with_ml_no_selection by assumption. reflexivity. }
    rewrite !process_pdfs_with_ml_ready by (auto; rewrite Hf; discriminate).
    reflexivity.
Qed.

End PipelineExtra.

(* ===================================================================== *)
(** ** Refiner: further properties of [analyze_subsections] *)
(* ===================================================================== *)

Module RefinerMore.
Import Refiner RefinerFacts PyStrFacts.

(** [" ".join(l).split()] is the words of the elements of [l]. *)
Lemma split_join_space l :
  PyStr.split (PyStr.join " " l) = flat_map PyStr.split l.
Proof.
  induction l as [|x l IH]; [reflexivity|].
  destruct l as [|y l].
  - simpl. rewrite app_nil_r. reflexivity.
  - change (PyStr.join " " (x :: y :: l))
      with (PyStr.cat x (PyStr.cat " " (PyStr.join " " (y :: l)))).
    rewrite cat_cons, cat_empty_l. unfold PyStr.split at 1.
    rewrite split_go_space by reflexivity.
    change (PyStr.split_go EmptyString (PyStr.join " " (y :: l)))
      with (PyStr.split (PyStr.join " " (y :: l))).
    rewrite IH. reflexivity.
Qed.

Lemma flat_map_split_length (l : list string) :
  Forall (fun s => (5 <= length (PyStr.split s))%nat) l ->
  (5 * length l <= length (flat_map PyStr.split l))%nat.
Proof.
  induction 1 as [|x l Hx _ IH]; simpl; [lia|].
  rewrite length_app. lia.
Qed.

Lemma slice_In {A} a b (l : list A) x : In x (slice a b l) -> In x l.
Proof.
  unfold slice. intros H.
  rewrite <- (firstn_skipn (Z.to_nat a) l). apply in_or_app. right.
  rewrite <- (firstn_skipn (Z.to_nat b - Z.to_nat a) (skipn (Z.to_nat a) l)).
  apply in_or_app. left. exact H.
Qed.

Lemma slice_length {A} a b (l : list A) :
  (0 <= a)%Z -> (b <= Z.of_nat (length l))%Z ->
  length (slice a b l) = (Z.to_nat b - Z.to_nat a)%nat.
Proof.
  intros Ha Hb. unfold slice. rewrite length_firstn, length_skipn. lia.
Qed.

Lemma usable_sentences_words tok content s :
  In s (usable_sentences tok content) ->
  (5 <= length (PyStr.split s))%nat.
Proof.
  unfold usable_sentences. intros H. apply in_map_iff in H.
  destruct H as (raw & <- & H). apply filter_In in H. destruct H as [_ H].
  apply Nat.ltb_lt in H. lia.
Qed.

End RefinerMore.

Module RefinerExtra.
Import Refiner RefinerFacts PyStrFacts RefinerMore.

(** [analyze_subsections] returns one summary per ranked section, in
    the same order, with that section's document and page number.  The
    refined text is either the whole content of the section or a text
    of at least ten words, each of which is a word of one of the
    content's usable sentences. *)
Theorem summaries_follow_the_ranked_sections {vec : Type}
    (encode : string -> vec) (cosine_similarity : vec -> vec -> Q)
    (sent_tokenize : string -> list string)
    (sections : list Ranker.scored) (req_model : Ranker.request vec) :
  Forall2
    (fun section s =>
       document s = Ranker.document section /\
       page_number s = Ranker.page_number (Ranker.base section) /\
       (refined_text s = Ranker.content (Ranker.base section) \/
        ((10 <= length (PyStr.split (refined_text s)))%nat /\
         forall w, In w (PyStr.split (refined_text s)) ->
           exists sentence,
             In sentence (usable_sentences sent_tokenize
                            (Ranker.content (Ranker.base section))) /\
             In w (PyStr.split sentence))))
    sections
    (analyze_subsections vec encode cosine_similarity sent_tokenize
       sections req_model).
Proof.
  assert (Hone : forall q content,
    refine vec encode cosine_similarity sent_tokenize q content = content \/
    ((10 <= length (PyStr.split
                      (refine vec encode cosine_similarity sent_tokenize q content)))%nat /\
     forall w,
       In w (PyStr.split
               (refine vec encode cosine_similarity sent_tokenize q content)) ->
       exists sentence,
         In sentence (usable_sentences sent_tokenize content) /\
         In w (PyStr.split sentence))).
  { intros q content. unfold refine.
    set (sents := usable_sentences sent_tokenize content).
    destruct (length sents <? 3)%nat eqn:E; [left; reflexivity|].
    right. apply Nat.ltb_ge in E.
    set (scores := sim_scores vec encode cosine_similarity sents q).
    assert (Hlen : length scores = length sents)
      by (unfold scores, sim_scores; apply length_map).
    assert (Hne : scores <> []).
    { intros E0. rewrite E0 in Hlen. simpl in Hlen. lia. }
    destruct (argmax_spec scores Hne) as (Hi & _ & _).
    rewrite Hlen in Hi.
    set (a := Z.max 0 (Z.of_nat (argmax scores) - 1)).
    set (b := Z.min (Z.of_nat (length sents)) (Z.of_nat (argmax scores) + 2)).
    rewrite split_join_space.
    assert (Hwin : (2 <= length (slice a b sents))%nat).
    { rewrite slice_length by (unfold a, b; lia). unfold a, b. lia. }
    assert (Hall : Forall (fun s => (5 <= length (PyStr.split s))%nat)
                     (slice a b sents)).
    { apply List.Forall_forall. intros s Hs. apply slice_In in Hs.
      eapply usable_sentences_words. exact Hs. }
    split.
    - pose proof (flat_map_split_length _ Hall). lia.
    - intros w Hw. apply in_flat_map in Hw. destruct Hw as (s & Hs & Hw).
      exists s. split; [eapply slice_In; exact Hs|exact Hw]. }
  unfold analyze_subsections.
  destruct sections as [|s0 l]; [constructor|].
  generalize (s0 :: l). clear s0 l. intros l.
  induction l as [|s l IH]; simpl; constructor; [|exact IH].
  split; [reflexivity|]. split; [reflexivity|]. apply Hone.
Qed.

End RefinerExtra.

(* ===================================================================== *)
(** ** Model store: properties of [get_model] *)
(* ===================================================================== *)

Module ModelStoreMore.
Import ModelStore.

Section Facts.
Variable model : Type.
Variable dimension : model -> result nat.

Local Abbreviation get_model := (ModelStore.get_model model dimension).
Local Abbreviation calls := (ModelStore.calls model dimension).

(** Once a model is stored, every call returns it and changes nothing. *)
Lemma calls_loaded m t attempts :
  calls (Globals (Some m) t) attempts
  = (Globals (Some m) t, List.map (fun _ => Ok m) attempts).
Proof.
  induction attempts as [|a rest IH]; [reflexivity|].
  simpl. rewrite IH. reflexivity.
Qed.

Lemma calls_unloaded attempts :
  fst (calls unloaded attempts)
  = match first_constructed attempts with
    | Some (m, t) => Globals (Some m) (Some t)
    | None => unloaded
    end /\
  Forall (fun r => forall m, r = Ok m ->
                   exists t, first_constructed attempts = Some (m, t))
         (snd (calls unloaded attempts)).
Proof.
  induction attempts as [|a rest IH]; [split; [reflexivity|constructor]|].
  simpl. unfold ModelStore.get_model. simpl.
  destruct (constructed a) as [m|e] eqn:Ea.
  - assert (Hrest : forall g r,
              calls (Globals (Some m) (Some (elapsed a))) rest = (g, r) ->
              g = Globals (Some m) (Some (elapsed a)) /\
              Forall (fun r => forall m0, r = Ok m0 -> m0 = m) r).
    { intros g r H. rewrite calls_loaded in H. injection H as <- <-.
      split; [reflexivity|]. apply List.Forall_forall. intros x Hx.
      apply in_map_iff in Hx. destruct Hx as (_ & <- & _).
      intros m0 [= <-]. reflexivity. }
    destruct (dimension m) as [d|e];
      destruct (calls (Globals (Some m) (Some (elapsed a))) rest) as [g r] eqn:Ec;
      destruct (Hrest g r eq_refl) as [-> Hall]; simpl;
      (split; [reflexivity|]); constructor;
      try (intros m0 [= <-]; eexists; reflexivity);
      try (intros m0 H; discriminate H);
      (eapply List.Forall_impl; [|exact Hall]); cbv beta;
      intros r0 Hr0 m0 Hm0; rewrite (Hr0 m0 Hm0); eexists; reflexivity.
  - destruct IH as [IH1 IH2].
    destruct (calls unloaded rest) as [g r] eqn:Ec. simpl in *.
    split; [exact IH1|]. constructor; [intros m0 H; discriminate H|exact IH2].
Qed.

End Facts.

End ModelStoreMore.

Module ModelStoreExtra.
Import ModelStore ModelStoreMore.

(** However many times [get_model] is called, and whatever fails along
    the way, the model is constructed at most once: the module ends up
    holding the model of the first construction that succeeded (and
    none if none did), with its load time, and every call that returns
    a model returns that one. *)
Theorem the_model_is_constructed_once :
  forall (model : Type) (dimension : model -> result nat)
         (attempts : list (attempt model)),
    let run := calls model dimension unloaded attempts in
    fst run
    = match first_constructed attempts with
      | Some (m, t) => Globals (Some m) (Some t)
      | None => unloaded
      end /\
    Forall (fun r => forall m, r = Ok m ->
                     _MODEL (fst run) = Some m /\ is_model_ready (fst run) = true)
           (snd run).
Proof.
  intros model dimension attempts run. subst run.
  destruct (calls_unloaded model dimension attempts) as [H1 H2].
  split; [exact H1|]. rewrite H1.
  eapply List.Forall_impl; [|exact H2]. cbv beta.
  intros r Hr m Hm. destruct (Hr m Hm) as [t ->]. split; reflexivity.
Qed.

(** In every state the module can be in, [get_model_status] agrees
    with [is_model_ready]: without a model it reports ["not_loaded"]
    and unavailable; with a model whose dimension can be read it
    reports ["ready"], available, that dimension and a load time; it
    raises only if reading the dimension does. *)
Theorem model_status_agrees_with_readiness :
  forall (model : Type) (dimension : model -> result nat)
         (format_2f : Q -> string) (attempts : list (attempt model)),
    let g := fst (calls model dimension unloaded attempts) in
    match _MODEL g with
    | None =>
        is_model_ready g = false /\
        get_model_status model dimension format_2f g
        = Ok (Report "not_loaded" false None None "Model not loaded")
    | Some m =>
        is_model_ready g = true /\
        match dimension m with
        | Ok d =>
            exists t,
              get_model_status model dimension format_2f g
              = Ok (Report "ready" true (Some t) (Some d)
                      (PyStr.cat "Model ready (loaded in "
                         (PyStr.cat (format_2f t) "s)")))
        | Raise e =>
            get_model_status model dimension format_2f g = Raise e
        end
    end.
Proof.
  intros model dimension format_2f attempts g. subst g.
  destruct (calls_unloaded model dimension attempts) as [-> _].
  destruct (first_constructed attempts) as [[m t]|]; simpl.
  - split; [reflexivity|]. unfold get_model_status. simpl.
    destruct (dimension m) as [d|e]; [|reflexivity].
    exists t. reflexivity.
  - split; reflexivity.
Qed.

End ModelStoreExtra.

(* ===================================================================== *)
(** ** Page splitter: the header patterns *)
(* ===================================================================== *)

Module RegexFacts.
Import Splitter SplitterShape.

Lemma dead_not_nullable r : dead r = true -> nullable r = false.
Proof.
  induction r as [| |f|r1 IH1 r2 IH2|r1 IH1 r2 IH2|r1 IH1]; simpl;
    try discriminate; auto.
  - intros H. apply orb_true_iff in H. apply andb_false_iff.
    destruct H; [left|right]; auto.
  - intros H. apply andb_true_iff in H. destruct H as [H1 H2].
    rewrite IH1, IH2 by assumption. reflexivity.
Qed.

Lemma dead_deriv c r : dead r = true -> dead (deriv c r) = true.
Proof.
  induction r as [| |f|r1 IH1 r2 IH2|r1 IH1 r2 IH2|r1 IH1]; simpl;
    try discriminate; auto.
  - intros H. apply orb_true_iff in H.
    destruct (nullable r1) eqn:En; simpl.
    + destruct H as [H|H].
      * apply dead_not_nullable in H. congruence.
      * rewrite H, IH2 by exact H. rewrite orb_true_r. reflexivity.
    + destruct H as [H|H].
      * rewrite IH1 by exact H. reflexivity.
      * rewrite H. apply orb_true_r.
  - intros H. apply andb_true_iff in H. destruct H as [H1 H2].
    rewrite IH1, IH2 by assumption. reflexivity.
Qed.

Lemma dead_matches s : forall r, dead r = true -> matches r s = false.
Proof.
  induction s as [|c s IH]; intros r H; simpl.
  - apply dead_not_nullable. exact H.
  - apply IH. apply dead_deriv. exact H.
Qed.

Lemma first_dead c r : first r c = false -> dead (deriv c r) = true.
Proof.
  induction r as [| |f|r1 IH1 r2 IH2|r1 IH1 r2 IH2|r1 IH1]; simpl; auto.
  - intros ->. reflexivity.
  - intros H. apply orb_false_iff in H. destruct H as [H1 H2].
    destruct (nullable r1); simpl in *.
    + rewrite IH1, IH2 by assumption. reflexivity.
    + rewrite IH1 by assumption. reflexivity.
  - intros H. apply orb_false_iff in H. destruct H as [H1 H2].
    rewrite IH1, IH2 by assumption. reflexivity.
  - intros H. rewrite IH1 by assumption. reflexivity.
Qed.

Lemma first_alphabet c r : first r c = true -> alphabet r c = true.
Proof.
  induction r as [| |f|r1 IH1 r2 IH2|r1 IH1 r2 IH2|r1 IH1]; simpl; auto.
  - intros H. apply orb_true_iff in H. apply orb_true_iff.
    destruct H as [H|H]; [left; auto|].
    apply andb_true_iff in H. destruct H as [_ H]. right. auto.
  - intros H. apply orb_true_iff in H. apply orb_true_iff.
    destruct H; [left|right]; auto.
Qed.

Lemma alphabet_deriv a c r :
  alphabet (deriv a r) c = true -> alphabet r c = true.
Proof.
  induction r as [| |f|r1 IH1 r2 IH2|r1 IH1 r2 IH2|r1 IH1]; simpl;
    try discriminate.
  - destruct (f a); simpl; discriminate.
  - destruct (nullable r1); simpl; intros H;
      repeat (apply orb_true_iff in H; destruct H as [H|H]);
      apply orb_true_iff; auto.
  - intros H. apply orb_true_iff in H. apply orb_true_iff.
    destruct H; [left|right]; auto.
  - intros H. apply orb_true_iff in H. destruct H; auto.
Qed.

Lemma all_chars_impl (f g : ascii -> bool) s :
  (forall c, f c = true -> g c = true) ->
  all_chars f s = true -> all_chars g s = true.
Proof.
  intros Hfg. induction s as [|c s IH]; simpl; [auto|].
  intros H. apply andb_true_iff in H. destruct H as [H1 H2].
  rewrite (Hfg c H1), IH by exact H2. reflexivity.
Qed.

(** A match starts with a character of [first]. *)
Lemma matches_first r a s : matches r (String a s) = true -> first r a = true.
Proof.
  simpl. intros H. destruct (first r a) eqn:E; [reflexivity|].
  rewrite dead_matches in H by (apply first_dead; exact E). discriminate.
Qed.

(** A match is made of characters of [alphabet]. *)
Lemma matches_alphabet s : forall r,
  matches r s = true -> all_chars (alphabet r) s = true.
Proof.
  induction s as [|a s IH]; intros r H; [reflexivity|].
  simpl. rewrite (first_alphabet a r (matches_first r a s H)). simpl.
  simpl in H. apply IH in H.
  eapply all_chars_impl; [|exact H]. intros c. apply alphabet_deriv.
Qed.

Lemma alphabet_upto r n c : alphabet (upto r n) c = true -> alphabet r c = true.
Proof.
  induction n as [|n IH]; simpl; [discriminate|].
  intros H. apply orb_true_iff in H. destruct H; auto.
Qed.

Lemma alphabet_times r m rest c :
  alphabet (times r m rest) c = true ->
  alphabet r c = true \/ alphabet rest c = true.
Proof.
  induction m as [|m IH]; simpl; [auto|].
  intros H. apply orb_true_iff in H. destruct H; auto.
Qed.

Lemma alphabet_between r m n c :
  alphabet (between r m n) c = true -> alphabet r c = true.
Proof.
  unfold between. intros H. apply alphabet_times in H.
  destruct H as [H|H]; [exact H|]. eapply alphabet_upto. exact H.
Qed.

Lemma first_times r m rest c :
  nullable r = false -> first (times r (S m) rest) c = first r c.
Proof. simpl. intros ->. simpl. apply orb_false_r. Qed.

Lemma header_char_of c :
  upper c || lower c || digit c || PyStr.isspace c
  || chr "&" c || chr "-" c || chr ":" c || chr "." c || chr "*" c = true ->
  header_char c = true.
Proof. auto. Qed.

(** The characters of the four patterns. *)
Lemma header_patterns_alphabet r c :
  In r header_patterns -> alphabet r c = true -> header_char c = true.
Proof.
  unfold header_patterns. intros [<-|[<-|[<-|[<-|[]]]]].
  - unfold all_caps_header.
    remember (between (Class caps_class) 2 50) as B eqn:HB.
    simpl. intros H.
    assert (HB' : alphabet B c = true -> caps_class c = true)
      by (rewrite HB; apply alphabet_between).
    unfold header_char. unfold caps_class in HB'.
    destruct (upper c), (lower c), (digit c), (PyStr.isspace c),
      (chr "&" c), (chr "-" c), (chr ":" c), (chr "." c), (chr "*" c);
      simpl in *; try reflexivity;
      destruct (alphabet B c); simpl in *; try discriminate;
      specialize (HB' eq_refl); discriminate.
  - unfold numbered_header.
    remember (between (Class word_class) 5 50) as B eqn:HB.
    simpl. intros H.
    assert (HB' : alphabet B c = true -> word_class c = true)
      by (rewrite HB; apply alphabet_between).
    unfold header_char. unfold word_class in HB'.
    destruct (upper c), (lower c), (digit c), (PyStr.isspace c),
      (chr "&" c), (chr "-" c), (chr ":" c), (chr "." c), (chr "*" c);
      simpl in *; try reflexivity;
      destruct (alphabet B c); simpl in *; try discriminate;
      specialize (HB' eq_refl); discriminate.
  - unfold title_case_header. simpl. unfold header_char.
    destruct (upper c), (lower c), (digit c), (PyStr.isspace c),
      (chr "&" c), (chr "-" c), (chr ":" c), (chr "." c), (chr "*" c);
      simpl; try reflexivity; discriminate.
  - unfold bold_header. simpl. unfold header_char, word_class.
    destruct (upper c), (lower c), (digit c), (PyStr.isspace c),
      (chr "&" c), (chr "-" c), (chr ":" c), (chr "." c), (chr "*" c);
      simpl; try reflexivity; discriminate.
Qed.

(** The characters the four patterns start with. *)
Lemma header_patterns_first r c :
  In r header_patterns -> first r c = true -> header_start c = true.
Proof.
  unfold header_patterns. intros [<-|[<-|[<-|[<-|[]]]]].
  - unfold all_caps_header.
    remember (Cat (between (Class caps_class) 2 50) _) as R.
    simpl. unfold header_start.
    destruct (upper c), (digit c), (chr "*" c); simpl; intros;
      try reflexivity; discriminate.
  - unfold numbered_header.
    remember (Cat (opt (Class (chr "."))) _) as R.
    simpl. unfold header_start.
    destruct (upper c), (digit c), (chr "*" c); simpl; intros;
      try reflexivity; discriminate.
  - unfold title_case_header.
    remember (Cat (plus (Class lower)) _) as R.
    simpl. unfold header_start.
    destruct (upper c), (digit c), (chr "*" c); simpl; intros;
      try reflexivity; discriminate.
  - unfold bold_header.
    remember (Cat (plus (Class word_class)) _) as R.
    simpl. unfold header_start.
    destruct (upper c), (digit c), (chr "*" c); simpl; intros;
      try reflexivity; discriminate.
Qed.

End RegexFacts.

(* ===================================================================== *)
(** ** Page splitter: [_split_into_sections] and its callers *)
(* ===================================================================== *)

Module SplitterMore.
Import Splitter SplitterShape RegexFacts PyStrFacts SegmenterShape.

(** *** Lists *)

Lemma sorted_snoc {A} (R : A -> A -> Prop) l x :
  StronglySorted R l -> Forall (fun y => R y x) l ->
  StronglySorted R (l ++ [x]).
Proof.
  induction l as [|a l IH]; intros Hs Hall; simpl.
  - constructor; constructor.
  - inversion Hs; subst. inversion Hall; subst.
    constructor; [apply IH; assumption|].
    apply Forall_app. split; [assumption|]. constructor; [assumption|constructor].
Qed.

Lemma sorted_app {A} (R : A -> A -> Prop) l1 l2 :
  StronglySorted R l1 -> StronglySorted R l2 ->
  (forall a b, In a l1 -> In b l2 -> R a b) ->
  StronglySorted R (l1 ++ l2).
Proof.
  induction l1 as [|a l1 IH]; intros H1 H2 H; simpl; [exact H2|].
  inversion H1; subst. constructor.
  - apply IH; auto. intros x y Hx Hy. apply H; [right|]; assumption.
  - apply Forall_app. split; [assumption|].
    apply List.Forall_forall. intros y Hy. apply H; [left; reflexivity|exact Hy].
Qed.

Lemma lines_between_app a b (l more : list string) :
  (b <= length l)%nat ->
  lines_between a b (l ++ more) = lines_between a b l.
Proof.
  intros Hb. unfold lines_between.
  destruct (Nat.le_gt_cases a (length l)) as [Ha|Ha].
  - rewrite skipn_app. replace (a - length l)%nat with 0%nat by lia.
    simpl. rewrite firstn_app, length_skipn.
    replace (b - a - (length l - a))%nat with 0%nat by lia.
    simpl. apply app_nil_r.
  - replace (b - a)%nat with 0%nat by lia. reflexivity.
Qed.

Lemma lines_between_all a (l : list string) :
  lines_between a (length l) l = skipn a l.
Proof.
  unfold lines_between. apply firstn_all2. rewrite length_skipn. lia.
Qed.

Lemma nth_error_snoc {A} (l : list A) x : nth_error (l ++ [x]) (length l) = Some x.
Proof. induction l; simpl; auto. Qed.

Lemma nth_error_grow {A} (l more : list A) i x :
  nth_error l i = Some x -> nth_error (l ++ more) i = Some x.
Proof.
  intros H. rewrite nth_error_app1; [exact H|].
  apply nth_error_Some. congruence.
Qed.

(** *** The loop over the lines *)

Lemma enumerate_fold {St A} (f : St -> nat * A -> St)
    (I : list A -> St -> Prop) :
  (forall done st x, I done st -> I (done ++ [x]) (f st (length done, x))) ->
  forall ls done st,
    I done st ->
    I (done ++ ls) (fold_left f (Pipeline.enumerate_from (length done) ls) st).
Proof.
  intros Hstep ls. induction ls as [|x ls IH]; intros done st Hst; simpl.
  - rewrite app_nil_r. exact Hst.
  - replace (done ++ x :: ls) with ((done ++ [x]) ++ ls)
      by (rewrite <- app_assoc; reflexivity).
    replace (S (length done)) with (length (done ++ [x]))
      by (rewrite length_app; simpl; lia).
    apply IH. apply Hstep. exact Hst.
Qed.

(** The three cases of [split_step]. *)
Lemma split_step_blank page_num st i raw :
  PyStr.strip raw = EmptyString -> split_step page_num st (i, raw) = st.
Proof.
  intros H. unfold split_step. destruct st as [secs cur]. cbn [fst snd].
  rewrite H. reflexivity.
Qed.

Lemma split_step_header page_num secs cur i raw :
  PyStr.strip raw <> EmptyString ->
  is_header (PyStr.strip raw) = true ->
  cur_content cur <> EmptyString -> SegmenterRun.headed (cur_content cur) ->
  split_step page_num (secs, cur) (i, raw)
  = (close page_num cur i secs,
     Current (rstrip_char ":" (PyStr.strip raw)) EmptyString i).
Proof.
  intros Hne Hh Hc Hhd. unfold split_step. cbn [fst snd].
  apply SegmenterFacts.truthy_neq in Hne. rewrite Hne, Hh.
  rewrite SegmenterFacts.strip_truthy_headed by exact Hhd.
  apply SegmenterFacts.truthy_neq in Hc. rewrite Hc. reflexivity.
Qed.

Lemma split_step_body page_num secs cur i raw :
  PyStr.strip raw <> EmptyString ->
  is_header (PyStr.strip raw) = false \/ cur_content cur = EmptyString ->
  split_step page_num (secs, cur) (i, raw)
  = (secs,
     Current (title cur)
       (PyStr.cat (cur_content cur) (PyStr.cat (PyStr.strip raw) " "))
       (cur_start_line cur)).
Proof.
  intros Hne H. unfold split_step. cbn [fst snd].
  apply SegmenterFacts.truthy_neq in Hne. rewrite Hne.
  destruct H as [->| ->]; [reflexivity|].
  rewrite andb_false_r. reflexivity.
Qed.

(** The content under construction starts with a character that is not
    white space. *)
Lemma split_step_headed page_num st il :
  SegmenterRun.headed (cur_content (snd st)) ->
  SegmenterRun.headed (cur_content (snd (split_step page_num st il))).
Proof.
  intros Hh. destruct st as [secs cur]. destruct il as [i raw].
  destruct (PyStr.strip raw) as [|a r] eqn:Hs.
  { rewrite split_step_blank by exact Hs. exact Hh. }
  pose proof (SegmenterFacts.strip_headed raw) as Ha. rewrite Hs in Ha.
  unfold split_step. cbn [fst snd]. rewrite Hs. cbn [PyStr.truthy negb].
  destruct (is_header (String a r)
            && PyStr.truthy (PyStr.strip (cur_content cur))); cbn [snd cur_content].
  - exact I.
  - cbn [snd] in Hh. destruct (cur_content cur) as [|c0 r0] eqn:Ec.
    + rewrite cat_empty_l, cat_cons. exact Ha.
    + rewrite cat_cons. exact Hh.
Qed.

Lemma split_step_case page_num secs cur i raw :
  SegmenterRun.headed (cur_content cur) ->
  (PyStr.strip raw = EmptyString /\
   split_step page_num (secs, cur) (i, raw) = (secs, cur)) \/
  (PyStr.strip raw <> EmptyString /\
   is_header (PyStr.strip raw) = true /\
   split_step page_num (secs, cur) (i, raw)
   = (close page_num cur i secs,
      Current (rstrip_char ":" (PyStr.strip raw)) EmptyString i)) \/
  (PyStr.strip raw <> EmptyString /\
   split_step page_num (secs, cur) (i, raw)
   = (secs,
      Current (title cur)
        (PyStr.cat (cur_content cur) (PyStr.cat (PyStr.strip raw) " "))
        (cur_start_line cur))).
Proof.
  intros Hh.
  destruct (PyStr.strip raw) as [|a r] eqn:Hs.
  { left. split; [reflexivity|]. apply split_step_blank. exact Hs. }
  right. rewrite <- Hs.
  assert (Hne : PyStr.strip raw <> EmptyString) by (rewrite Hs; discriminate).
  destruct (is_header (PyStr.strip raw)) eqn:Ei.
  - destruct (string_dec (cur_content cur) EmptyString) as [Ec|Ec].
    + right. split; [exact Hne|]. apply split_step_body; auto.
    + left. split; [exact Hne|]. split; [reflexivity|].
      apply split_step_header; auto.
  - right. split; [exact Hne|]. apply split_step_body; auto.
Qed.

(** *** Where the sections are *)

Lemma well_placed_mono page_num n m s :
  (n <= m)%nat -> well_placed page_num n s -> well_placed page_num m s.
Proof.
  unfold well_placed. intros Hnm (H1 & H2 & H3 & H4 & H5 & H6).
  repeat split; auto. lia.
Qed.

Lemma close_placed page_num done secs cur :
  placed page_num done (secs, cur) ->
  Forall (well_placed page_num (length done))
         (close page_num cur (length done) secs) /\
  StronglySorted in_order (close page_num cur (length done) secs).
Proof.
  intros (Hall & Hs & Hend & Hcur). cbn [fst snd] in *. unfold close.
  destruct (10 <=? length (PyStr.split (cur_content cur)))%nat eqn:E;
    [|split; assumption].
  apply Nat.leb_le in E. split.
  - apply Forall_app. split; [exact Hall|]. constructor; [|constructor].
    unfold well_placed. cbn. repeat split; auto.
    + rewrite split_strip. exact E.
    + apply strip_idem.
  - apply sorted_snoc; [exact Hs|].
    eapply List.Forall_impl; [|exact Hend]. intros s Hs'. exact Hs'.
Qed.

Lemma placed_step page_num done st raw :
  SegmenterRun.headed (cur_content (snd st)) ->
  placed page_num done st ->
  placed page_num (done ++ [raw]) (split_step page_num st (length done, raw)).
Proof.
  destruct st as [secs cur]. cbn [snd]. intros Hh Hp.
  assert (Hlen : length (done ++ [raw]) = S (length done))
    by (rewrite length_app; simpl; lia).
  assert (Hweak : forall t c, placed page_num (done ++ [raw])
                    (secs, Current t c (cur_start_line cur))).
  { intros t c. destruct Hp as (Hall & Hs & Hend & Hcur). cbn [fst snd] in *.
    repeat split; cbn [fst snd cur_start_line]; auto; [|lia].
    eapply List.Forall_impl; [|exact Hall]. intros s.
    apply well_placed_mono. lia. }
  destruct (split_step_case page_num secs cur (length done) raw Hh)
    as [[_ ->]|[(_ & _ & ->)|[_ ->]]].
  - destruct cur as [t c sl]. apply Hweak.
  - destruct (close_placed page_num done secs cur Hp) as [H1 H2].
    repeat split; cbn [fst snd cur_start_line]; auto; [| |lia].
    + eapply List.Forall_impl; [|exact H1]. intros s.
      apply well_placed_mono. lia.
    + eapply List.Forall_impl; [|exact H1]. intros s Hs. apply Hs.
  - apply Hweak.
Qed.

(** *** What the sections hold *)

Lemma headed_by_grow lines more s :
  headed_by lines s -> headed_by (lines ++ more) s.
Proof.
  intros (raw & H1 & H2 & H3). exists raw. repeat split; auto.
  apply nth_error_grow. exact H1.
Qed.

Lemma cur_headed_grow lines more cur :
  cur_headed lines cur -> cur_headed (lines ++ more) cur.
Proof.
  intros (raw & H1 & H2 & H3). exists raw. repeat split; auto.
  apply nth_error_grow. exact H1.
Qed.

Lemma holds_text_grow page_num lines more s :
  (end_line s <= length lines)%nat ->
  holds_text page_num lines s -> holds_text page_num (lines ++ more) s.
Proof.
  intros Hend (from & Hstart & Htext). exists from. split.
  - destruct Hstart as [H|[H1 H2]]; [left; exact H|right].
    split; [exact H1|]. apply headed_by_grow. exact H2.
  - rewrite lines_between_app by exact Hend. exact Htext.
Qed.

Lemma close_texted page_num done secs cur :
  texted page_num done (secs, cur) ->
  Forall (fun s => holds_text page_num done s /\ (end_line s <= length done)%nat)
         (close page_num cur (length done) secs) /\
  Forall (headed_by done) (tail (close page_num cur (length done) secs)).
Proof.
  intros (Hall & Htail & (from & Hstart & Hfrom & Htext) & Hne & Hsp).
  cbn [fst snd] in *. unfold close.
  destruct (10 <=? length (PyStr.split (cur_content cur)))%nat;
    [|split; assumption].
  assert (Hsec : forall s,
            s = Section_ (title cur) (PyStr.strip (cur_content cur)) page_num
                  None (cur_start_line cur) (length done) ->
            cur_headed done cur -> headed_by done s).
  { intros s -> (raw & H1 & H2 & H3). exists raw. cbn. auto. }
  split.
  - apply Forall_app. split; [exact Hall|]. constructor; [|constructor].
    split; [|cbn; lia]. exists from. split.
    + destruct Hstart as [(H1 & H2 & H3)|[H1 H2]].
      * left. cbn. auto.
      * right. split; [exact H1|]. apply (Hsec _ eq_refl H2).
    + cbn [content end_line]. rewrite split_strip, lines_between_all.
      exact Htext.
  - destruct secs as [|s0 secs]; [constructor|].
    change (tail ((s0 :: secs) ++ [?x])) with (secs ++ [x]).
    apply Forall_app. split; [exact Htail|]. constructor; [|constructor].
    apply (Hsec _ eq_refl). apply Hne. discriminate.
Qed.

Lemma flat_map_split_snoc (l : list string) raw :
  flat_map PyStr.split (l ++ [raw])
  = flat_map PyStr.split l ++ PyStr.split (PyStr.strip raw).
Proof.
  rewrite flat_map_app. simpl. rewrite app_nil_r, split_strip. reflexivity.
Qed.

Lemma texted_step page_num done st raw :
  SegmenterRun.headed (cur_content (snd st)) ->
  texted page_num done st ->
  texted page_num (done ++ [raw]) (split_step page_num st (length done, raw)).
Proof.
  destruct st as [secs cur]. cbn [snd]. intros Hh Ht.
  assert (Hlen : length (done ++ [raw]) = S (length done))
    by (rewrite length_app; simpl; lia).
  destruct (split_step_case page_num secs cur (length done) raw Hh)
    as [[Hblank ->]|[(Hne & Hhead & ->)|[Hne ->]]].
  - destruct Ht as (Hall & Htail & (from & Hstart & Hfrom & Htext) & Hcur & Hsp).
    cbn [fst snd] in *. repeat split; cbn [fst snd].
    + eapply List.Forall_impl; [|exact Hall]. cbv beta.
      intros s [H1 H2]. split; [apply holds_text_grow; assumption|lia].
    + eapply List.Forall_impl; [|exact Htail]. intros s. apply headed_by_grow.
    + exists from. split; [|split; [lia|]].
      * destruct Hstart as [H|[H1 H2]]; [left; exact H|right].
        split; [exact H1|]. apply cur_headed_grow. exact H2.
      * rewrite skipn_app. replace (from - length done)%nat with 0%nat by lia.
        simpl skipn. rewrite flat_map_split_snoc, Hblank. simpl.
        rewrite app_nil_r. exact Htext.
    + intros H. apply cur_headed_grow. auto.
    + exact Hsp.
  - destruct (close_texted page_num done secs cur Ht) as [H1 H2].
    repeat split; cbn [fst snd cur_content].
    + eapply List.Forall_impl; [|exact H1]. cbv beta.
      intros s [Ha Hb]. split; [apply holds_text_grow; assumption|lia].
    + eapply List.Forall_impl; [|exact H2]. intros s. apply headed_by_grow.
    + exists (S (length done)). split; [|split; [lia|]].
      * right. split; [reflexivity|]. exists raw. cbn.
        split; [apply nth_error_snoc|]. auto.
      * rewrite skipn_all2 by lia. reflexivity.
    + intros _. exists raw. cbn. split; [apply nth_error_snoc|]. auto.
    + left. reflexivity.
  - destruct Ht as (Hall & Htail & (from & Hstart & Hfrom & Htext) & Hcur & Hsp).
    cbn [fst snd] in *. repeat split; cbn [fst snd cur_content].
    + eapply List.Forall_impl; [|exact Hall]. cbv beta.
      intros s [H1 H2]. split; [apply holds_text_grow; assumption|lia].
    + eapply List.Forall_impl; [|exact Htail]. intros s. apply headed_by_grow.
    + exists from. split; [|split; [lia|]].
      * destruct Hstart as [H|[H1 H2]]; [left; exact H|right].
        split; [exact H1|]. destruct H2 as (r0 & Ha & Hb & Hc).
        exists r0. cbn. split; [apply nth_error_grow; exact Ha|]. auto.
      * rewrite skipn_app. replace (from - length done)%nat with 0%nat by lia.
        simpl skipn. rewrite flat_map_split_snoc.
        rewrite SegmenterMore.split_spaced by exact Hsp. rewrite Htext.
        reflexivity.
    + intros H. destruct (Hcur H) as (r0 & Ha & Hb & Hc).
      exists r0. cbn. split; [apply nth_error_grow; exact Ha|]. auto.
    + right. exists (PyStr.cat (cur_content cur) (PyStr.strip raw)).
      rewrite cat_assoc. reflexivity.
Qed.

(** *** The whole loop *)

Lemma split_loop page_num (I : list string -> list section * current -> Prop) :
  (forall done st raw,
     SegmenterRun.headed (cur_content (snd st)) ->
     I done st -> I (done ++ [raw]) (split_step page_num st (length done, raw))) ->
  forall lines st,
    SegmenterRun.headed (cur_content (snd st)) ->
    I [] st ->
    I lines (fold_left (split_step page_num) (Pipeline.enumerate lines) st) /\
    SegmenterRun.headed
      (cur_content (snd (fold_left (split_step page_num)
                           (Pipeline.enumerate lines) st))).
Proof.
  intros Hstep lines st Hh Hi.
  apply (enumerate_fold (split_step page_num)
           (fun done st => I done st /\
                           SegmenterRun.headed (cur_content (snd st)))
           ltac:(intros done st0 x [H1 H2]; split;
                 [apply Hstep; assumption|apply split_step_headed; exact H2])
           lines [] st).
  split; assumption.
Qed.

(** [_split_into_sections] closes the section under construction after
    the loop. *)
Lemma _split_into_sections_close page_text page_num :
  exists secs cur,
    fold_left (split_step page_num)
      (Pipeline.enumerate (split_on LF page_text))
      ([], Current (default_title page_num) EmptyString 0)
    = (secs, cur) /\
    (_split_into_sections page_text page_num
     = close page_num cur (length (split_on LF page_text)) secs \/
     (_split_into_sections page_text page_num = secs /\
      cur_content cur = EmptyString)).
Proof.
  unfold _split_into_sections.
  pose proof (split_loop page_num (fun _ _ => True) ltac:(auto)
                (split_on LF page_text)
                ([], Current (default_title page_num) EmptyString 0)
                I I) as [_ Hh].
  destruct (fold_left _ _ _) as [secs cur]. exists secs, cur.
  split; [reflexivity|]. cbn [snd] in Hh.
  rewrite SegmenterFacts.strip_truthy_headed by exact Hh.
  destruct (cur_content cur); simpl; auto.
Qed.

Lemma split_sections_placed page_text page_num :
  Forall (well_placed page_num (length (split_on LF page_text)))
         (_split_into_sections page_text page_num) /\
  StronglySorted in_order (_split_into_sections page_text page_num).
Proof.
  destruct (_split_into_sections_close page_text page_num)
    as (secs & cur & Hfold & Hres).
  pose proof (split_loop page_num (placed page_num)
                ltac:(intros; apply placed_step; assumption)
                (split_on LF page_text)
                ([], Current (default_title page_num) EmptyString 0) I) as H.
  rewrite Hfold in H. destruct H as [Hp _].
  { repeat split; cbn; auto; constructor. }
  destruct Hres as [->|[-> _]].
  - apply close_placed. exact Hp.
  - destruct Hp as (H1 & H2 & _). split; assumption.
Qed.

Lemma split_sections_texted page_text page_num :
  Forall (holds_text page_num (split_on LF page_text))
         (_split_into_sections page_text page_num) /\
  Forall (headed_by (split_on LF page_text))
         (tail (_split_into_sections page_text page_num)).
Proof.
  destruct (_split_into_sections_close page_text page_num)
    as (secs & cur & Hfold & Hres).
  pose proof (split_loop page_num (texted page_num)
                ltac:(intros; apply texted_step; assumption)
                (split_on LF page_text)
                ([], Current (default_title page_num) EmptyString 0) I) as H.
  rewrite Hfold in H. destruct H as [Ht _].
  { repeat split; cbn; auto.
    - exists 0%nat. split; [left; auto|]. split; [lia|reflexivity].
    - congruence.
    - left. reflexivity. }
  assert (Hdrop : forall l : list section,
            Forall (fun s => holds_text page_num (split_on LF page_text) s /\
                             (end_line s <= length (split_on LF page_text))%nat) l ->
            Forall (holds_text page_num (split_on LF page_text)) l).
  { intros l Hl. eapply List.Forall_impl; [|exact Hl]. intros s [Hs _]. exact Hs. }
  destruct Hres as [->|[-> _]].
  - destruct (close_texted page_num _ secs cur Ht) as [H1 H2].
    split; [apply Hdrop; exact H1|exact H2].
  - destruct Ht as (H1 & H2 & _). split; [apply Hdrop; exact H1|exact H2].
Qed.

(** *** The loop over the pages *)

Lemma pages_loop_collect pages : forall page_num acc,
  match pages_loop page_num pages acc with
  | Ok r => Forall readable pages /\ r = acc ++ collect page_num pages
  | Raise _ => ~ Forall readable pages
  end.
Proof.
  induction pages as [|p pages IH]; intros n acc; simpl.
  - split; [constructor|]. rewrite app_nil_r. reflexivity.
  - unfold page_sections. destruct (extract_text p) as [text|e] eqn:Et.
    + assert (Hp : readable p) by (exists text; exact Et).
      destruct (too_short text).
      * specialize (IH (n + 1)%Z acc).
        destruct (pages_loop (n + 1) pages acc) as [r|e].
        -- destruct IH as [H1 ->]. split; [constructor; assumption|reflexivity].
        -- intros H. inversion H; subst. auto.
      * specialize (IH (n + 1)%Z
                      (acc ++ _split_into_sections (default EmptyString text) n)).
        destruct (pages_loop (n + 1) pages _) as [r|e].
        -- destruct IH as [H1 ->]. split; [constructor; assumption|].
           rewrite app_assoc. reflexivity.
        -- intros H. inversion H; subst. auto.
    + intros H. inversion H as [|? ? [text Ht] _]; subst. congruence.
Qed.

Lemma too_short_false t :
  too_short (Some t) = false -> (50 <= PyStr.len (PyStr.strip t))%nat.
Proof.
  unfold too_short. intros H. apply orb_false_iff in H.
  destruct H as [_ H]. apply Nat.ltb_ge in H. exact H.
Qed.

Lemma page_sections_spec n p s :
  In s (page_sections n p) ->
  exists t,
    extract_text p = Ok (Some t) /\
    (50 <= PyStr.len (PyStr.strip t))%nat /\
    In s (_split_into_sections t n).
Proof.
  unfold page_sections. destruct (extract_text p) as [[t|]|e].
  - destruct (too_short (Some t)) eqn:E; [intros []|].
    intros H. exists t. split; [reflexivity|].
    split; [apply too_short_false; exact E|exact H].
  - intros [].
  - intros [].
Qed.

Lemma section_eta s :
  source_file s = None ->
  Section_ (section_title s) (content s) (page_number s) None
    (start_line s) (end_line s) = s.
Proof. destruct s; simpl. intros ->. reflexivity. Qed.

Lemma same_page_sorted n (l : list section) :
  Forall (fun s => page_number s = n) l -> StronglySorted page_order l.
Proof.
  induction 1 as [|s l Hs Hl IH]; constructor; [exact IH|].
  eapply List.Forall_impl; [|exact Hl]. cbv beta. unfold page_order.
  intros s' Hs'. lia.
Qed.

Lemma collect_on_page pages : forall n,
  Forall (fun s => on_page pages n s /\
                   (10 <= length (PyStr.split (content s)))%nat /\
                   source_file s = None)
         (collect n pages) /\
  StronglySorted page_order (collect n pages) /\
  Forall (fun s => (n <= page_number s)%Z) (collect n pages).
Proof.
  induction pages as [|p pages IH]; intros n; simpl.
  - repeat split; constructor.
  - destruct (IH (n + 1)%Z) as (H1 & H2 & H3).
    assert (Hhere : forall s, In s (page_sections n p) ->
              page_number s = n /\
              (10 <= length (PyStr.split (content s)))%nat /\
              source_file s = None /\
              exists t, extract_text p = Ok (Some t) /\
                        (50 <= PyStr.len (PyStr.strip t))%nat /\
                        In s (_split_into_sections t n)).
    { intros s Hs. apply page_sections_spec in Hs.
      destruct Hs as (t & Ht & Hlen & Hin).
      destruct (split_sections_placed t n) as [Hall _].
      rewrite List.Forall_forall in Hall.
      destruct (Hall s Hin) as (Hp & Hsrc & Hw & _).
      repeat split; auto. exists t. auto. }
    repeat split.
    + apply Forall_app. split.
      * apply List.Forall_forall. intros s Hs.
        destruct (Hhere s Hs) as (Hp & Hw & Hsrc & t & Ht & Hlen & Hin).
        split; [|split; assumption].
        exists 0%nat, p, t. simpl. repeat split; auto; [lia|].
        rewrite (section_eta s Hsrc), Hp. exact Hin.
      * eapply List.Forall_impl; [|exact H1]. cbv beta.
        intros s ((i & q & t & Hn & Ht & Hlen & Hp & Hin) & Hw & Hsrc).
        split; [|split; assumption].
        exists (S i), q, t. simpl. repeat split; auto. lia.
    + apply sorted_app; [|exact H2|].
      * apply same_page_sorted with (n := n).
        apply List.Forall_forall. intros s Hs. apply (Hhere s Hs).
      * intros a b Ha Hb. unfold page_order.
        destruct (Hhere a Ha) as [-> _].
        rewrite List.Forall_forall in H3. specialize (H3 b Hb). lia.
    + apply Forall_app. split.
      * apply List.Forall_forall. intros s Hs.
        destruct (Hhere s Hs) as [-> _]. lia.
      * eapply List.Forall_impl; [|exact H3]. cbv beta. intros s Hs. lia.
Qed.

End SplitterMore.

Module SplitterExtra.
Import Splitter SplitterShape RegexFacts PyStrFacts SegmenterShape SplitterMore.

(** A line taken for a section header starts with a capital letter, a
    digit or an asterisk, and is made only of letters, digits, white
    space and the characters [& - : . *]: a line with a comma, a
    question mark or a bracket, or one that starts with a small letter,
    is never a header. *)
Theorem header_lines_are_plain :
  forall line : string,
    is_header line = true ->
    starts_with header_start line = true /\
    all_chars header_char line = true.
Proof.
  intros line H. unfold is_header in H. apply existsb_exists in H.
  destruct H as (r & Hr & Hm). split.
  - destruct line as [|a s].
    + exfalso. revert Hm. unfold header_patterns in Hr.
      destruct Hr as [<-|[<-|[<-|[<-|[]]]]]; simpl; discriminate.
    + simpl. apply (header_patterns_first r a Hr).
      apply (matches_first r a s Hm).
  - apply matches_alphabet in Hm.
    eapply all_chars_impl; [|exact Hm].
    intros c. apply header_patterns_alphabet. exact Hr.
Qed.

Lemma header_lines_are_plain_witness :
  is_header "Travel Tips:" = true /\
  starts_with header_start "Travel Tips:" = true /\
  all_chars header_char "Travel Tips:" = true.
Proof.
  split; [vm_compute; reflexivity|].
  apply (header_lines_are_plain "Travel Tips:").
  vm_compute. reflexivity.
Defined.

(** Every section split from a page carries the page number given, no
    source file yet, and a non-empty content of at least ten words
    without surrounding white space; its line range lies within the
    page, and the sections come in line order without overlapping. *)
Theorem split_sections_are_long_enough_and_in_line_order :
  forall (page_text : string) (page_num : Z),
    let lines := split_on LF page_text in
    let secs := _split_into_sections page_text page_num in
    Forall (fun s =>
              page_number s = page_num /\
              source_file s = None /\
              content s <> EmptyString /\
              (10 <= length (PyStr.split (content s)))%nat /\
              PyStr.strip (content s) = content s /\
              (start_line s <= end_line s <= length lines)%nat)
           secs /\
    StronglySorted in_order secs.
Proof.
  intros page_text page_num lines secs. subst lines secs.
  destruct (split_sections_placed page_text page_num) as [Hall Hs].
  split; [|exact Hs].
  eapply List.Forall_impl; [|exact Hall]. cbv beta.
  intros s (H1 & H2 & H3 & H4 & H5 & H6).
  repeat split; auto.
  intros E. rewrite E in H3. simpl in H3. lia.
Qed.

(** The words of a section are exactly the words of the lines of the
    page from its text start to its end line, where the text starts
    after the header line that gives the section its title (the title
    is that line without its trailing colons), or at the top of the
    page for a section titled "Page N Content"; only the first section
    of a page can have that default title. *)
Theorem split_sections_hold_the_lines_between_their_bounds :
  forall (page_text : string) (page_num : Z),
    let lines := split_on LF page_text in
    let secs := _split_into_sections page_text page_num in
    Forall (fun s =>
              exists from,
                text_start page_num lines s from /\
                PyStr.split (content s)
                = flat_map PyStr.split (lines_between from (end_line s) lines))
           secs /\
    Forall (headed_by lines) (tail secs).
Proof.
  intros page_text page_num lines secs. subst lines secs.
  destruct (split_sections_texted page_text page_num) as [Hall Htail].
  split; [|exact Htail].
  eapply List.Forall_impl; [|exact Hall]. cbv beta.
  intros s (from & Hstart & Htext). exists from. split; assumption.
Qed.

(** Extraction with real page numbers is all or nothing: if the file
    cannot be opened or the text of any page cannot be read, no
    section is returned.  Otherwise every section returned carries the
    file name (the part of the path after the last slash), has at
    least ten words, and was split from the text of the page whose
    number it carries, a page between 1 and the number of pages whose
    stripped text has at least 50 characters; the sections are in page
    order. *)
Theorem real_pages_extraction_is_all_or_nothing :
  forall (opened : result (list page)) (pdf_path : string),
    let secs := process_pdf_with_real_pages opened pdf_path in
    let filename := Segmenter.last_field "/" EmptyString pdf_path in
    (secs <> [] -> exists pages, opened = Ok pages /\ Forall readable pages) /\
    Forall (fun s =>
              source_file s = Some filename /\
              (10 <= length (PyStr.split (content s)))%nat /\
              exists pages, opened = Ok pages /\ on_page pages 1 s)
           secs /\
    StronglySorted page_order secs /\
    ~ occurs "/" filename.
Proof.
  intros opened pdf_path secs filename. subst secs filename.
  assert (Hname : ~ occurs "/" (Segmenter.last_field "/" EmptyString pdf_path)).
  { intros H. apply SegmenterMore.last_field_occurs in H. simpl in H.
    destruct H as [[]|[Hne _]]. congruence. }
  unfold process_pdf_with_real_pages, _extract_sections_with_real_pages.
  destruct opened as [pages|e].
  2:{ simpl. repeat split; auto; try constructor. congruence. }
  pose proof (pages_loop_collect pages 1 []) as H.
  destruct (pages_loop 1 pages []) as [r|e].
  2:{ simpl. repeat split; auto; try constructor. congruence. }
  destruct H as [Hread ->]. simpl app.
  destruct (collect_on_page pages 1) as (H1 & H2 & _).
  split; [intros _; exists pages; auto|].
  split; [|split; [|exact Hname]].
  - apply List.Forall_forall. intros s Hs. apply in_map_iff in Hs.
    destruct Hs as (s0 & <- & Hs0).
    rewrite List.Forall_forall in H1.
    destruct (H1 s0 Hs0) as (Hon & Hw & Hsrc).
    split; [reflexivity|]. split; [exact Hw|].
    exists pages. split; [reflexivity|]. exact Hon.
  - clear H1 Hread. induction H2 as [|a l Hl IHl Ha]; simpl; constructor.
    + exact IHl.
    + apply List.Forall_forall. intros b Hb. apply in_map_iff in Hb.
      destruct Hb as (b0 & <- & Hb0).
      rewrite List.Forall_forall in Ha. apply (Ha b0 Hb0).
Qed.

End SplitterExtra.
